(** * ml-inventory-counter: dataset preparation and annotation counting

    A shallow embedding of [src/prepare_dataset.py] (the Dataset Preparer)
    and [train/utils.py] (the Annotation Counter), with the properties of
    their specification proved or refuted on the embedding.

    Modelling conventions.
    - Text is [string]; a character is a code point below 256.  On that
      range the whitespace of [str.strip]/[str.split] and the digits
      accepted by [int] are exactly the ones listed below.
    - Python integers are unbounded: [Z] for a class id, [nat] for a
      counter that only ever grows from zero.
    - Python statements run in the monad [M]: a state (file system, heap
      of [defaultdict(int)] objects, standard output) is threaded through,
      and a raised exception keeps the state reached so far. *)

From Stdlib Require Import ZArith Ascii String List Bool Lia.
From stdpp Require Import base option list gmap strings.

Local Open Scope string_scope.
Local Open Scope Z_scope.

(** ** Python string primitives *)

Module PyStr.

(** [str.isspace] on one character (code points below 256): TAB, LF, VT,
    FF, CR, FS, GS, RS, US, SPACE, NEL and NBSP. *)
Definition isspace (c : ascii) : bool :=
  let n := N_of_ascii c in
  ((9 <=? n) && (n <=? 13) || (28 <=? n) && (n <=? 32)
   || (n =? 133) || (n =? 160))%N.

Fixpoint lstrip (s : string) : string :=
  match s with
  | EmptyString => EmptyString
  | String c r => if isspace c then lstrip r else s
  end.

Fixpoint rstrip (s : string) : string :=
  match s with
  | EmptyString => EmptyString
  | String c r =>
      match rstrip r with
      | EmptyString => if isspace c then EmptyString else String c EmptyString
      | r' => String c r'
      end
  end.

(** [s.strip()] *)
Definition strip (s : string) : string := rstrip (lstrip s).

(** [s.split()] with no separator: the maximal runs of non-whitespace
    characters, in order.  [cur] is the run being read, reversed. *)
Fixpoint split_from (cur : list ascii) (s : string) : list string :=
  match s with
  | EmptyString =>
      match cur with
      | [] => []
      | _ => [string_of_list_ascii (rev cur)]
      end
  | String c r =>
      if isspace c then
        match cur with
        | [] => split_from [] r
        | _ => string_of_list_ascii (rev cur) :: split_from [] r
        end
      else split_from (c :: cur) r
  end.

Definition split (s : string) : list string := split_from [] s.

(** [s.endswith(suffix)] *)
Fixpoint startswith (s prefix : string) : bool :=
  match prefix, s with
  | EmptyString, _ => true
  | String p ps, String c r => Ascii.eqb p c && startswith r ps
  | String _ _, EmptyString => false
  end.

Definition str_rev (s : string) : string :=
  string_of_list_ascii (rev (list_ascii_of_string s)).

Definition endswith (s suffix : string) : bool :=
  startswith (str_rev s) (str_rev suffix).

(** [s.lower()]: A-Z, and the Latin-1 capitals U+00C0..U+00DE except the
    multiplication sign U+00D7, move up by 32. *)
Definition lower_char (c : ascii) : ascii :=
  let n := N_of_ascii c in
  if ((65 <=? n) && (n <=? 90)
      || (192 <=? n) && (n <=? 222) && negb (n =? 215))%N
  then ascii_of_N (n + 32) else c.

Fixpoint lower (s : string) : string :=
  match s with
  | EmptyString => EmptyString
  | String c r => String (lower_char c) (lower r)
  end.

(** [os.path.splitext(name)[0]] for a name without directory separator:
    the name up to its last dot, unless only dots precede that dot (then
    the whole name is the root).  [rfind_dot] is the index of the last
    dot. *)
Fixpoint rfind_dot (s : string) : option nat :=
  match s with
  | EmptyString => None
  | String c r =>
      match rfind_dot r with
      | Some i => Some (S i)
      | None => if Ascii.eqb c "." then Some O else None
      end
  end.

Fixpoint all_dots (s : string) : bool :=
  match s with
  | EmptyString => true
  | String c r => Ascii.eqb c "." && all_dots r
  end.

Definition splitext_root (name : string) : string :=
  match rfind_dot name with
  | None => name
  | Some i =>
      let root := substring 0 i name in
      if all_dots root then name else root
  end.

(** [int(s)] in base 10.  After stripping: an optional sign, then decimal
    digits in which single underscores may separate digits.  [None] is
    [ValueError].  (CPython from 3.11 on also refuses a literal of more
    than [sys.int_max_str_digits] digits; that limit is not modelled.) *)
Definition digit_value (c : ascii) : option Z :=
  let n := N_of_ascii c in
  if ((48 <=? n) && (n <=? 57))%N then Some (Z.of_N n - 48) else None.

Fixpoint int_digits (prev_underscore : bool) (acc : Z) (s : string)
  : option Z :=
  match s with
  | EmptyString => if prev_underscore then None else Some acc
  | String c r =>
      if Ascii.eqb c "_" then
        if prev_underscore then None else int_digits true acc r
      else
        match digit_value c with
        | Some d => int_digits false (acc * 10 + d) r
        | None => None
        end
  end.

Definition int_unsigned (s : string) : option Z :=
  match s with
  | EmptyString => None
  | String c _ => if Ascii.eqb c "_" then None else int_digits false 0 s
  end.

Definition int (s : string) : option Z :=
  match strip s with
  | String "+" r => int_unsigned r
  | String "-" r => Z.opp <$> int_unsigned r
  | t => int_unsigned t
  end.

End PyStr.

(** ** Exceptions, file system, heap and standard output *)

Inductive exn :=
| ValueError (literal : string)       (* int() on a malformed literal *)
| OSError (name : string)             (* open / copy / write failed *)
| UnicodeDecodeError (name : string)  (* reading text that does not decode *)
| FileNotFoundError (name : string)   (* os.listdir on a missing directory *)
| FileExistsError (name : string)     (* os.makedirs over a regular file *)
| KeyError (key : string)
| IndexError (index : Z)
| UnboundLocalError (var : string).

Inductive split := Train | Validation.

Definition path := list string.

(** The manifest written to [data.yaml]. *)
Record manifest := Manifest {
  m_path : path;
  m_train : string;
  m_val : string;
  m_nc : nat;
  m_names : list string
}.

Inductive data :=
| Text (lines : list string)     (* a label file, as the lines read from it *)
| Image (bytes : string)
| Yaml (m : manifest)
| Garbled (lines : list string)
    (* a text file whose reading fails part-way, on bytes that do not
       decode: iterating over it yields these lines and then raises,
       [readlines()] raises without yielding any *)
| Partial (whole : data).
    (* what a write of [whole] that failed part-way left behind: some
       initial part of its bytes, possibly none or all of them *)

Inductive node := Dir | File (d : data).

(** A directory is its entries in [os.listdir] order; an entry without
    data is one that cannot be opened as a regular file. *)
Definition directory := list (string * option data).

(** The three directory trees the programs touch.  [RAW_IMAGES_DIR] and
    the two label directories under [CVAT_EXPORTS_BASE_DIR] are flat
    listings; [OUTPUT_DATA_DIR] is a tree keyed by the path below it.
    [None] is a directory that does not exist.  [write_fails] is the
    environment's verdict on creating the file at a path below
    [OUTPUT_DATA_DIR] (quota, permissions, a full disk), and
    [partial_write] tells how a failing write fails: before the file is
    created or truncated (nothing changes), or after (the file stays, with
    an initial part of the contents). *)
Record filesystem := FileSystem {
  raw_images_dir : option directory;
  labels_train_dir : option directory;
  labels_validation_dir : option directory;
  output_data_dir : option (gmap path node);
  write_fails : path -> bool;
  partial_write : path -> bool;
  cwd : path
}.

(** A file to read: in [RAW_IMAGES_DIR], or in [labels/<split>]. *)
Inductive src_path :=
| RawImage (name : string)
| Label (s : split) (name : string).

Definition basename (p : src_path) : string :=
  match p with RawImage n => n | Label _ n => n end.

(** Diagnostics and report lines written to standard output. *)
Inductive msg :=
(* prepare_dataset.py *)
| CleaningOutput
| FoundImages (n : nat)
| WarnLabelsDirNotFound (s : split)
| WarnNoImage (label_filename : string) (s : split)
| PreparationSummary
| Prepared (train_images val_images : nat)
| TotalPerClassHeader
| ClassTotal (name : string) (id : nat) (objects : nat)
| SkippedImages (n : nat)
| NothingProcessed
| YamlCreated
| DatasetSaved
| WarnMalformed (file line : string)
| WarnOutOfBounds (class_id : Z) (file : string)
| ErrorProcessing (file : string) (e : exn)
(* utils.py *)
| Scanning (s : split)
| NoTxtFiles (s : split)
| WarnLabelsDirNotCounted (s : split)
| AnnotationSummary
| SplitTotal (s : split) (objects : nat)
| NoObjects (s : split)
| SplitClassCount (s : split) (name : string) (id : nat) (objects : nat)
| OverallTotal (objects : nat)
| OverallClassCount (name : string) (id : nat) (objects : nat)
| ProgressHeader
| NeedsMore (name : string) (count target : nat)
| TargetMet (name : string) (count target : nat)
| AllTargetsMet
| ContinueAnnotating
| WarnMalformedSkipping (file line : string)
| ErrorReading (file : string) (e : exn).

(** A [defaultdict(int)] object lives in the heap and is named by its
    location, so that a callee's updates are seen by the caller, also
    when the callee ends in an exception. *)
Definition loc := nat.

Record state := State {
  fs : filesystem;
  heap : list (gmap string nat);
  stdout : list msg
}.

(** ** The monad of Python statements *)

Inductive outcome (A : Type) :=
| Returns (a : A)
| Raises (e : exn).
Arguments Returns {A} a.
Arguments Raises {A} e.

Definition M (A : Type) : Type := state -> state * outcome A.

Definition ret {A} (a : A) : M A := fun s => (s, Returns a).

Definition bind {A B} (m : M A) (k : A -> M B) : M B :=
  fun s =>
    match m s with
    | (s', Returns a) => k a s'
    | (s', Raises e) => (s', Raises e)
    end.

Definition raise {A} (e : exn) : M A := fun s => (s, Raises e).

(** [try: m  except Exception as e: h e] *)
Definition try_except {A} (m : M A) (h : exn -> M A) : M A :=
  fun s =>
    match m s with
    | (s', Returns a) => (s', Returns a)
    | (s', Raises e) => h e s'
    end.

Notation "'do' x <- m ; k" := (bind m (fun x => k))
  (at level 10, x name, m at level 100, k at level 200,
   format "'[v' 'do'  x  <-  m ; '/' k ']'").
Notation "'do' ' p <- m ; k" := (bind m (fun x => match x with p => k end))
  (at level 10, p pattern, m at level 100, k at level 200,
   format "'[v' 'do'  ' p  <-  m ; '/' k ']'").
Notation "'run' m ; k" := (bind m (fun _ => k))
  (at level 10, m at level 100, k at level 200,
   format "'[v' 'run'  m ; '/' k ']'").

(** [for x in xs: body], the loop's local variables being threaded
    through as [acc]. *)
Fixpoint for_ {A B} (xs : list A) (acc : B) (body : A -> B -> M B) : M B :=
  match xs with
  | [] => ret acc
  | x :: xs' => do acc' <- body x acc; for_ xs' acc' body
  end.

Definition when (b : bool) (m : M unit) : M unit := if b then m else ret tt.

(** *** Primitives *)

Definition print (m : msg) : M unit :=
  fun s => (State (fs s) (heap s) (stdout s ++ [m]), Returns tt).

Definition set_fs (f : filesystem) : M unit :=
  fun s => (State f (heap s) (stdout s), Returns tt).

Definition get_fs : M filesystem := fun s => (s, Returns (fs s)).

(** [defaultdict(int)] *)
Definition defaultdict_int : M loc :=
  fun s => (State (fs s) (heap s ++ [∅]) (stdout s),
            Returns (length (heap s))).

Definition dict_at (h : list (gmap string nat)) (d : loc) : gmap string nat :=
  default ∅ (h !! d).

Definition count_of (m : gmap string nat) (key : string) : nat :=
  default 0%nat (m !! key).

(** [d[key] += 1] *)
Definition dict_incr (d : loc) (key : string) : M unit :=
  fun s =>
    let m := dict_at (heap s) d in
    (State (fs s) (<[d := <[key := S (count_of m key)]> m]> (heap s))
           (stdout s),
     Returns tt).

(** [d[key]]: a missing key is first stored with the default 0. *)
Definition dict_getitem (d : loc) (key : string) : M nat :=
  fun s =>
    let m := dict_at (heap s) d in
    (State (fs s) (<[d := <[key := count_of m key]> m]> (heap s)) (stdout s),
     Returns (count_of m key)).

(** [d[key] = v] *)
Definition dict_setitem (d : loc) (key : string) (v : nat) : M unit :=
  fun s =>
    (State (fs s) (<[d := <[key := v]> (dict_at (heap s) d)]> (heap s))
           (stdout s),
     Returns tt).

Fixpoint dir_lookup (name : string) (d : directory) : option (option data) :=
  match d with
  | [] => None
  | (n, x) :: d' => if String.eqb n name then Some x else dir_lookup name d'
  end.

Definition labels_dir (f : filesystem) (s : split) : option directory :=
  match s with
  | Train => labels_train_dir f
  | Validation => labels_validation_dir f
  end.

Definition src_dir (f : filesystem) (p : src_path) : option directory :=
  match p with
  | RawImage _ => raw_images_dir f
  | Label s _ => labels_dir f s
  end.

(** The data of a readable regular file. *)
Definition file_data (f : filesystem) (p : src_path) : option data :=
  d ← src_dir f p; x ← dir_lookup (basename p) d; x.

(** [os.path.exists] on a label directory and on [OUTPUT_DATA_DIR] *)
Definition labels_dir_exists (sp : split) : M bool :=
  fun s => (s, Returns (bool_decide (is_Some (labels_dir (fs s) sp)))).

Definition output_dir_exists : M bool :=
  fun s => (s, Returns (bool_decide (is_Some (output_data_dir (fs s))))).

(** [os.listdir] *)
Definition listdir_labels (sp : split) : M (list string) :=
  fun s =>
    match labels_dir (fs s) sp with
    | Some d => (s, Returns (d.*1))
    | None => (s, Raises (FileNotFoundError "labels"))
    end.

Definition listdir_raw_images : M (list string) :=
  fun s =>
    match raw_images_dir (fs s) with
    | Some d => (s, Returns (d.*1))
    | None => (s, Raises (FileNotFoundError "raw_images"))
    end.

(** [open(p, 'r')] followed by [f.readlines()], as in prepare_dataset.py:
    every line is read before the first is looked at, so a file whose
    reading fails part-way yields none. *)
Definition read_lines (p : src_path) : M (list string) :=
  fun s =>
    match file_data (fs s) p with
    | Some (Text lines) => (s, Returns lines)
    | Some (Garbled _) => (s, Raises (UnicodeDecodeError (basename p)))
    | _ => (s, Raises (OSError (basename p)))
    end.

(** [open(p, 'r')] followed by [for line in f], as in utils.py: the lines
    the iteration hands to the loop body, and the exception that ends it
    on a file whose reading fails part-way, which is raised only after the
    body has run on those lines. *)
Definition iter_lines (p : src_path) : M (list string * option exn) :=
  fun s =>
    match file_data (fs s) p with
    | Some (Text lines) => (s, Returns (lines, None))
    | Some (Garbled lines) =>
        (s, Returns (lines, Some (UnicodeDecodeError (basename p))))
    | _ => (s, Raises (OSError (basename p)))
    end.

Definition with_output (f : filesystem) (o : option (gmap path node))
  : filesystem :=
  FileSystem (raw_images_dir f) (labels_train_dir f)
             (labels_validation_dir f) o (write_fails f) (partial_write f)
             (cwd f).

(** [shutil.rmtree(OUTPUT_DATA_DIR)] *)
Definition rmtree_output : M unit :=
  fun s => (State (with_output (fs s) None) (heap s) (stdout s), Returns tt).

(** [os.makedirs(os.path.join(OUTPUT_DATA_DIR, a, b), exist_ok=True)]:
    [OUTPUT_DATA_DIR], [a] and [a/b] become directories; a regular file in
    the way is [FileExistsError]. *)
Definition mkdir_in (t : gmap path node) (p : path)
  : option (gmap path node) :=
  match t !! p with
  | Some (File _) => None
  | _ => Some (<[p := Dir]> t)
  end.

Definition makedirs_tree (t : gmap path node) (a b : string)
  : option (gmap path node) :=
  mkdir_in t [a] ≫= (fun t' => mkdir_in t' [a; b]).

Definition makedirs_output (a b : string) : M unit :=
  fun s =>
    let t := default ∅ (output_data_dir (fs s)) in
    match makedirs_tree t a b with
    | Some t'' =>
        (State (with_output (fs s) (Some t'')) (heap s) (stdout s),
         Returns tt)
    | None => (s, Raises (FileExistsError a))
    end.

(** Creating the file [dst] (a path below [OUTPUT_DATA_DIR]) with
    contents [d]: its directory must exist and the environment must
    allow the write.  A write that fails raises; it has either changed
    nothing (the file could not be opened for writing) or left the file
    created or truncated with an initial part of [d], as [shutil.copy]
    and [open(..., 'w')] do when the failure comes after the open. *)
Definition parent (p : path) : path := removelast p.

Definition is_dir (t : gmap path node) (p : path) : bool :=
  match p with
  | [] => true
  | _ => match t !! p with Some Dir => true | _ => false end
  end.

Definition write_output (dst : path) (d : data) : M unit :=
  fun s =>
    match output_data_dir (fs s) with
    | Some t =>
        if is_dir t (parent dst) && negb (write_fails (fs s) dst)
        then (State (with_output (fs s) (Some (<[dst := File d]> t)))
                    (heap s) (stdout s),
              Returns tt)
        else if is_dir t (parent dst) && partial_write (fs s) dst
        then (State (with_output (fs s) (Some (<[dst := File (Partial d)]> t)))
                    (heap s) (stdout s),
              Raises (OSError (default "" (last dst))))
        else (s, Raises (OSError (default "" (last dst))))
    | None => (s, Raises (OSError (default "" (last dst))))
    end.

(** [shutil.copy(src, os.path.join(OUTPUT_DATA_DIR, *dst))] *)
Definition shutil_copy (src : src_path) (dst : path) : M unit :=
  fun s =>
    match file_data (fs s) src with
    | Some d => write_output dst d s
    | None => (s, Raises (OSError (basename src)))
    end.

(** [int(s)] *)
Definition int_ (s : string) : M Z :=
  match PyStr.int s with
  | Some z => ret z
  | None => raise (ValueError s)
  end.

(** [l[i]] on a list: negative indices count from the end, anything
    outside [-len, len) is [IndexError]. *)
Definition list_getitem {A} (l : list A) (i : Z) : M A :=
  let j := if i <? 0 then Z.of_nat (length l) + i else i in
  if j <? 0 then raise (IndexError i)
  else match l !! Z.to_nat j with
       | Some x => ret x
       | None => raise (IndexError i)
       end.

(** [l.index(x)] *)
Fixpoint index_of (l : list string) (x : string) : option nat :=
  match l with
  | [] => None
  | y :: l' => if String.eqb y x then Some O else S <$> index_of l' x
  end.

Definition list_index (l : list string) (x : string) : M nat :=
  match index_of l x with
  | Some i => ret i
  | None => raise (ValueError x)
  end.

(** [for x in xs: body] inside a [try] whose handler falls through to
    code that still reads the loop's local variables: the value [acc] had
    when the exception was raised is handed back with the exception. *)
Fixpoint for_catch {A B} (xs : list A) (acc : B) (body : A -> B -> M B)
  : M (B * option exn) :=
  match xs with
  | [] => ret (acc, None)
  | x :: xs' =>
      fun s =>
        match body x acc s with
        | (s', Returns acc') => for_catch xs' acc' body s'
        | (s', Raises e) => (s', Returns (acc, Some e))
        end
  end.

(** ** Configuration shared by the two scripts *)

Definition CLASS_NAMES : list string := ["carrot"; "bean"; "radish"].

Definition in_bounds (class_id : Z) (class_names_list : list string) : bool :=
  (0 <=? class_id) && (class_id <? Z.of_nat (length class_names_list)).

(** ** src/prepare_dataset.py *)

Module PrepareDataset.

(** The body of the loop over the lines of a label file
    (prepare_dataset.py, lines 138-147). *)
Definition copy_and_count_annotation_line
    (exported_label_path : src_path) (class_names_list : list string)
    (total_objects_per_class_dict : loc) (line : string) : M unit :=
  let parts := PyStr.split (PyStr.strip line) in
  if (length parts <? 5)%nat then
    print (WarnMalformed (basename exported_label_path) (PyStr.strip line))
  else
    do p0 <- list_getitem parts 0;
    do class_id <- int_ p0;
    if in_bounds class_id class_names_list then
      do name <- list_getitem class_names_list class_id;
      dict_incr total_objects_per_class_dict name
    else
      print (WarnOutOfBounds class_id (basename exported_label_path)).

Definition copy_and_count_annotation
    (raw_img_path exported_label_path : src_path)
    (target_img_dir target_lbl_dir : path)
    (class_names_list : list string) (total_objects_per_class_dict : loc)
  : M bool :=
  try_except
    (do lines <- read_lines exported_label_path;
     run for_ lines tt
           (fun line _ =>
              copy_and_count_annotation_line exported_label_path
                class_names_list total_objects_per_class_dict line);
     run shutil_copy exported_label_path
           (target_lbl_dir ++ [basename exported_label_path])%list;
     run shutil_copy raw_img_path
           (target_img_dir ++ [basename raw_img_path])%list;
     ret true)
    (fun e =>
       run print (ErrorProcessing (basename exported_label_path) e);
       ret false).

Definition is_image_name (f : string) : bool :=
  let l := PyStr.lower f in
  PyStr.endswith l ".jpg" || PyStr.endswith l ".jpeg"
  || PyStr.endswith l ".png".

(** [{os.path.splitext(f)[0] for f in names if ...}] *)
Definition basenames_of (names : list string) : gset string :=
  list_to_set (PyStr.splitext_root <$> filter (fun f => is_image_name f = true) names).

(** [{os.path.splitext(f)[0]: os.path.join(RAW_IMAGES_DIR, f) for f in
    names if ...}]: a later name replaces an earlier one with the same
    base name. *)
Definition full_paths_of (names : list string) : gmap string src_path :=
  foldl (fun m f => <[PyStr.splitext_root f := RawImage f]> m) ∅
        (filter (fun f => is_image_name f = true) names).

Definition dict_lookup (m : gmap string src_path) (key : string)
  : M src_path :=
  match m !! key with
  | Some p => ret p
  | None => raise (KeyError key)
  end.

Definition out_split (sp : split) : string :=
  match sp with Train => "train" | Validation => "val" end.

(** The body of the loop over the label files of one split.  The source
    has it twice (lines 54-73 for [train], 78-97 for [validation]), the
    same text up to the split; [image_count] is [train_image_count] in
    the first and [val_image_count] in the second. *)
Definition prepare_label_file (sp : split)
    (all_raw_images_basenames : gset string)
    (raw_images_full_paths : gmap string src_path)
    (total_objects_per_class : loc)
    (label_filename : string) (counters : nat * nat) : M (nat * nat) :=
  let '(image_count, skipped_image_count) := counters in
  if negb (PyStr.endswith label_filename ".txt") then ret counters
  else
    let base_name := PyStr.splitext_root label_filename in
    if bool_decide (base_name ∉ all_raw_images_basenames) then
      run print (WarnNoImage label_filename sp);
      ret (image_count, S skipped_image_count)
    else
      do raw_img_path <- dict_lookup raw_images_full_paths base_name;
      let exported_label_path := Label sp label_filename in
      let target_img_dir := [out_split sp; "images"] in
      let target_lbl_dir := [out_split sp; "labels"] in
      do ok <- copy_and_count_annotation raw_img_path exported_label_path
                 target_img_dir target_lbl_dir CLASS_NAMES
                 total_objects_per_class;
      if ok then ret (S image_count, skipped_image_count)
      else ret (image_count, S skipped_image_count).

Definition prepare_split (sp : split)
    (all_raw_images_basenames : gset string)
    (raw_images_full_paths : gmap string src_path)
    (total_objects_per_class : loc) (counters : nat * nat)
  : M (nat * nat) :=
  do present <- labels_dir_exists sp;
  if present then
    do names <- listdir_labels sp;
    for_ names counters
      (prepare_label_file sp all_raw_images_basenames raw_images_full_paths
         total_objects_per_class)
  else ret counters.

Definition data_yaml_content (f : filesystem) : manifest :=
  {| m_path := (cwd f ++ ["data"])%list;
     m_train := "train/images";
     m_val := "val/images";
     m_nc := length CLASS_NAMES;
     m_names := CLASS_NAMES |}.

(** Lines 20-27: the output directory is removed if it exists, and made
    again with its four sub-directories. *)
Definition clean_output_directories : M unit :=
  do present <- output_dir_exists;
  run when present (run print CleaningOutput; rmtree_output);
  run makedirs_output "train" "images";
  run makedirs_output "train" "labels";
  run makedirs_output "val" "images";
  makedirs_output "val" "labels".

(** Lines 99-124: the summary, and [data.yaml] unless no image was
    prepared. *)
Definition summary_and_manifest
    (train_image_count val_image_count skipped_image_count : nat)
    (total_objects_per_class : loc) : M unit :=
  run print PreparationSummary;
  run print (Prepared train_image_count val_image_count);
  run print TotalPerClassHeader;
  run for_ CLASS_NAMES tt
        (fun class_name _ =>
           do i <- list_index CLASS_NAMES class_name;
           do n <- dict_getitem total_objects_per_class class_name;
           print (ClassTotal class_name i n));
  run print (SkippedImages skipped_image_count);
  if (train_image_count + val_image_count =? 0)%nat then
    print NothingProcessed
  else
    do f <- get_fs;
    run write_output ["data.yaml"] (Yaml (data_yaml_content f));
    run print YamlCreated;
    print DatasetSaved.

Definition prepare_dataset : M unit :=
  run clean_output_directories;
  do names <- listdir_raw_images;
  let all_raw_images_basenames := basenames_of names in
  do names' <- listdir_raw_images;
  let raw_images_full_paths := full_paths_of names' in
  run print (FoundImages (size all_raw_images_basenames));
  do total_objects_per_class <- defaultdict_int;
  do train_present <- labels_dir_exists Train;
  run when (negb train_present) (print (WarnLabelsDirNotFound Train));
  do val_present <- labels_dir_exists Validation;
  run when (negb val_present) (print (WarnLabelsDirNotFound Validation));
  do '(train_image_count, skipped_image_count) <-
    prepare_split Train all_raw_images_basenames raw_images_full_paths
      total_objects_per_class (0, 0)%nat;
  do '(val_image_count, skipped_image_count) <-
    prepare_split Validation all_raw_images_basenames raw_images_full_paths
      total_objects_per_class (0%nat, skipped_image_count);
  summary_and_manifest train_image_count val_image_count skipped_image_count
    total_objects_per_class.

End PrepareDataset.

(** ** train/utils.py *)

Module Utils.

(** The body of the loop over the lines of a label file (utils.py,
    lines 108-117). *)
Definition process_single_label_file_line
    (file_path : src_path) (class_names_list : list string)
    (counts_dict : loc) (line : string) (objects_in_file : nat) : M nat :=
  let parts := PyStr.split (PyStr.strip line) in
  if (5 <=? length parts)%nat then
    do p0 <- list_getitem parts 0;
    do class_id <- int_ p0;
    if in_bounds class_id class_names_list then
      do name <- list_getitem class_names_list class_id;
      run dict_incr counts_dict name;
      ret (S objects_in_file)
    else
      run print (WarnOutOfBounds class_id (basename file_path));
      ret objects_in_file
  else
    run print (WarnMalformedSkipping (basename file_path) (PyStr.strip line));
    ret objects_in_file.

Definition process_single_label_file
    (file_path : src_path) (class_names_list : list string)
    (counts_dict : loc) : M nat :=
  let objects_in_file := 0%nat in
  do '(objects_in_file, raised) <-
    try_except
      (do '(lines, cut) <- iter_lines file_path;
       do '(objects_in_file, raised) <-
         for_catch lines objects_in_file
           (process_single_label_file_line file_path class_names_list
              counts_dict);
       ret (objects_in_file,
            match raised with Some e => Some e | None => cut end))
      (fun e => ret (objects_in_file, Some e));
  run match raised with
      | Some e => print (ErrorReading (basename file_path) e)
      | None => ret tt
      end;
  ret objects_in_file.

(** One split's scan.  The source has it twice (lines 26-38 for [train],
    41-53 for [validation]), the same text up to the split. *)
Definition count_split (sp : split) (counts : loc) (total_objects : nat)
  : M nat :=
  do present <- labels_dir_exists sp;
  if present then
    run print (Scanning sp);
    do names <- listdir_labels sp;
    let label_files := filter (fun f => PyStr.endswith f ".txt" = true) names in
    run when (bool_decide (label_files = [])) (print (NoTxtFiles sp));
    for_ label_files total_objects
      (fun label_file total_objects =>
         do objects_in_file <-
           process_single_label_file (Label sp label_file) CLASS_NAMES counts;
         ret (total_objects + objects_in_file)%nat)
  else
    run print (WarnLabelsDirNotCounted sp);
    ret total_objects.

Definition print_split_summary (sp : split) (counts : loc)
    (total_objects : nat) : M unit :=
  run print (SplitTotal sp total_objects);
  if (total_objects =? 0)%nat then print (NoObjects sp)
  else
    for_ CLASS_NAMES tt
      (fun class_name _ =>
         do i <- list_index CLASS_NAMES class_name;
         do n <- dict_getitem counts class_name;
         print (SplitClassCount sp class_name i n)).

Definition TARGET_INSTANCES_PER_CLASS : nat := 50.

(** [overall_counts] is bound only on the branch that finds an object:
    [None] is the unbound local variable. *)
Definition count_annotations_per_class_in_cvat_splits : M unit :=
  do train_counts <- defaultdict_int;
  do val_counts <- defaultdict_int;
  do total_train_objects <- count_split Train train_counts 0%nat;
  do total_val_objects <- count_split Validation val_counts 0%nat;
  run print AnnotationSummary;
  run print_split_summary Train train_counts total_train_objects;
  run print_split_summary Validation val_counts total_val_objects;
  let total_objects_overall := (total_train_objects + total_val_objects)%nat in
  run print (OverallTotal total_objects_overall);
  do overall_counts <-
    (if (0 <? total_objects_overall)%nat then
       do overall_counts <- defaultdict_int;
       run for_ CLASS_NAMES tt
             (fun class_name _ =>
                do t <- dict_getitem train_counts class_name;
                do v <- dict_getitem val_counts class_name;
                run dict_setitem overall_counts class_name (t + v)%nat;
                do i <- list_index CLASS_NAMES class_name;
                do n <- dict_getitem overall_counts class_name;
                print (OverallClassCount class_name i n));
       ret (Some overall_counts)
     else ret None);
  run print ProgressHeader;
  do all_targets_met <-
    for_ CLASS_NAMES true
      (fun class_name all_targets_met =>
         do overall_counts <-
           match overall_counts with
           | Some d => ret d
           | None => raise (UnboundLocalError "overall_counts")
           end;
         do overall_count <- dict_getitem overall_counts class_name;
         if (overall_count <? TARGET_INSTANCES_PER_CLASS)%nat then
           run print (NeedsMore class_name overall_count
                        TARGET_INSTANCES_PER_CLASS);
           ret false
         else
           run print (TargetMet class_name overall_count
                        TARGET_INSTANCES_PER_CLASS);
           ret all_targets_met);
  if all_targets_met then print AllTargetsMet else print ContinueAnnotating.

End Utils.

(** * Properties *)

(** ** The string primitives on examples *)

Example split_example :
  PyStr.split (PyStr.strip "  2 0.1 0.1  bad bad ")
  = ["2"; "0.1"; "0.1"; "bad"; "bad"].
Proof. reflexivity. Qed.

Example int_examples :
  PyStr.int "007" = Some 7 /\ PyStr.int "-1" = Some (-1) /\
  PyStr.int "+12" = Some 12 /\ PyStr.int "1_0" = Some 10 /\
  PyStr.int "1__0" = None /\ PyStr.int "_1" = None /\
  PyStr.int "0.5" = None /\ PyStr.int "+" = None /\ PyStr.int "x" = None.
Proof. repeat split. Qed.

Example splitext_examples :
  PyStr.splitext_root "a.b.txt" = "a.b" /\
  PyStr.splitext_root ".txt" = ".txt" /\
  PyStr.splitext_root "..jpg" = "..jpg" /\
  PyStr.splitext_root "x" = "x".
Proof. repeat split. Qed.

Example endswith_examples :
  PyStr.endswith (PyStr.lower "A.JPG") ".jpg" = true /\
  PyStr.endswith "a.txt.bak" ".txt" = false /\
  PyStr.endswith "txt" ".txt" = false.
Proof. repeat split. Qed.

(** ** Lines *)

(** The whitespace-separated fields of a line, as both scripts compute
    them, and the class id in its first field. *)
Definition fields (line : string) : list string :=
  PyStr.split (PyStr.strip line).

Definition class_id_of (line : string) : option Z :=
  head (fields line) ≫= PyStr.int.

(** The state after one more message on standard output. *)
Definition printed (s : state) (m : msg) : state :=
  State (fs s) (heap s) (stdout s ++ [m]).

Lemma bind_Returns {A B} (m : M A) (k : A -> M B) s s' a :
  m s = (s', Returns a) -> bind m k s = k a s'.
Proof. intros H. unfold bind. rewrite H. reflexivity. Qed.

Lemma bind_Raises {A B} (m : M A) (k : A -> M B) s s' e :
  m s = (s', Raises e) -> bind m k s = (s', Raises e).
Proof. intros H. unfold bind. rewrite H. reflexivity. Qed.

Lemma list_getitem_head {A} (l : list A) (x : A) (s : state) :
  head l = Some x -> list_getitem l 0 s = (s, Returns x).
Proof. destruct l as [|y l]; [discriminate|]. intros [= ->]. reflexivity. Qed.

Lemma in_bounds_spec (class_id : Z) (names : list string) :
  in_bounds class_id names = true <->
  0 <= class_id < Z.of_nat (length names).
Proof. unfold in_bounds. rewrite andb_true_iff, Z.leb_le, Z.ltb_lt. tauto. Qed.

Lemma list_getitem_in_bounds (names : list string) (class_id : Z) :
  in_bounds class_id names = true ->
  exists name, names !! Z.to_nat class_id = Some name /\
               forall s, list_getitem names class_id s = (s, Returns name).
Proof.
  intros Hb. apply in_bounds_spec in Hb.
  destruct (lookup_lt_is_Some_2 names (Z.to_nat class_id)) as [name Hn]; [lia|].
  exists name. split; [exact Hn|]. intros s. unfold list_getitem.
  destruct (class_id <? 0) eqn:E; [apply Z.ltb_lt in E; lia|].
  rewrite E, Hn. reflexivity.
Qed.

Lemma five_fields_head (line : string) :
  (5 <= length (fields line))%nat -> exists p0, head (fields line) = Some p0.
Proof. destruct (fields line); simpl; [lia|eauto]. Qed.

Section LineSteps.

Variables (p : src_path) (names : list string) (d : loc).

(** A line of fewer than five fields: both scripts print their warning
    and move on. *)
Lemma preparer_line_short line s :
  (length (fields line) < 5)%nat ->
  PrepareDataset.copy_and_count_annotation_line p names d line s
  = (printed s (WarnMalformed (basename p) (PyStr.strip line)), Returns tt).
Proof.
  intros H. unfold PrepareDataset.copy_and_count_annotation_line.
  fold (fields line). apply Nat.ltb_lt in H. rewrite H. reflexivity.
Qed.

Lemma counter_line_short line n s :
  (length (fields line) < 5)%nat ->
  Utils.process_single_label_file_line p names d line n s
  = (printed s (WarnMalformedSkipping (basename p) (PyStr.strip line)),
     Returns n).
Proof.
  intros H. unfold Utils.process_single_label_file_line.
  fold (fields line). apply Nat.leb_gt in H. rewrite H. reflexivity.
Qed.

(** At least five fields, and a first field that [int] refuses:
    [ValueError] leaves the line. *)
Lemma preparer_line_not_int line p0 s :
  (5 <= length (fields line))%nat ->
  head (fields line) = Some p0 -> PyStr.int p0 = None ->
  PrepareDataset.copy_and_count_annotation_line p names d line s
  = (s, Raises (ValueError p0)).
Proof.
  intros H Hh Hi. unfold PrepareDataset.copy_and_count_annotation_line.
  fold (fields line). apply Nat.ltb_ge in H. rewrite H.
  unfold bind. rewrite (list_getitem_head _ _ _ Hh).
  unfold int_. rewrite Hi. reflexivity.
Qed.

Lemma counter_line_not_int line p0 n s :
  (5 <= length (fields line))%nat ->
  head (fields line) = Some p0 -> PyStr.int p0 = None ->
  Utils.process_single_label_file_line p names d line n s
  = (s, Raises (ValueError p0)).
Proof.
  intros H Hh Hi. unfold Utils.process_single_label_file_line.
  fold (fields line). apply Nat.leb_le in H. rewrite H.
  unfold bind. rewrite (list_getitem_head _ _ _ Hh).
  unfold int_. rewrite Hi. reflexivity.
Qed.

(** At least five fields and an integer class id. *)
Lemma preparer_line_int line class_id s :
  (5 <= length (fields line))%nat -> class_id_of line = Some class_id ->
  PrepareDataset.copy_and_count_annotation_line p names d line s
  = if in_bounds class_id names
    then (do name <- list_getitem names class_id; dict_incr d name) s
    else (printed s (WarnOutOfBounds class_id (basename p)), Returns tt).
Proof.
  intros H Hc. unfold PrepareDataset.copy_and_count_annotation_line.
  fold (fields line). apply Nat.ltb_ge in H. rewrite H.
  unfold class_id_of in Hc. destruct (head (fields line)) as [p0|] eqn:Hh;
    [|discriminate]. simpl in Hc.
  unfold bind at 1. rewrite (list_getitem_head _ _ _ Hh).
  unfold bind at 1, int_. rewrite Hc. unfold ret.
  destruct (in_bounds class_id names); reflexivity.
Qed.

Lemma counter_line_int line class_id n s :
  (5 <= length (fields line))%nat -> class_id_of line = Some class_id ->
  Utils.process_single_label_file_line p names d line n s
  = if in_bounds class_id names
    then (do name <- list_getitem names class_id;
          run dict_incr d name; ret (S n)) s
    else (printed s (WarnOutOfBounds class_id (basename p)), Returns n).
Proof.
  intros H Hc. unfold Utils.process_single_label_file_line.
  fold (fields line). apply Nat.leb_le in H. rewrite H.
  unfold class_id_of in Hc. destruct (head (fields line)) as [p0|] eqn:Hh;
    [|discriminate]. simpl in Hc.
  unfold bind at 1. rewrite (list_getitem_head _ _ _ Hh).
  unfold bind at 1, int_. rewrite Hc. unfold ret.
  destruct (in_bounds class_id names); reflexivity.
Qed.

End LineSteps.

(** The state after [d[name] += 1]. *)
Definition counted (s : state) (d : loc) (name : string) : state :=
  State (fs s)
        (<[d := <[name := S (count_of (dict_at (heap s) d) name)]>
                  (dict_at (heap s) d)]> (heap s))
        (stdout s).

Lemma dict_incr_counted d name s : dict_incr d name s = (counted s d name, Returns tt).
Proof. reflexivity. Qed.

Lemma counted_same s d name :
  (d < length (heap s))%nat ->
  count_of (dict_at (heap (counted s d name)) d) name
  = S (count_of (dict_at (heap s) d) name).
Proof.
  intros Hd. unfold counted, dict_at, count_of. simpl.
  rewrite list_lookup_insert_eq by exact Hd. simpl.
  rewrite lookup_insert_eq. reflexivity.
Qed.

Lemma counted_other_key s d name k :
  k <> name ->
  count_of (dict_at (heap (counted s d name)) d) k
  = count_of (dict_at (heap s) d) k.
Proof.
  intros Hk. unfold counted, dict_at, count_of. simpl.
  destruct (decide (d < length (heap s))%nat) as [Hd|Hd].
  - rewrite list_lookup_insert_eq by exact Hd. simpl.
    rewrite lookup_insert_ne by congruence. reflexivity.
  - rewrite list_insert_ge by lia. reflexivity.
Qed.

Lemma counted_other_dict s d name d' :
  d' <> d -> dict_at (heap (counted s d name)) d' = dict_at (heap s) d'.
Proof.
  intros Hd. unfold counted, dict_at. simpl.
  rewrite list_lookup_insert_ne by congruence. reflexivity.
Qed.

(** Every line falls in one of the three cases of the lemmas above. *)
Inductive line_case (line : string) : Type :=
| LineShort : (length (fields line) < 5)%nat -> line_case line
| LineNotInt p0 :
    (5 <= length (fields line))%nat -> head (fields line) = Some p0 ->
    PyStr.int p0 = None -> line_case line
| LineInt class_id :
    (5 <= length (fields line))%nat -> class_id_of line = Some class_id ->
    line_case line.

Lemma line_cases (line : string) : line_case line.
Proof.
  destruct (le_lt_dec 5 (length (fields line))) as [H|H];
    [|exact (LineShort _ H)].
  destruct (head (fields line)) as [p0|] eqn:Hh.
  - destruct (PyStr.int p0) as [z|] eqn:Hi.
    + apply (LineInt _ z H). unfold class_id_of. rewrite Hh. exact Hi.
    + exact (LineNotInt _ p0 H Hh Hi).
  - exfalso. destruct (fields line); simpl in *; [lia|discriminate].
Qed.

(** ** C5: a valid line counts one instance of its class *)

(** C5.  For every line with at least five whitespace-separated fields
    whose first field parses as an integer in [0, len(class table)), both
    scripts add exactly one to the count of the class at that index and
    change no other count; the four geometry fields are never looked
    at. *)
Theorem valid_line_counts_one
    (p : src_path) (names : list string) (d : loc)
    (line : string) (class_id : Z) (n : nat) (s : state) :
  (5 <= length (fields line))%nat ->
  class_id_of line = Some class_id ->
  0 <= class_id < Z.of_nat (length names) ->
  (d < length (heap s))%nat ->
  exists name,
    names !! Z.to_nat class_id = Some name /\
    PrepareDataset.copy_and_count_annotation_line p names d line s
    = (counted s d name, Returns tt) /\
    Utils.process_single_label_file_line p names d line n s
    = (counted s d name, Returns (S n)) /\
    count_of (dict_at (heap (counted s d name)) d) name
    = S (count_of (dict_at (heap s) d) name) /\
    (forall k, k <> name ->
       count_of (dict_at (heap (counted s d name)) d) k
       = count_of (dict_at (heap s) d) k) /\
    (forall d', d' <> d ->
       dict_at (heap (counted s d name)) d' = dict_at (heap s) d').
Proof.
  intros H5 Hc Hb Hd. apply in_bounds_spec in Hb.
  destruct (list_getitem_in_bounds names class_id Hb) as (name & Hn & Hg).
  exists name. split; [exact Hn|].
  rewrite (preparer_line_int p names d line class_id s H5 Hc).
  rewrite (counter_line_int p names d line class_id n s H5 Hc).
  rewrite Hb. unfold bind. rewrite Hg. simpl.
  repeat split.
  - apply counted_same, Hd.
  - intros k Hk. apply counted_other_key, Hk.
  - intros d' Hd'. apply counted_other_dict, Hd'.
Qed.

Definition no_files : filesystem :=
  FileSystem None None None None (fun _ => false) (fun _ => false) [].

(** The line [2 0.1 0.1 bad bad] with the three-entry class table is one
    [radish]. *)
Lemma valid_line_counts_one_witness :
  let s := State no_files [∅] [] in
  PrepareDataset.copy_and_count_annotation_line
    (Label Train "a.txt") CLASS_NAMES 0%nat "2 0.1 0.1 bad bad" s
  = (counted s 0%nat "radish", Returns tt) /\
  count_of (dict_at (heap (counted s 0%nat "radish")) 0%nat) "radish" = 1%nat.
Proof.
  intros s.
  destruct (valid_line_counts_one (Label Train "a.txt") CLASS_NAMES 0%nat
              "2 0.1 0.1 bad bad" 2 0%nat s)
    as (name & Hn & Hp & _ & Hc & _).
  - vm_compute. lia.
  - reflexivity.
  - vm_compute. split; [discriminate|reflexivity].
  - simpl. lia.
  - injection Hn as <-. split; [exact Hp|exact Hc].
Defined.

(** ** C4: skipped lines *)

(** C4, as amended.  A line of fewer than five fields is skipped with the
    malformed-line warning; a line of at least five fields whose first
    field parses as an integer outside [0, len(class table)) is skipped
    with the out-of-bounds warning.  In both scripts, and in both cases,
    the heap of counters is left as it was and the Annotation Counter's
    per-file object count is handed on unchanged. *)
Theorem skipped_lines_count_nothing
    (p : src_path) (names : list string) (d : loc)
    (line : string) (n : nat) (s : state) :
  ((length (fields line) < 5)%nat ->
   let w := WarnMalformed (basename p) (PyStr.strip line) in
   let w' := WarnMalformedSkipping (basename p) (PyStr.strip line) in
   PrepareDataset.copy_and_count_annotation_line p names d line s
   = (printed s w, Returns tt) /\
   Utils.process_single_label_file_line p names d line n s
   = (printed s w', Returns n) /\
   heap (printed s w) = heap s /\ heap (printed s w') = heap s)
  /\
  (forall class_id,
     (5 <= length (fields line))%nat ->
     class_id_of line = Some class_id ->
     ~ (0 <= class_id < Z.of_nat (length names)) ->
     let w := WarnOutOfBounds class_id (basename p) in
     PrepareDataset.copy_and_count_annotation_line p names d line s
     = (printed s w, Returns tt) /\
     Utils.process_single_label_file_line p names d line n s
     = (printed s w, Returns n) /\
     heap (printed s w) = heap s).
Proof.
  split.
  - intros H. repeat split.
    + apply preparer_line_short, H.
    + apply counter_line_short, H.
  - intros class_id H5 Hc Hb.
    assert (in_bounds class_id names = false) as Hf.
    { destruct (in_bounds class_id names) eqn:E; [|reflexivity].
      apply in_bounds_spec in E. contradiction. }
    rewrite (preparer_line_int p names d line class_id s H5 Hc).
    rewrite (counter_line_int p names d line class_id n s H5 Hc).
    rewrite Hf. repeat split.
Qed.

Lemma skipped_lines_count_nothing_witness :
  let s := State no_files [∅] [] in
  let p := Label Train "a.txt" in
  PrepareDataset.copy_and_count_annotation_line p CLASS_NAMES 0%nat "1 0.5" s
  = (printed s (WarnMalformed "a.txt" "1 0.5"), Returns tt) /\
  Utils.process_single_label_file_line p CLASS_NAMES 0%nat "3 0 0 1 1" 4%nat s
  = (printed s (WarnOutOfBounds 3 "a.txt"), Returns 4%nat).
Proof.
  intros s p. split.
  - destruct (skipped_lines_count_nothing p CLASS_NAMES 0%nat "1 0.5" 0%nat s)
      as [H _].
    destruct H as (H & _); [vm_compute; lia|exact H].
  - destruct (skipped_lines_count_nothing p CLASS_NAMES 0%nat "3 0 0 1 1"
                4%nat s) as [_ H].
    destruct (H 3) as (_ & H' & _);
      [vm_compute; lia | reflexivity | simpl; lia | exact H'].
Defined.

(** C4 as first stated fails on a short line whose first field is an
    out-of-range integer: the field count is tested first, so [7 0.1] is
    reported as malformed, not as out of bounds. *)
Lemma short_line_out_of_range_is_malformed :
  let s := State no_files [∅] [] in
  let p := Label Train "a.txt" in
  class_id_of "7 0.1" = Some 7 /\
  ~ (0 <= 7 < Z.of_nat (length CLASS_NAMES)) /\
  PrepareDataset.copy_and_count_annotation_line p CLASS_NAMES 0%nat "7 0.1" s
  = (printed s (WarnMalformed "a.txt" "7 0.1"), Returns tt) /\
  PrepareDataset.copy_and_count_annotation_line p CLASS_NAMES 0%nat "7 0.1" s
  <> (printed s (WarnOutOfBounds 7 "a.txt"), Returns tt) /\
  Utils.process_single_label_file_line p CLASS_NAMES 0%nat "7 0.1" 0%nat s
  <> (printed s (WarnOutOfBounds 7 "a.txt"), Returns 0%nat).
Proof.
  intros s p. split; [reflexivity|]. split; [simpl; lia|].
  split; [reflexivity|]. split; intros H; vm_compute in H; discriminate H.
Qed.

(** ** C7: the two scripts count a label file alike *)

(** Both line steps leave the same heap, and one raises exactly when the
    other does. *)
Lemma line_steps_agree p names d line n s s' :
  heap s = heap s' ->
  let r := PrepareDataset.copy_and_count_annotation_line p names d line s in
  let r' := Utils.process_single_label_file_line p names d line n s' in
  heap r.1 = heap r'.1 /\
  ((exists e, r.2 = Raises e /\ r'.2 = Raises e) \/
   (exists n', r.2 = Returns tt /\ r'.2 = Returns n')).
Proof.
  intros Hh. destruct (line_cases line) as [H|p0 H Hp Hi|class_id H Hc].
  - rewrite preparer_line_short, counter_line_short by exact H.
    simpl. eauto.
  - rewrite (preparer_line_not_int _ _ _ _ p0), (counter_line_not_int _ _ _ _ p0)
      by assumption.
    simpl. eauto.
  - rewrite (preparer_line_int _ _ _ _ class_id),
      (counter_line_int _ _ _ _ class_id) by assumption.
    destruct (in_bounds class_id names) eqn:Hb; [|simpl; eauto].
    destruct (list_getitem_in_bounds names class_id Hb) as (name & _ & Hg).
    unfold bind. rewrite !Hg. simpl. rewrite Hh. eauto.
Qed.

Lemma line_loops_agree p names d lines : forall n s s',
  heap s = heap s' ->
  heap (for_ lines tt
          (fun line _ =>
             PrepareDataset.copy_and_count_annotation_line p names d line) s).1
  = heap (for_catch lines n
            (Utils.process_single_label_file_line p names d) s').1.
Proof.
  induction lines as [|line lines IH]; intros n s s' Hh; [exact Hh|].
  simpl. unfold bind at 1.
  destruct (line_steps_agree p names d line n s s' Hh) as [Hheap Hout].
  destruct (PrepareDataset.copy_and_count_annotation_line p names d line s)
    as [s1 o1].
  destruct (Utils.process_single_label_file_line p names d line n s')
    as [s1' o1'].
  simpl in *. destruct Hout as [(e & -> & ->)|(n' & -> & ->)].
  - exact Hheap.
  - apply IH, Hheap.
Qed.

Lemma write_output_heap dst x s : heap (write_output dst x s).1 = heap s.
Proof.
  unfold write_output. destruct (output_data_dir (fs s)); [|reflexivity].
  destruct (_ && _); [reflexivity|]. destruct (_ && _); reflexivity.
Qed.

Lemma write_output_stdout dst x s : stdout (write_output dst x s).1 = stdout s.
Proof.
  unfold write_output. destruct (output_data_dir (fs s)); [|reflexivity].
  destruct (_ && _); [reflexivity|]. destruct (_ && _); reflexivity.
Qed.

Lemma shutil_copy_heap src dst s : heap (shutil_copy src dst s).1 = heap s.
Proof.
  unfold shutil_copy. destruct (file_data (fs s) src); [|reflexivity].
  apply write_output_heap.
Qed.

(** The two per-file functions, unfolded along the outcome of opening the
    label file and of the loop over its lines. *)
Lemma copy_and_count_annotation_eq
    raw_img_path exported_label_path target_img_dir target_lbl_dir
    class_names_list d s :
  PrepareDataset.copy_and_count_annotation raw_img_path exported_label_path
    target_img_dir target_lbl_dir class_names_list d s
  = let failed s e :=
      (printed s (ErrorProcessing (basename exported_label_path) e),
       Returns false) in
    match file_data (fs s) exported_label_path with
    | Some (Text lines) =>
        match for_ lines tt
                (fun line _ =>
                   PrepareDataset.copy_and_count_annotation_line
                     exported_label_path class_names_list d line) s with
        | (s1, Returns _) =>
            match shutil_copy exported_label_path
                    (target_lbl_dir ++ [basename exported_label_path])%list s1
            with
            | (s2, Returns _) =>
                match shutil_copy raw_img_path
                        (target_img_dir ++ [basename raw_img_path])%list s2
                with
                | (s3, Returns _) => (s3, Returns true)
                | (s3, Raises e) => failed s3 e
                end
            | (s2, Raises e) => failed s2 e
            end
        | (s1, Raises e) => failed s1 e
        end
    | Some (Garbled _) =>
        failed s (UnicodeDecodeError (basename exported_label_path))
    | _ => failed s (OSError (basename exported_label_path))
    end.
Proof.
  unfold PrepareDataset.copy_and_count_annotation, try_except, read_lines.
  unfold bind at 1.
  destruct (file_data (fs s) exported_label_path) as [[lines| | |lines|]|];
    try reflexivity.
  unfold bind at 1. destruct (for_ lines tt _ s) as [s1 [[]|e]];
    [|reflexivity].
  unfold bind at 1. destruct (shutil_copy _ _ s1) as [s2 [[]|e]];
    [|reflexivity].
  unfold bind at 1. destruct (shutil_copy _ _ s2) as [s3 [[]|e]];
    reflexivity.
Qed.

Lemma process_single_label_file_eq file_path class_names_list d s :
  Utils.process_single_label_file file_path class_names_list d s
  = match file_data (fs s) file_path with
    | Some (Text lines) =>
        match for_catch lines 0%nat
                (Utils.process_single_label_file_line file_path
                   class_names_list d) s with
        | (s1, Returns (n, None)) => (s1, Returns n)
        | (s1, Returns (n, Some e)) =>
            (printed s1 (ErrorReading (basename file_path) e), Returns n)
        | (s1, Raises e) =>
            (printed s1 (ErrorReading (basename file_path) e), Returns 0%nat)
        end
    | Some (Garbled lines) =>
        match for_catch lines 0%nat
                (Utils.process_single_label_file_line file_path
                   class_names_list d) s with
        | (s1, Returns (n, None)) =>
            (printed s1 (ErrorReading (basename file_path)
                           (UnicodeDecodeError (basename file_path))),
             Returns n)
        | (s1, Returns (n, Some e)) =>
            (printed s1 (ErrorReading (basename file_path) e), Returns n)
        | (s1, Raises e) =>
            (printed s1 (ErrorReading (basename file_path) e), Returns 0%nat)
        end
    | _ =>
        (printed s (ErrorReading (basename file_path)
                      (OSError (basename file_path))),
         Returns 0%nat)
    end.
Proof.
  unfold Utils.process_single_label_file, try_except, iter_lines, bind.
  destruct (file_data (fs s) file_path) as [[lines| | |lines|]|];
    try reflexivity.
  - destruct (for_catch lines 0%nat _ s) as [s1 [[n [e|]]|e]]; reflexivity.
  - destruct (for_catch lines 0%nat _ s) as [s1 [[n [e|]]|e]]; reflexivity.
Qed.





(** ** C1: a class id that is not an integer literal *)

Definition one_label_file (lines : list string) (image : option data)
  : filesystem :=
  {| raw_images_dir := Some [("a.jpg", image)];
     labels_train_dir := Some [("a.txt", Some (Text lines))];
     labels_validation_dir := None;
     output_data_dir := None;
     write_fails := fun _ => false;
     partial_write := fun _ => false;
     cwd := [] |}.

(** C1 fails on the code.  A label file whose first line is
    [x 0.1 0.1 0.1 0.1] and whose second line is a valid [carrot]: on the
    first line [int] raises [ValueError], the exception leaves the loop
    and is caught around the whole file, so the second line is never
    counted; the Annotation Counter reports no object for the file and
    the Dataset Preparer gives the file up. *)
Theorem non_integer_class_id_aborts_file :
  let s := State (one_label_file ["x 0.1 0.1 0.1 0.1"; "0 0.5 0.5 0.2 0.2"]
                    (Some (Image "jpeg")))
                 [∅] [] in
  let p := Label Train "a.txt" in
  PrepareDataset.copy_and_count_annotation_line p CLASS_NAMES 0%nat
    "x 0.1 0.1 0.1 0.1" s = (s, Raises (ValueError "x")) /\
  Utils.process_single_label_file_line p CLASS_NAMES 0%nat
    "x 0.1 0.1 0.1 0.1" 0%nat s = (s, Raises (ValueError "x")) /\
  Utils.process_single_label_file p CLASS_NAMES 0%nat s
  = (printed s (ErrorReading "a.txt" (ValueError "x")), Returns 0%nat) /\
  PrepareDataset.copy_and_count_annotation (RawImage "a.jpg") p
    ["train"; "images"] ["train"; "labels"] CLASS_NAMES 0%nat s
  = (printed s (ErrorProcessing "a.txt" (ValueError "x")), Returns false).
Proof. repeat split. Qed.

(** ** C2: a file whose copy fails *)

(** C2 fails on the code.  One label file with one valid [carrot] line,
    and an image that cannot be read: the lines are counted before
    anything is copied, so when the copy of the image fails the file is
    given up with its [carrot] already counted.  The run then reports no
    prepared image, one skipped image, and one [carrot]. *)
Theorem failed_copy_keeps_its_counts :
  let s := State (one_label_file ["0 0.5 0.5 0.2 0.2"] None) [∅] [] in
  let r := PrepareDataset.copy_and_count_annotation (RawImage "a.jpg")
             (Label Train "a.txt") ["train"; "images"] ["train"; "labels"]
             CLASS_NAMES 0%nat s in
  r.2 = Returns false /\
  count_of (dict_at (heap s) 0%nat) "carrot" = 0%nat /\
  count_of (dict_at (heap r.1) 0%nat) "carrot" = 1%nat /\
  stdout (PrepareDataset.prepare_dataset s).1
  = [FoundImages 1; WarnLabelsDirNotFound Validation;
     ErrorProcessing "a.txt" (OSError "a.jpg");
     PreparationSummary; Prepared 0 0; TotalPerClassHeader;
     ClassTotal "carrot" 0 1; ClassTotal "bean" 1 0; ClassTotal "radish" 2 0;
     SkippedImages 1; NothingProcessed].
Proof. repeat split; vm_compute; reflexivity. Qed.

(** ** C3: the Annotation Counter without any object *)

(** C3 fails on the code.  When neither label directory exists the
    Annotation Counter prints the two split totals and the overall total
    and then stops on [UnboundLocalError]: [overall_counts] is bound only
    when an object was found, and the progress loop reads it
    regardless. *)
Theorem counter_raises_without_objects (s : state) :
  labels_train_dir (fs s) = None ->
  labels_validation_dir (fs s) = None ->
  (Utils.count_annotations_per_class_in_cvat_splits s).2
  = Raises (UnboundLocalError "overall_counts") /\
  stdout (Utils.count_annotations_per_class_in_cvat_splits s).1
  = (stdout s ++
     [WarnLabelsDirNotCounted Train; WarnLabelsDirNotCounted Validation;
      AnnotationSummary; SplitTotal Train 0; NoObjects Train;
      SplitTotal Validation 0; NoObjects Validation; OverallTotal 0;
      ProgressHeader])%list.
Proof.
  intros Ht Hv.
  assert (forall sp d h o,
            Utils.count_split sp d 0%nat (State (fs s) h o)
            = (State (fs s) h (o ++ [WarnLabelsDirNotCounted sp]),
               Returns 0%nat)) as Hsplit.
  { intros sp d h o. unfold Utils.count_split, labels_dir_exists, bind.
    unfold labels_dir. cbn [fs]. destruct sp; rewrite ?Ht, ?Hv; reflexivity. }
  assert (forall sp d h o,
            Utils.print_split_summary sp d 0%nat (State (fs s) h o)
            = (State (fs s) h (o ++ [SplitTotal sp 0; NoObjects sp]),
               Returns tt)) as Hsum.
  { intros sp d h o. unfold Utils.print_split_summary, bind, print.
    cbn. rewrite <- app_assoc. reflexivity. }
  assert (Utils.count_annotations_per_class_in_cvat_splits s
          = (State (fs s) (heap s ++ [∅] ++ [∅])
               (stdout s ++
                [WarnLabelsDirNotCounted Train;
                 WarnLabelsDirNotCounted Validation;
                 AnnotationSummary; SplitTotal Train 0; NoObjects Train;
                 SplitTotal Validation 0; NoObjects Validation;
                 OverallTotal 0; ProgressHeader]),
             Raises (UnboundLocalError "overall_counts"))) as ->;
    [|split; reflexivity].
  unfold Utils.count_annotations_per_class_in_cvat_splits.
  rewrite (bind_Returns _ _ s _ _ eq_refl).
  rewrite (bind_Returns _ _ _ _ _ eq_refl). cbn [fs heap stdout].
  rewrite (bind_Returns _ _ _ _ _ (Hsplit _ _ _ _)).
  rewrite (bind_Returns _ _ _ _ _ (Hsplit _ _ _ _)).
  rewrite (bind_Returns _ _ _ _ _ eq_refl). cbn [printed fs heap stdout].
  rewrite (bind_Returns _ _ _ _ _ (Hsum _ _ _ _)).
  rewrite (bind_Returns _ _ _ _ _ (Hsum _ _ _ _)).
  rewrite (bind_Returns _ _ _ _ _ eq_refl). cbn [printed fs heap stdout].
  rewrite (bind_Returns _ _ _ _ _ eq_refl).
  rewrite (bind_Returns _ _ _ _ _ eq_refl). cbn [printed fs heap stdout].
  rewrite (bind_Raises _ _ _ _ (UnboundLocalError "overall_counts") eq_refl).
  rewrite <- !app_assoc. reflexivity.
Qed.

Lemma counter_raises_without_objects_witness :
  (Utils.count_annotations_per_class_in_cvat_splits (State no_files [] [])).2
  = Raises (UnboundLocalError "overall_counts").
Proof.
  apply (counter_raises_without_objects (State no_files [] []));
    reflexivity.
Defined.

(** ** C8: a label file without a raw image *)

(** C8.  In the Dataset Preparer, a label file ([.txt]) whose base name is
    not the base name of a raw image is neither copied nor counted: the
    file system and the heap of counters stay as they are, a warning is
    printed, the skipped-image counter grows by exactly one, and the loop
    goes on with the next file. *)
Theorem label_without_image_is_skipped
    (sp : split) (all_raw_images_basenames : gset string)
    (raw_images_full_paths : gmap string src_path) (d : loc)
    (label_filename : string) (rest : list string)
    (image_count skipped_image_count : nat) (s : state) :
  PyStr.endswith label_filename ".txt" = true ->
  PyStr.splitext_root label_filename ∉ all_raw_images_basenames ->
  let body := PrepareDataset.prepare_label_file sp all_raw_images_basenames
                raw_images_full_paths d in
  let s' := printed s (WarnNoImage label_filename sp) in
  body label_filename (image_count, skipped_image_count) s
  = (s', Returns (image_count, S skipped_image_count)) /\
  fs s' = fs s /\ heap s' = heap s /\
  for_ (label_filename :: rest) (image_count, skipped_image_count) body s
  = for_ rest (image_count, S skipped_image_count) body s'.
Proof.
  intros Htxt Hno body s'.
  assert (body label_filename (image_count, skipped_image_count) s
          = (s', Returns (image_count, S skipped_image_count))) as Hb.
  { unfold body, PrepareDataset.prepare_label_file. rewrite Htxt. simpl.
    rewrite bool_decide_eq_true_2 by exact Hno. reflexivity. }
  repeat split; [exact Hb|].
  cbn [for_]. rewrite (bind_Returns _ _ _ _ _ Hb). reflexivity.
Qed.

Lemma label_without_image_is_skipped_witness :
  let s := State (one_label_file ["0 0.5 0.5 0.2 0.2"] None) [∅] [] in
  PrepareDataset.prepare_label_file Train {["a"]} {["a" := RawImage "a.jpg"]}
    0%nat "b.txt" (2, 5)%nat s
  = (printed s (WarnNoImage "b.txt" Train), Returns (2, 6)%nat).
Proof.
  intros s.
  apply (label_without_image_is_skipped Train {["a"]}
           {["a" := RawImage "a.jpg"]} 0%nat "b.txt" [] 2%nat 5%nat s).
  - reflexivity.
  - vm_compute. set_solver.
Defined.

(** ** What a run leaves of the state *)

(** A relation between the state before and the state after that every
    read, every [print] and every update of a [defaultdict] respects;
    [OutputBlind] relations moreover ignore writes below
    [OUTPUT_DATA_DIR]. *)
Class StateOrder (R : state -> state -> Prop) := {
  so_refl : forall s, R s s;
  so_trans : forall s1 s2 s3, R s1 s2 -> R s2 s3 -> R s1 s3;
  so_print : forall s m, R s (printed s m);
  so_heap : forall s h, R s (State (fs s) h (stdout s))
}.

Class OutputBlind (R : state -> state -> Prop) :=
  output_blind :
    forall s o, R s (State (with_output (fs s) o) (heap s) (stdout s)).

(** [keeps R m]: the state [m] ends in, returning or raising, is related
    by [R] to the state it started in. *)
Definition keeps (R : state -> state -> Prop) {A} (m : M A) : Prop :=
  forall s, R s (m s).1.

Section Keeps.

Context (R : state -> state -> Prop) `{!StateOrder R}.

Lemma keeps_ret {A} (a : A) : keeps R (ret a).
Proof. intros s. apply so_refl. Qed.

Lemma keeps_raise {A} e : keeps R (@raise A e).
Proof. intros s. apply so_refl. Qed.

Lemma keeps_bind {A B} (m : M A) (k : A -> M B) :
  keeps R m -> (forall a, keeps R (k a)) -> keeps R (bind m k).
Proof.
  intros Hm Hk s. unfold bind. specialize (Hm s).
  destruct (m s) as [s' [a|e]]; simpl in *; [|exact Hm].
  eapply so_trans; [exact Hm|apply Hk].
Qed.

Lemma keeps_try_except {A} (m : M A) h :
  keeps R m -> (forall e, keeps R (h e)) -> keeps R (try_except m h).
Proof.
  intros Hm Hh s. unfold try_except. specialize (Hm s).
  destruct (m s) as [s' [a|e]]; simpl in *; [exact Hm|].
  eapply so_trans; [exact Hm|apply Hh].
Qed.

Lemma keeps_for {A B} (xs : list A) (body : A -> B -> M B) :
  (forall x acc, keeps R (body x acc)) ->
  forall acc, keeps R (for_ xs acc body).
Proof.
  intros Hb. induction xs as [|x xs IH]; intros acc; simpl.
  - apply keeps_ret.
  - apply keeps_bind; [apply Hb|exact IH].
Qed.

Lemma keeps_for_catch {A B} (xs : list A) (body : A -> B -> M B) :
  (forall x acc, keeps R (body x acc)) ->
  forall acc, keeps R (for_catch xs acc body).
Proof.
  intros Hb. induction xs as [|x xs IH]; intros acc s; simpl;
    [apply so_refl|].
  specialize (Hb x acc s).
  destruct (body x acc s) as [s' [acc'|e]]; simpl in *; [|exact Hb].
  eapply so_trans; [exact Hb|apply IH].
Qed.

Lemma keeps_when b m : keeps R m -> keeps R (when b m).
Proof. intros Hm. destruct b; [exact Hm|apply keeps_ret]. Qed.

(** Statements that do not write to the file system. *)
Lemma keeps_print m : keeps R (print m).
Proof. intros s. apply so_print. Qed.

Lemma keeps_get_fs : keeps R get_fs.
Proof. intros s. apply so_refl. Qed.

Lemma keeps_defaultdict_int : keeps R defaultdict_int.
Proof. intros s. apply so_heap. Qed.

Lemma keeps_dict_incr d k : keeps R (dict_incr d k).
Proof. intros s. apply so_heap. Qed.

Lemma keeps_dict_getitem d k : keeps R (dict_getitem d k).
Proof. intros s. apply so_heap. Qed.

Lemma keeps_dict_setitem d k v : keeps R (dict_setitem d k v).
Proof. intros s. apply so_heap. Qed.

Lemma keeps_labels_dir_exists sp : keeps R (labels_dir_exists sp).
Proof. intros s. apply so_refl. Qed.

Lemma keeps_output_dir_exists : keeps R output_dir_exists.
Proof. intros s. apply so_refl. Qed.

Lemma keeps_listdir_labels sp : keeps R (listdir_labels sp).
Proof.
  intros s. unfold listdir_labels. destruct (labels_dir _ _); apply so_refl.
Qed.

Lemma keeps_listdir_raw_images : keeps R listdir_raw_images.
Proof.
  intros s. unfold listdir_raw_images.
  destruct (raw_images_dir _); apply so_refl.
Qed.

Lemma keeps_read_lines p : keeps R (read_lines p).
Proof.
  intros s. unfold read_lines.
  destruct (file_data _ _) as [[| | | |]|]; apply so_refl.
Qed.

Lemma keeps_iter_lines p : keeps R (iter_lines p).
Proof.
  intros s. unfold iter_lines.
  destruct (file_data _ _) as [[| | | |]|]; apply so_refl.
Qed.

Lemma keeps_int_ x : keeps R (int_ x).
Proof. unfold int_. destruct (PyStr.int x); intros s; apply so_refl. Qed.

Lemma keeps_list_getitem {A} (l : list A) i : keeps R (list_getitem l i).
Proof.
  unfold list_getitem. destruct (_ <? 0); [intros s; apply so_refl|].
  destruct (l !! _); intros s; apply so_refl.
Qed.

Lemma keeps_list_index l x : keeps R (list_index l x).
Proof. unfold list_index. destruct (index_of l x); intros s; apply so_refl. Qed.

Lemma keeps_dict_lookup m k : keeps R (PrepareDataset.dict_lookup m k).
Proof.
  unfold PrepareDataset.dict_lookup.
  destruct (m !! k); intros st; apply so_refl.
Qed.

(** Statements that write below [OUTPUT_DATA_DIR] only. *)
Context `{!OutputBlind R}.

Lemma keeps_rmtree_output : keeps R rmtree_output.
Proof. intros s. apply output_blind. Qed.

Lemma keeps_makedirs_output a b : keeps R (makedirs_output a b).
Proof.
  intros s. unfold makedirs_output.
  destruct (makedirs_tree _ _ _); [apply output_blind|apply so_refl].
Qed.

Lemma keeps_write_output dst x : keeps R (write_output dst x).
Proof.
  intros s. unfold write_output.
  destruct (output_data_dir _); [|apply so_refl].
  destruct (_ && _); [apply output_blind|].
  destruct (_ && _); [apply output_blind|apply so_refl].
Qed.

Lemma keeps_shutil_copy src dst : keeps R (shutil_copy src dst).
Proof.
  intros s. unfold shutil_copy.
  destruct (file_data _ _); [|apply so_refl]. apply keeps_write_output.
Qed.

End Keeps.

(** One step of a proof of [keeps]: a structural rule, a primitive, or a
    case split on what the statement branches on. *)
Ltac keeps_step :=
  lazymatch goal with
  | |- forall _, _ => intro
  | |- keeps _ (bind _ _) => apply keeps_bind; [assumption || exact _ | |]
  | |- keeps _ (try_except _ _) =>
      apply keeps_try_except; [assumption || exact _ | |]
  | |- keeps _ (for_ _ _ _) => apply keeps_for; [assumption || exact _ |]
  | |- keeps _ (for_catch _ _ _) =>
      apply keeps_for_catch; [assumption || exact _ |]
  | |- keeps _ (when _ _) => apply keeps_when; [assumption || exact _ |]
  | |- keeps _ (if ?b then _ else _) => destruct b
  | |- keeps _ (match ?x with _ => _ end) => destruct x
  | |- keeps _ (ret _) => apply keeps_ret
  | |- keeps _ (raise _) => apply keeps_raise
  | |- keeps _ (print _) => apply keeps_print
  | |- keeps _ get_fs => apply keeps_get_fs
  | |- keeps _ defaultdict_int => apply keeps_defaultdict_int
  | |- keeps _ (dict_incr _ _) => apply keeps_dict_incr
  | |- keeps _ (dict_getitem _ _) => apply keeps_dict_getitem
  | |- keeps _ (dict_setitem _ _ _) => apply keeps_dict_setitem
  | |- keeps _ (labels_dir_exists _) => apply keeps_labels_dir_exists
  | |- keeps _ output_dir_exists => apply keeps_output_dir_exists
  | |- keeps _ (listdir_labels _) => apply keeps_listdir_labels
  | |- keeps _ listdir_raw_images => apply keeps_listdir_raw_images
  | |- keeps _ (read_lines _) => apply keeps_read_lines
  | |- keeps _ (iter_lines _) => apply keeps_iter_lines
  | |- keeps _ (int_ _) => apply keeps_int_
  | |- keeps _ (list_getitem _ _) => apply keeps_list_getitem
  | |- keeps _ (list_index _ _) => apply keeps_list_index
  | |- keeps _ (PrepareDataset.dict_lookup _ _) => apply keeps_dict_lookup
  | |- keeps _ rmtree_output => apply keeps_rmtree_output
  | |- keeps _ (makedirs_output _ _) => apply keeps_makedirs_output
  | |- keeps _ (write_output _ _) => apply keeps_write_output
  | |- keeps _ (shutil_copy _ _) => apply keeps_shutil_copy
  | |- StateOrder _ => assumption || exact _
  | |- OutputBlind _ => assumption || exact _
  end.

(** Three such relations: the file system is what it was; everything but
    [OUTPUT_DATA_DIR] is what it was; standard output has only grown. *)
Definition same_fs (s s' : state) : Prop := fs s' = fs s.

Definition same_inputs (s s' : state) : Prop :=
  with_output (fs s') None = with_output (fs s) None.

Definition stdout_grows (s s' : state) : Prop :=
  exists out, stdout s' = (stdout s ++ out)%list.

Global Instance same_fs_order : StateOrder same_fs.
Proof. split; unfold same_fs; simpl; congruence. Qed.

Global Instance same_inputs_order : StateOrder same_inputs.
Proof. split; unfold same_inputs; simpl; congruence. Qed.

Global Instance same_inputs_blind : OutputBlind same_inputs.
Proof. intros s o. reflexivity. Qed.

Global Instance stdout_grows_order : StateOrder stdout_grows.
Proof.
  split; unfold stdout_grows; simpl.
  - intros s. exists []. symmetry. apply app_nil_r.
  - intros s1 s2 s3 [o1 H1] [o2 H2]. exists (o1 ++ o2)%list.
    rewrite H2, H1. symmetry. apply app_assoc.
  - intros s m. eauto.
  - intros s h. exists []. symmetry. apply app_nil_r.
Qed.

Global Instance stdout_grows_blind : OutputBlind stdout_grows.
Proof. intros s o. exists []. simpl. symmetry. apply app_nil_r. Qed.

(** ** C9: the Annotation Counter writes nothing *)

Lemma process_single_label_file_keeps R `{!StateOrder R} p names d :
  keeps R (Utils.process_single_label_file p names d).
Proof.
  unfold Utils.process_single_label_file,
    Utils.process_single_label_file_line.
  repeat keeps_step.
Qed.

Lemma count_split_keeps R `{!StateOrder R} sp d n :
  keeps R (Utils.count_split sp d n).
Proof.
  unfold Utils.count_split.
  repeat first [apply process_single_label_file_keeps | keeps_step].
Qed.

Lemma count_annotations_keeps R `{!StateOrder R} :
  keeps R Utils.count_annotations_per_class_in_cvat_splits.
Proof.
  unfold Utils.count_annotations_per_class_in_cvat_splits,
    Utils.print_split_summary.
  repeat first [apply count_split_keeps | keeps_step].
Qed.

(** C9.  The Annotation Counter changes nothing on disk: after every run,
    whether it ends normally or on an exception, the raw-images
    directory, the two label directories and the output directory are
    what they were before; the run shows only in the heap and on standard
    output. *)
Theorem counter_leaves_disk_unchanged (s : state) :
  fs (Utils.count_annotations_per_class_in_cvat_splits s).1 = fs s.
Proof. exact (count_annotations_keeps same_fs s). Qed.

(** ** The Dataset Preparer's run *)

(** The output tree after each of the four [os.makedirs] of lines 24-27,
    started from nothing. *)
Definition output_1 : gmap path node :=
  <[["train"; "images"] := Dir]> (<[["train"] := Dir]> ∅).
Definition output_2 : gmap path node :=
  <[["train"; "labels"] := Dir]> (<[["train"] := Dir]> output_1).
Definition output_3 : gmap path node :=
  <[["val"; "images"] := Dir]> (<[["val"] := Dir]> output_2).
Definition fresh_output : gmap path node :=
  <[["val"; "labels"] := Dir]> (<[["val"] := Dir]> output_3).

Ltac lookup_in_tree :=
  repeat first
    [ rewrite lookup_insert_eq
    | rewrite lookup_insert_ne by (intro; discriminate)
    | rewrite lookup_empty ];
  cbn [mbind option_bind].

Lemma makedirs_1 : makedirs_tree ∅ "train" "images" = Some output_1.
Proof.
  unfold makedirs_tree, mkdir_in, output_1. lookup_in_tree.
  lookup_in_tree. reflexivity.
Qed.

Lemma makedirs_2 : makedirs_tree output_1 "train" "labels" = Some output_2.
Proof.
  unfold makedirs_tree, mkdir_in, output_2, output_1. lookup_in_tree.
  lookup_in_tree. reflexivity.
Qed.

Lemma makedirs_3 : makedirs_tree output_2 "val" "images" = Some output_3.
Proof.
  unfold makedirs_tree, mkdir_in, output_3, output_2, output_1.
  lookup_in_tree. lookup_in_tree. reflexivity.
Qed.

Lemma makedirs_4 : makedirs_tree output_3 "val" "labels" = Some fresh_output.
Proof.
  unfold makedirs_tree, mkdir_in, fresh_output, output_3, output_2, output_1.
  lookup_in_tree. lookup_in_tree. reflexivity.
Qed.

Lemma makedirs_output_eq a b s t' :
  makedirs_tree (default ∅ (output_data_dir (fs s))) a b = Some t' ->
  makedirs_output a b s
  = (State (with_output (fs s) (Some t')) (heap s) (stdout s), Returns tt).
Proof. intros H. unfold makedirs_output. cbv zeta. rewrite H. reflexivity. Qed.

Lemma makedirs_output_next a b f h o t t' :
  makedirs_tree t a b = Some t' ->
  makedirs_output a b (State (with_output f (Some t)) h o)
  = (State (with_output f (Some t')) h o, Returns tt).
Proof.
  intros H.
  exact (makedirs_output_eq a b (State (with_output f (Some t)) h o) t' H).
Qed.

Lemma makedirs_from_nothing s :
  output_data_dir (fs s) = None ->
  (run makedirs_output "train" "images";
   run makedirs_output "train" "labels";
   run makedirs_output "val" "images";
   makedirs_output "val" "labels") s
  = (State (with_output (fs s) (Some fresh_output)) (heap s) (stdout s),
     Returns tt).
Proof.
  intros Hout.
  assert (makedirs_tree (default ∅ (output_data_dir (fs s))) "train" "images"
          = Some output_1) as H1 by (rewrite Hout; exact makedirs_1).
  rewrite (bind_Returns _ _ _ _ _ (makedirs_output_eq _ _ s _ H1)).
  rewrite (bind_Returns _ _ _ _ _
             (makedirs_output_next _ _ _ _ _ _ _ makedirs_2)).
  rewrite (bind_Returns _ _ _ _ _
             (makedirs_output_next _ _ _ _ _ _ _ makedirs_3)).
  apply (makedirs_output_next _ _ _ _ _ _ _ makedirs_4).
Qed.

(** Lines 20-27 always succeed, and leave the four empty directories
    whatever [OUTPUT_DATA_DIR] held before. *)
Lemma clean_output_directories_eq s :
  PrepareDataset.clean_output_directories s
  = (State (with_output (fs s) (Some fresh_output)) (heap s)
           (stdout s ++ match output_data_dir (fs s) with
                        | Some _ => [CleaningOutput]
                        | None => []
                        end),
     Returns tt).
Proof.
  unfold PrepareDataset.clean_output_directories.
  destruct (output_data_dir (fs s)) as [t|] eqn:Hout.
  - rewrite (bind_Returns _ _ s s true)
      by (unfold output_dir_exists; rewrite Hout; reflexivity).
    unfold when.
    rewrite (bind_Returns _ _ s
               (State (with_output (fs s) None) (heap s)
                  (stdout s ++ [CleaningOutput])) tt) by reflexivity.
    rewrite makedirs_from_nothing by reflexivity. reflexivity.
  - rewrite (bind_Returns _ _ s s false)
      by (unfold output_dir_exists; rewrite Hout; reflexivity).
    rewrite (bind_Returns _ _ s s tt) by reflexivity.
    rewrite makedirs_from_nothing by exact Hout.
    rewrite app_nil_r. reflexivity.
Qed.

Lemma copy_and_count_annotation_returns
    raw_img_path exported_label_path target_img_dir target_lbl_dir
    class_names_list d s :
  exists s' ok,
    PrepareDataset.copy_and_count_annotation raw_img_path exported_label_path
      target_img_dir target_lbl_dir class_names_list d s
    = (s', Returns ok).
Proof.
  rewrite copy_and_count_annotation_eq. cbv zeta.
  repeat match goal with
         | |- context [match ?x with _ => _ end] => destruct x
         end; eauto.
Qed.

(** Every base name of the set of line 32 is a key of the dictionary of
    line 33. *)
Lemma foldl_full_paths_cover (l : list string) :
  forall (m : gmap string src_path) (b : string),
  b ∈ (PyStr.splitext_root <$> l) \/ is_Some (m !! b) ->
  is_Some (foldl (fun m f => <[PyStr.splitext_root f := RawImage f]> m) m l
           !! b).
Proof.
  induction l as [|f l IH]; intros m b H; simpl.
  - destruct H as [H|H]; [|exact H]. inversion H.
  - apply IH. rewrite fmap_cons, elem_of_cons in H.
    destruct H as [[->|H]|H]; [right|left; exact H|right].
    + rewrite lookup_insert_eq. eauto.
    + destruct (decide (PyStr.splitext_root f = b)) as [->|Hne].
      * rewrite lookup_insert_eq. eauto.
      * rewrite lookup_insert_ne by exact Hne. exact H.
Qed.

Lemma full_paths_cover names b :
  b ∈ PrepareDataset.basenames_of names ->
  is_Some (PrepareDataset.full_paths_of names !! b).
Proof.
  unfold PrepareDataset.basenames_of, PrepareDataset.full_paths_of.
  rewrite elem_of_list_to_set. intros H.
  apply foldl_full_paths_cover. left. exact H.
Qed.

Definition txt_count (names : list string) : nat :=
  length (filter (fun f => PyStr.endswith f ".txt" = true) names).

(** The number of [.txt] entries of a split's label directory; none when
    the directory does not exist. *)
Definition txt_files (f : filesystem) (sp : split) : nat :=
  match labels_dir f sp with
  | Some d => txt_count d.*1
  | None => 0%nat
  end.

Lemma txt_files_same_inputs s s' sp :
  same_inputs s s' -> txt_files (fs s') sp = txt_files (fs s) sp.
Proof.
  unfold same_inputs, with_output, txt_files, labels_dir.
  intros [= _ Ht Hv _ _]. destruct sp; [rewrite Ht|rewrite Hv]; reflexivity.
Qed.

Section PrepareLoop.

Variables (sp : split) (names : list string) (d : loc).

Let body :=
  PrepareDataset.prepare_label_file sp (PrepareDataset.basenames_of names)
    (PrepareDataset.full_paths_of names) d.

Lemma prepare_label_file_not_txt label_filename counters s :
  PyStr.endswith label_filename ".txt" = false ->
  body label_filename counters s = (s, Returns counters).
Proof.
  intros H. unfold body, PrepareDataset.prepare_label_file.
  destruct counters as [ic sk]. rewrite H. reflexivity.
Qed.

Lemma prepare_label_file_txt label_filename ic sk s :
  PyStr.endswith label_filename ".txt" = true ->
  exists s' ic' sk',
    body label_filename (ic, sk) s = (s', Returns (ic', sk')) /\
    (ic' + sk' = S (ic + sk))%nat.
Proof.
  intros H. unfold body, PrepareDataset.prepare_label_file. rewrite H. simpl.
  case_bool_decide as Hin.
  - eexists _, _, _. split; [reflexivity|lia].
  - apply full_paths_cover in Hin as [q Hq].
    unfold bind at 1. unfold PrepareDataset.dict_lookup. rewrite Hq.
    unfold ret at 1. unfold bind.
    destruct (copy_and_count_annotation_returns q (Label sp label_filename)
                [PrepareDataset.out_split sp; "images"]
                [PrepareDataset.out_split sp; "labels"] CLASS_NAMES d s)
      as (s' & ok & ->).
    destruct ok; eexists _, _, _; (split; [reflexivity|lia]).
Qed.

Lemma prepare_loop_counts (label_filenames : list string) : forall ic sk s,
  exists s' ic' sk',
    for_ label_filenames (ic, sk) body s = (s', Returns (ic', sk')) /\
    (ic' + sk' = ic + sk + txt_count label_filenames)%nat.
Proof.
  induction label_filenames as [|f l IH]; intros ic sk s.
  - eexists _, _, _. split; [reflexivity|]. unfold txt_count. simpl. lia.
  - cbn [for_]. unfold txt_count. rewrite filter_cons.
    destruct (PyStr.endswith f ".txt") eqn:Ht.
    + destruct (prepare_label_file_txt f ic sk s Ht)
        as (s1 & ic1 & sk1 & E & H1).
      rewrite (bind_Returns _ _ _ _ _ E).
      destruct (IH ic1 sk1 s1) as (s' & ic' & sk' & E' & H').
      exists s', ic', sk'. split; [exact E'|].
      rewrite decide_True by reflexivity. unfold txt_count in H'.
      cbn [length]. lia.
    + rewrite (bind_Returns _ _ _ _ _
                 (prepare_label_file_not_txt f (ic, sk) s Ht)).
      destruct (IH ic sk s) as (s' & ic' & sk' & E' & H').
      exists s', ic', sk'. split; [exact E'|].
      rewrite decide_False by discriminate. exact H'.
Qed.

Lemma prepare_split_counts ic sk s :
  exists s' ic' sk',
    PrepareDataset.prepare_split sp (PrepareDataset.basenames_of names)
      (PrepareDataset.full_paths_of names) d (ic, sk) s
    = (s', Returns (ic', sk')) /\
    (ic' + sk' = ic + sk + txt_files (fs s) sp)%nat.
Proof.
  unfold PrepareDataset.prepare_split, txt_files.
  destruct (labels_dir (fs s) sp) as [dir|] eqn:Hdir.
  - rewrite (bind_Returns _ _ s s true)
      by (unfold labels_dir_exists; rewrite Hdir; reflexivity).
    rewrite (bind_Returns _ _ s s dir.*1)
      by (unfold listdir_labels; rewrite Hdir; reflexivity).
    apply prepare_loop_counts.
  - rewrite (bind_Returns _ _ s s false)
      by (unfold labels_dir_exists; rewrite Hdir; reflexivity).
    eexists _, _, _. split; [reflexivity|lia].
Qed.

End PrepareLoop.

Lemma prepare_split_keeps R `{!StateOrder R} `{!OutputBlind R}
    sp all_raw full d counters :
  keeps R (PrepareDataset.prepare_split sp all_raw full d counters).
Proof.
  unfold PrepareDataset.prepare_split. repeat keeps_step.
  unfold PrepareDataset.prepare_label_file,
    PrepareDataset.copy_and_count_annotation,
    PrepareDataset.copy_and_count_annotation_line.
  repeat keeps_step.
Qed.

(** The summary of lines 99-105. *)
Definition summary_block (t v sk c0 c1 c2 : nat) : list msg :=
  [PreparationSummary; Prepared t v; TotalPerClassHeader;
   ClassTotal "carrot" 0 c0; ClassTotal "bean" 1 c1; ClassTotal "radish" 2 c2;
   SkippedImages sk].

Lemma summary_and_manifest_stdout t v sk d s :
  exists c0 c1 c2 post,
    stdout (PrepareDataset.summary_and_manifest t v sk d s).1
    = (stdout s ++ summary_block t v sk c0 c1 c2 ++ post)%list.
Proof.
  unfold PrepareDataset.summary_and_manifest.
  unfold bind, print, for_, CLASS_NAMES, list_index, dict_getitem, get_fs.
  simpl. unfold bind, ret. simpl.
  destruct (t + v =? 0)%nat; simpl.
  - eexists _, _, _, [NothingProcessed].
    rewrite <- !app_assoc. reflexivity.
  - match goal with
    | |- context [write_output ?a ?b ?c] =>
        pose proof (write_output_stdout a b c) as Hw;
        destruct (write_output a b c) as [s' [[]|e]]
    end; simpl in *; rewrite Hw.
    + eexists _, _, _, [YamlCreated; DatasetSaved].
      simpl. rewrite <- !app_assoc. reflexivity.
    + eexists _, _, _, []. simpl. rewrite <- !app_assoc. reflexivity.
Qed.

(** The run of [prepare_dataset] once [RAW_IMAGES_DIR] has been listed:
    the two loops return their counters, and the run ends in the summary
    and the manifest. *)
Lemma prepare_dataset_eq s raw :
  raw_images_dir (fs s) = Some raw ->
  exists s0 s1 s2 d t sk1 v sk,
    let all_raw := PrepareDataset.basenames_of raw.*1 in
    let full := PrepareDataset.full_paths_of raw.*1 in
    fs s0 = with_output (fs s) (Some fresh_output) /\
    stdout_grows s s0 /\
    PrepareDataset.prepare_split Train all_raw full d (0, 0)%nat s0
    = (s1, Returns (t, sk1)) /\
    PrepareDataset.prepare_split Validation all_raw full d (0%nat, sk1) s1
    = (s2, Returns (v, sk)) /\
    (t + v + sk
     = txt_files (fs s) Train + txt_files (fs s) Validation)%nat /\
    PrepareDataset.prepare_dataset s
    = PrepareDataset.summary_and_manifest t v sk d s2.
Proof.
  intros Hraw. unfold PrepareDataset.prepare_dataset.
  unfold bind at 1. rewrite clean_output_directories_eq.
  unfold bind at 1, listdir_raw_images. simpl fs. simpl raw_images_dir.
  rewrite Hraw. unfold bind at 1. simpl fs. simpl raw_images_dir.
  rewrite Hraw. unfold bind at 1, print. unfold bind at 1, defaultdict_int.
  simpl fs. simpl heap. simpl stdout.
  unfold bind at 1, labels_dir_exists. simpl fs.
  unfold bind at 1.
  match goal with
  | |- context [when ?b ?m ?st] =>
      assert (exists out, when b m st
                          = (State (fs st) (heap st) (stdout st ++ out),
                             Returns tt)) as [out1 ->]
  end.
  { destruct (bool_decide _); simpl;
      [exists []; rewrite app_nil_r|eexists [_]]; reflexivity. }
  unfold bind at 1. simpl fs.
  unfold bind at 1.
  match goal with
  | |- context [when ?b ?m ?st] =>
      assert (exists out, when b m st
                          = (State (fs st) (heap st) (stdout st ++ out),
                             Returns tt)) as [out2 ->]
  end.
  { destruct (bool_decide _); simpl;
      [exists []; rewrite app_nil_r|eexists [_]]; reflexivity. }
  simpl fs. simpl heap. simpl stdout.
  set (d := length (heap s)).
  set (s0 := State _ _ _).
  destruct (prepare_split_counts Train raw.*1 d 0%nat 0%nat s0)
    as (s1 & t & sk1 & E1 & H1).
  pose proof (prepare_split_keeps same_inputs Train
                (PrepareDataset.basenames_of raw.*1)
                (PrepareDataset.full_paths_of raw.*1) d (0, 0)%nat s0) as K1.
  rewrite E1 in K1. simpl in K1.
  destruct (prepare_split_counts Validation raw.*1 d 0%nat sk1 s1)
    as (s2 & v & sk & E2 & H2).
  unfold bind at 1. rewrite E1. unfold bind at 1. rewrite E2.
  exists s0, s1, s2, d, t, sk1, v, sk. cbv zeta.
  split; [reflexivity|]. split.
  { unfold stdout_grows, s0. simpl. rewrite <- !app_assoc. eauto. }
  split; [exact E1|]. split; [exact E2|]. split; [|reflexivity].
  rewrite (txt_files_same_inputs s0 s1 Validation K1) in H2.
  assert (txt_files (fs s0) Train = txt_files (fs s) Train
          /\ txt_files (fs s0) Validation = txt_files (fs s) Validation)
    as [Et Ev] by (split; reflexivity).
  lia.
Qed.

(** ** C10: every label file is accepted or skipped, once *)


Definition two_labels_one_image : filesystem :=
  {| raw_images_dir := Some [("a.jpg", Some (Image "jpeg"))];
     labels_train_dir :=
       Some [("a.txt", Some (Text ["0 0.5 0.5 0.2 0.2"]));
             ("b.txt", Some (Text ["1 0.3 0.3 0.1 0.1"]));
             ("classes.names", Some (Text ["carrot"]))];
     labels_validation_dir := None;
     output_data_dir := None;
     write_fails := fun _ => false;
     partial_write := fun _ => false;
     cwd := ["home"] |}.


(** ** Two runs on the same file system *)

Definition outcome_rel {A B} (Q : A -> B -> Prop)
    (o : outcome A) (o' : outcome B) : Prop :=
  match o, o' with
  | Returns a, Returns b => Q a b
  | Raises e, Raises e' => e = e'
  | _, _ => False
  end.

(** [sim Q m m']: started on states with the same file system, whatever
    their heaps and standard outputs, [m] and [m'] end on the same file
    system, both raising the same exception or returning values related
    by [Q]. *)
Definition sim {A B} (Q : A -> B -> Prop) (m : M A) (m' : M B) : Prop :=
  forall s s', fs s = fs s' ->
    fs (m s).1 = fs (m' s').1 /\ outcome_rel Q (m s).2 (m' s').2.

Definition any {A B} : A -> B -> Prop := fun _ _ => True.

Section Sim.

Lemma sim_ret {A B} (Q : A -> B -> Prop) a b : Q a b -> sim Q (ret a) (ret b).
Proof. intros H s s' Hfs. split; [exact Hfs|exact H]. Qed.

Lemma sim_raise {A B} (Q : A -> B -> Prop) e : sim Q (raise e) (raise e).
Proof. intros s s' Hfs. split; [exact Hfs|reflexivity]. Qed.

Lemma sim_bind {A A' B B'} (P : A -> A' -> Prop) (Q : B -> B' -> Prop)
    (m : M A) (m' : M A') (k : A -> M B) (k' : A' -> M B') :
  sim P m m' -> (forall a a', P a a' -> sim Q (k a) (k' a')) ->
  sim Q (bind m k) (bind m' k').
Proof.
  intros Hm Hk s s' Hfs. unfold bind. destruct (Hm s s' Hfs) as [H1 H2].
  destruct (m s) as [s1 [a|e]], (m' s') as [s1' [a'|e']]; simpl in *;
    try contradiction.
  - apply Hk; assumption.
  - split; assumption.
Qed.

Lemma sim_try_except {A B} (Q : A -> B -> Prop) m m' h h' :
  sim Q m m' -> (forall e, sim Q (h e) (h' e)) ->
  sim Q (try_except m h) (try_except m' h').
Proof.
  intros Hm Hh s s' Hfs. unfold try_except.
  destruct (Hm s s' Hfs) as [H1 H2].
  destruct (m s) as [s1 [a|e]], (m' s') as [s1' [a'|e']]; simpl in *;
    try contradiction.
  - split; assumption.
  - subst e'. apply Hh, H1.
Qed.

Lemma sim_for {A B} (xs : list A) (body body' : A -> B -> M B) :
  (forall x acc, sim eq (body x acc) (body' x acc)) ->
  forall acc, sim eq (for_ xs acc body) (for_ xs acc body').
Proof.
  intros Hb. induction xs as [|x xs IH]; intros acc; cbn [for_].
  - apply sim_ret. reflexivity.
  - apply (sim_bind eq); [apply Hb|]. intros a a' <-. apply IH.
Qed.

Lemma sim_when b m m' : sim eq m m' -> sim eq (when b m) (when b m').
Proof. intros H. destruct b; [exact H|apply sim_ret; reflexivity]. Qed.

Lemma sim_weaken {A B} (P Q : A -> B -> Prop) m m' :
  (forall a b, P a b -> Q a b) -> sim P m m' -> sim Q m m'.
Proof.
  intros HPQ H s s' Hfs. destruct (H s s' Hfs) as [H1 H2].
  split; [exact H1|].
  destruct (m s).2, (m' s').2; simpl in *; auto.
Qed.

(** Heap and standard output. *)
Lemma sim_print m m' : sim eq (print m) (print m').
Proof. intros s s' Hfs. split; [exact Hfs|reflexivity]. Qed.

Lemma sim_defaultdict_int : sim any defaultdict_int defaultdict_int.
Proof. intros s s' Hfs. split; [exact Hfs|exact I]. Qed.

Lemma sim_dict_incr d d' k k' : sim eq (dict_incr d k) (dict_incr d' k').
Proof. intros s s' Hfs. split; [exact Hfs|reflexivity]. Qed.

Lemma sim_dict_getitem d d' k k' :
  sim any (dict_getitem d k) (dict_getitem d' k').
Proof. intros s s' Hfs. split; [exact Hfs|exact I]. Qed.

(** Reads of the file system. *)
Lemma sim_get_fs : sim eq get_fs get_fs.
Proof. intros s s' Hfs. split; [exact Hfs|exact Hfs]. Qed.

Lemma sim_labels_dir_exists sp :
  sim eq (labels_dir_exists sp) (labels_dir_exists sp).
Proof.
  intros s s' Hfs. split; [exact Hfs|]. simpl. rewrite Hfs. reflexivity.
Qed.

Lemma sim_listdir_labels sp :
  sim eq (listdir_labels sp) (listdir_labels sp).
Proof.
  intros s s' Hfs. unfold listdir_labels. rewrite <- Hfs.
  destruct (labels_dir (fs s) sp); (split; [exact Hfs|reflexivity]).
Qed.

Lemma sim_listdir_raw_images : sim eq listdir_raw_images listdir_raw_images.
Proof.
  intros s s' Hfs. unfold listdir_raw_images. rewrite <- Hfs.
  destruct (raw_images_dir (fs s)); (split; [exact Hfs|reflexivity]).
Qed.

Lemma sim_read_lines p : sim eq (read_lines p) (read_lines p).
Proof.
  intros s s' Hfs. unfold read_lines. rewrite <- Hfs.
  destruct (file_data (fs s) p) as [[| | | |]|];
    (split; [exact Hfs|reflexivity]).
Qed.

Lemma sim_iter_lines p : sim eq (iter_lines p) (iter_lines p).
Proof.
  intros s s' Hfs. unfold iter_lines. rewrite <- Hfs.
  destruct (file_data (fs s) p) as [[| | | |]|];
    (split; [exact Hfs|reflexivity]).
Qed.

(** Statements that do not look at the state. *)
Lemma sim_int_ x : sim eq (int_ x) (int_ x).
Proof.
  unfold int_. destruct (PyStr.int x);
    [apply sim_ret; reflexivity|apply sim_raise].
Qed.

Lemma sim_list_getitem {A} (l : list A) i :
  sim eq (list_getitem l i) (list_getitem l i).
Proof.
  unfold list_getitem. destruct (_ <? 0); [apply sim_raise|].
  destruct (l !! _); [apply sim_ret; reflexivity|apply sim_raise].
Qed.

Lemma sim_list_index l x : sim eq (list_index l x) (list_index l x).
Proof.
  unfold list_index. destruct (index_of l x);
    [apply sim_ret; reflexivity|apply sim_raise].
Qed.

Lemma sim_dict_lookup m k :
  sim eq (PrepareDataset.dict_lookup m k) (PrepareDataset.dict_lookup m k).
Proof.
  unfold PrepareDataset.dict_lookup. destruct (m !! k);
    [apply sim_ret; reflexivity|apply sim_raise].
Qed.

(** Writes below [OUTPUT_DATA_DIR]. *)
Lemma sim_write_output dst x :
  sim eq (write_output dst x) (write_output dst x).
Proof.
  intros s s' Hfs. unfold write_output. rewrite <- Hfs.
  destruct (output_data_dir (fs s)); [|split; [exact Hfs|reflexivity]].
  destruct (_ && _); [split; reflexivity|].
  destruct (_ && _); (split; [|reflexivity]); [reflexivity|exact Hfs].
Qed.

Lemma sim_shutil_copy src dst :
  sim eq (shutil_copy src dst) (shutil_copy src dst).
Proof.
  intros s s' Hfs. unfold shutil_copy. rewrite <- Hfs.
  destruct (file_data (fs s) src); [|split; [exact Hfs|reflexivity]].
  apply sim_write_output, Hfs.
Qed.

End Sim.

(** One step of a proof of [sim], in the manner of [keeps_step]. *)
Ltac sim_step :=
  lazymatch goal with
  | |- forall _, _ => intro; subst
  | |- sim _ (bind _ _) (bind _ _) => eapply sim_bind
  | |- sim _ (try_except _ _) (try_except _ _) => apply sim_try_except
  | |- sim _ (for_ _ _ _) (for_ _ _ _) => apply sim_for
  | |- sim _ (when _ _) (when _ _) => apply sim_when
  | |- sim _ (if ?b then _ else _) (if ?b then _ else _) => destruct b
  | |- sim _ (match ?x with _ => _ end) (match ?x with _ => _ end) =>
      destruct x
  | |- sim _ (ret _) (ret _) =>
      first [apply (sim_ret eq); reflexivity | apply sim_ret; exact I]
  | |- sim _ (raise _) (raise _) => apply sim_raise
  | |- sim _ (print _) (print _) => apply sim_print
  | |- sim _ defaultdict_int defaultdict_int => apply sim_defaultdict_int
  | |- sim _ (dict_incr _ _) (dict_incr _ _) => apply sim_dict_incr
  | |- sim _ (dict_getitem _ _) (dict_getitem _ _) => apply sim_dict_getitem
  | |- sim _ get_fs get_fs => apply sim_get_fs
  | |- sim _ (labels_dir_exists _) (labels_dir_exists _) =>
      apply sim_labels_dir_exists
  | |- sim _ (listdir_labels _) (listdir_labels _) => apply sim_listdir_labels
  | |- sim _ listdir_raw_images listdir_raw_images =>
      apply sim_listdir_raw_images
  | |- sim _ (read_lines _) (read_lines _) => apply sim_read_lines
  | |- sim _ (iter_lines _) (iter_lines _) => apply sim_iter_lines
  | |- sim _ (int_ _) (int_ _) => apply sim_int_
  | |- sim _ (list_getitem _ _) (list_getitem _ _) => apply sim_list_getitem
  | |- sim _ (list_index _ _) (list_index _ _) => apply sim_list_index
  | |- sim _ (PrepareDataset.dict_lookup _ _) (PrepareDataset.dict_lookup _ _)
    => apply sim_dict_lookup
  | |- sim _ (write_output _ _) (write_output _ _) => apply sim_write_output
  | |- sim _ (shutil_copy _ _) (shutil_copy _ _) => apply sim_shutil_copy
  end.

(** ** C6: a second run of the Dataset Preparer *)

Lemma prepare_split_sim sp all_raw full d d' counters :
  sim eq (PrepareDataset.prepare_split sp all_raw full d counters)
         (PrepareDataset.prepare_split sp all_raw full d' counters).
Proof.
  unfold PrepareDataset.prepare_split. repeat sim_step.
  unfold PrepareDataset.prepare_label_file,
    PrepareDataset.copy_and_count_annotation,
    PrepareDataset.copy_and_count_annotation_line.
  repeat sim_step.
Qed.

Lemma summary_and_manifest_sim t v sk d d' :
  sim eq (PrepareDataset.summary_and_manifest t v sk d)
         (PrepareDataset.summary_and_manifest t v sk d').
Proof. unfold PrepareDataset.summary_and_manifest. repeat sim_step. Qed.

Lemma prepare_dataset_keeps R `{!StateOrder R} `{!OutputBlind R} :
  keeps R PrepareDataset.prepare_dataset.
Proof.
  unfold PrepareDataset.prepare_dataset,
    PrepareDataset.clean_output_directories,
    PrepareDataset.summary_and_manifest.
  repeat first [apply prepare_split_keeps | keeps_step].
Qed.

(** The run after lines 20-27 depends on the file system only. *)
Lemma prepare_dataset_sim s s' :
  same_inputs s s' ->
  fs (PrepareDataset.prepare_dataset s).1
  = fs (PrepareDataset.prepare_dataset s').1 /\
  (PrepareDataset.prepare_dataset s).2 = (PrepareDataset.prepare_dataset s').2.
Proof.
  intros Hin. unfold PrepareDataset.prepare_dataset.
  rewrite !(bind_Returns _ _ _ _ _ (clean_output_directories_eq _)).
  match goal with
  | |- fs (?m ?a).1 = fs (?m' ?a').1 /\ _ =>
      assert (sim eq m m') as Hsim
  end.
  { repeat lazymatch goal with
           | |- sim _ (PrepareDataset.prepare_split _ _ _ _ _) _ =>
               apply prepare_split_sim
           | |- sim _ (PrepareDataset.summary_and_manifest _ _ _ _) _ =>
               apply summary_and_manifest_sim
           | _ => sim_step
           end. }
  match goal with
  | |- fs (?m ?a).1 = fs (?m' ?a').1 /\ _ =>
      destruct (Hsim a a') as [H1 H2]
  end.
  { cbn [fs]. unfold same_inputs, with_output in *.
    injection Hin as -> -> -> -> -> ->. reflexivity. }
  split; [exact H1|].
  match type of H2 with
  | outcome_rel _ ?o ?o' => destruct o, o'; simpl in H2
  end; congruence || contradiction.
Qed.

(** C6.  A second run of the Dataset Preparer, started where the first
    one ended, ends on the very file system the first one left: the
    inputs are still what they were, the tree under [OUTPUT_DATA_DIR] is
    the same tree with the same contents, and the run ends the same way.
    What [OUTPUT_DATA_DIR] held before the first run plays no part. *)
Theorem prepare_dataset_idempotent (s : state) :
  let s1 := (PrepareDataset.prepare_dataset s).1 in
  let s2 := (PrepareDataset.prepare_dataset s1).1 in
  same_inputs s s1 /\
  fs s2 = fs s1 /\
  output_data_dir (fs s2) = output_data_dir (fs s1) /\
  (PrepareDataset.prepare_dataset s1).2 = (PrepareDataset.prepare_dataset s).2.
Proof.
  intros s1 s2.
  pose proof (prepare_dataset_keeps same_inputs s) as Hin. fold s1 in Hin.
  destruct (prepare_dataset_sim s s1 Hin) as [Hfs Hout]. fold s1 s2 in Hfs.
  repeat split; [exact Hin|congruence|congruence|congruence].
Qed.

(** * Further properties of the two scripts *)

(** ** The run without [RAW_IMAGES_DIR] *)




(** ** Raw images that share a base name *)

(** The raw images with base name [b], in listing order. *)
Definition images_named (b : string) (names : list string) : list string :=
  filter (fun f => PrepareDataset.is_image_name f = true
                   /\ PyStr.splitext_root f = b) names.

Lemma images_named_snoc b names f :
  images_named b (names ++ [f])
  = (images_named b names
     ++ if decide (PrepareDataset.is_image_name f = true
                   /\ PyStr.splitext_root f = b)
        then [f] else [])%list.
Proof.
  unfold images_named. rewrite filter_app. reflexivity.
Qed.

Lemma full_paths_of_snoc names f :
  PrepareDataset.full_paths_of (names ++ [f])
  = if decide (PrepareDataset.is_image_name f = true)
    then <[PyStr.splitext_root f := RawImage f]>
           (PrepareDataset.full_paths_of names)
    else PrepareDataset.full_paths_of names.
Proof.
  unfold PrepareDataset.full_paths_of. rewrite filter_app, foldl_app.
  rewrite filter_cons, filter_nil. case_decide; reflexivity.
Qed.

Lemma basenames_of_snoc names f :
  PrepareDataset.basenames_of (names ++ [f])
  = if decide (PrepareDataset.is_image_name f = true)
    then PrepareDataset.basenames_of names ∪ {[PyStr.splitext_root f]}
    else PrepareDataset.basenames_of names.
Proof.
  unfold PrepareDataset.basenames_of. rewrite filter_app, fmap_app.
  rewrite list_to_set_app_L, filter_cons, filter_nil.
  case_decide; simpl; set_solver.
Qed.

(** The dictionary of line 33 maps a base name to the last raw image of
    that base name in listing order (of [a.jpg] and [a.png], whichever
    [os.listdir] gives second), and its keys are exactly the set of line
    32: the lookup of line 63 cannot raise [KeyError]. *)
Theorem raw_image_of_base_name_is_last_listed
    (names : list string) (b : string) :
  PrepareDataset.full_paths_of names !! b
  = RawImage <$> last (images_named b names) /\
  (b ∈ PrepareDataset.basenames_of names <->
   is_Some (PrepareDataset.full_paths_of names !! b)).
Proof.
  induction names as [|f names [IH1 IH2]] using rev_ind.
  - split; [reflexivity|]. unfold PrepareDataset.basenames_of,
      PrepareDataset.full_paths_of. simpl. rewrite lookup_empty.
    split; [set_solver|intros [x Hx]; discriminate].
  - rewrite full_paths_of_snoc, basenames_of_snoc, images_named_snoc.
    destruct (decide (PrepareDataset.is_image_name f = true)) as [Hi|Hi].
    + destruct (decide (PyStr.splitext_root f = b)) as [Hb|Hb].
      * rewrite decide_True by (split; assumption).
        rewrite last_snoc. subst b. rewrite lookup_insert_eq.
        split; [reflexivity|]. split; [eauto|set_solver].
      * rewrite decide_False by (intros [_ H]; contradiction).
        rewrite app_nil_r, lookup_insert_ne by exact Hb.
        split; [exact IH1|]. rewrite <- IH2. set_solver.
    + rewrite decide_False by (intros [H _]; contradiction).
      rewrite app_nil_r. split; assumption.
Qed.

(** ** What an accepted file leaves in the output tree *)

Lemma write_output_Returns dst x s s' :
  write_output dst x s = (s', Returns tt) ->
  exists t,
    output_data_dir (fs s) = Some t /\
    s' = State (with_output (fs s) (Some (<[dst := File x]> t)))
               (heap s) (stdout s).
Proof.
  unfold write_output. destruct (output_data_dir (fs s)) as [t|];
    [|discriminate].
  destruct (_ && _); [|destruct (_ && _); discriminate].
  intros [= <-]. eauto.
Qed.

Lemma shutil_copy_Returns src dst s s' :
  shutil_copy src dst s = (s', Returns tt) ->
  exists x t,
    file_data (fs s) src = Some x /\ output_data_dir (fs s) = Some t /\
    s' = State (with_output (fs s) (Some (<[dst := File x]> t)))
               (heap s) (stdout s).
Proof.
  unfold shutil_copy. destruct (file_data (fs s) src) as [x|];
    [|discriminate].
  intros H. apply write_output_Returns in H as (t & Ht & ->). eauto.
Qed.

Lemma file_data_with_output f o p :
  file_data (with_output f o) p = file_data f p.
Proof. destruct p as [n|[] n]; reflexivity. Qed.

Lemma count_lines_keeps R `{!StateOrder R} p names d lines :
  keeps R (for_ lines tt
             (fun line _ =>
                PrepareDataset.copy_and_count_annotation_line p names d line)).
Proof.
  unfold PrepareDataset.copy_and_count_annotation_line. repeat keeps_step.
Qed.

(** [copy_and_count_annotation] returns [True] only when both copies were
    made: the output tree then holds the image under its own name in
    [target_img_dir] and the label file under its own name in
    [target_lbl_dir], each with the contents it has in the input (unless
    the two destinations are one path, where the image, copied last,
    stays), and nothing else in the tree or in the inputs has changed. *)
Theorem accepted_file_is_copied_unmodified
    (raw_img_path exported_label_path : src_path)
    (target_img_dir target_lbl_dir : path)
    (class_names_list : list string) (d : loc) (s : state) :
  let r := PrepareDataset.copy_and_count_annotation raw_img_path
             exported_label_path target_img_dir target_lbl_dir
             class_names_list d s in
  let lbl_dst := (target_lbl_dir ++ [basename exported_label_path])%list in
  let img_dst := (target_img_dir ++ [basename raw_img_path])%list in
  r.2 = Returns true ->
  exists lines img t t',
    file_data (fs s) exported_label_path = Some (Text lines) /\
    file_data (fs s) raw_img_path = Some img /\
    output_data_dir (fs s) = Some t /\
    output_data_dir (fs r.1) = Some t' /\
    same_inputs s r.1 /\
    t' !! img_dst = Some (File img) /\
    (lbl_dst <> img_dst -> t' !! lbl_dst = Some (File (Text lines))) /\
    (forall q, q <> lbl_dst -> q <> img_dst -> t' !! q = t !! q).
Proof.
  intros r lbl_dst img_dst. subst r.
  rewrite copy_and_count_annotation_eq. cbv zeta.
  destruct (file_data (fs s) exported_label_path) as [[lines| | |glines|]|] eqn:Hl;
    try discriminate.
  pose proof (count_lines_keeps same_fs exported_label_path class_names_list
                d lines s) as Hfs.
  destruct (for_ lines tt _ s) as [s1 [[]|e]]; [|discriminate].
  unfold same_fs in Hfs. cbn [fst] in Hfs.
  fold lbl_dst img_dst.
  destruct (shutil_copy exported_label_path lbl_dst s1) as [s2 [[]|e]] eqn:E2;
    [|discriminate].
  destruct (shutil_copy raw_img_path img_dst s2) as [s3 [[]|e]] eqn:E3;
    [|discriminate].
  intros _. cbn [fst].
  apply shutil_copy_Returns in E2 as (x & t & Hx & Ht & ->).
  apply shutil_copy_Returns in E3 as (img & t2 & Hi & Ht2 & ->).
  cbn [fs heap stdout output_data_dir with_output] in *.
  injection Ht2 as <-. rewrite Hfs in *.
  rewrite file_data_with_output in Hi. rewrite Hl in Hx. injection Hx as <-.
  exists lines, img, t, (<[img_dst := File img]> (<[lbl_dst := File (Text lines)]> t)).
  repeat split; try assumption.
  - apply lookup_insert_eq.
  - intros Hne. rewrite lookup_insert_ne by congruence. apply lookup_insert_eq.
  - intros q Hq1 Hq2. rewrite !lookup_insert_ne by congruence. reflexivity.
Qed.

Definition one_file_and_fresh_output : filesystem :=
  with_output (one_label_file ["0 0.5 0.5 0.2 0.2"] (Some (Image "jpeg")))
              (Some fresh_output).

Lemma accepted_file_is_copied_unmodified_witness :
  exists t',
    output_data_dir
      (fs (PrepareDataset.copy_and_count_annotation (RawImage "a.jpg")
             (Label Train "a.txt") ["train"; "images"] ["train"; "labels"]
             CLASS_NAMES 0%nat (State one_file_and_fresh_output [∅] [])).1)
    = Some t' /\
    t' !! ["train"; "images"; "a.jpg"] = Some (File (Image "jpeg")) /\
    t' !! ["train"; "labels"; "a.txt"]
    = Some (File (Text ["0 0.5 0.5 0.2 0.2"])).
Proof.
  destruct (accepted_file_is_copied_unmodified (RawImage "a.jpg")
              (Label Train "a.txt") ["train"; "images"] ["train"; "labels"]
              CLASS_NAMES 0%nat (State one_file_and_fresh_output [∅] []))
    as (lines & img & t & t' & Hl & Hi & _ & Ht' & _ & Himg & Hlbl & _).
  - vm_compute. reflexivity.
  - vm_compute in Hl. vm_compute in Hi.
    injection Hl as <-. injection Hi as <-.
    exists t'. split; [exact Ht'|]. split; [exact Himg|].
    apply Hlbl. discriminate.
Defined.

(** ** A skipped file can leave its label behind *)

(** A line on which [int] is not reached or succeeds. *)
Definition line_parses (line : string) : Prop :=
  (length (fields line) < 5)%nat \/ is_Some (class_id_of line).

Lemma count_lines_returns p names d lines : forall s,
  Forall line_parses lines ->
  exists s1,
    for_ lines tt
      (fun line _ => PrepareDataset.copy_and_count_annotation_line p names d line)
      s
    = (s1, Returns tt) /\ fs s1 = fs s.
Proof.
  induction lines as [|line lines IH]; intros s Hall.
  - exists s. split; reflexivity.
  - apply Forall_cons in Hall as [Hline Hall]. cbn [for_].
    assert (exists s0,
              PrepareDataset.copy_and_count_annotation_line p names d line s
              = (s0, Returns tt) /\ fs s0 = fs s) as (s0 & E0 & F0).
    { destruct (le_lt_dec 5 (length (fields line))) as [H5|H5].
      - destruct Hline as [Hs|[class_id Hc]]; [lia|].
        rewrite (preparer_line_int p names d line class_id s H5 Hc).
        destruct (in_bounds class_id names) eqn:Hb.
        + destruct (list_getitem_in_bounds names class_id Hb)
            as (name & _ & Hg).
          rewrite (bind_Returns _ _ _ _ _ (Hg s)). eexists. split; reflexivity.
        + eexists. split; reflexivity.
      - rewrite (preparer_line_short p names d line s H5).
        eexists. split; reflexivity. }
    rewrite (bind_Returns _ _ _ _ _ E0).
    destruct (IH s0 Hall) as (s1 & E1 & F1).
    exists s1. split; [exact E1|congruence].
Qed.

Lemma parent_snoc (dir : path) (name : string) :
  parent (dir ++ [name])%list = dir.
Proof. unfold parent. apply removelast_last. Qed.

(** When the label file is read and counted and its copy succeeds, but the
    image in [RAW_IMAGES_DIR] cannot be read, [copy_and_count_annotation]
    returns [False] (the caller counts the file as skipped) and the copy
    of the label file stays in the output tree, without an image. *)
Theorem skipped_file_leaves_its_label
    (raw_img_path exported_label_path : src_path)
    (target_img_dir target_lbl_dir : path) (class_names_list : list string)
    (d : loc) (s : state) (lines : list string) (t : gmap path node) :
  let r := PrepareDataset.copy_and_count_annotation raw_img_path
             exported_label_path target_img_dir target_lbl_dir
             class_names_list d s in
  let lbl_dst := (target_lbl_dir ++ [basename exported_label_path])%list in
  file_data (fs s) exported_label_path = Some (Text lines) ->
  Forall line_parses lines ->
  output_data_dir (fs s) = Some t ->
  is_dir t target_lbl_dir = true ->
  write_fails (fs s) lbl_dst = false ->
  file_data (fs s) raw_img_path = None ->
  r.2 = Returns false /\
  output_data_dir (fs r.1) = Some (<[lbl_dst := File (Text lines)]> t).
Proof.
  intros r lbl_dst Hl Hall Ht Hdir Hw Hi. subst r.
  rewrite copy_and_count_annotation_eq. cbv zeta. rewrite Hl.
  destruct (count_lines_returns exported_label_path class_names_list d lines
              s Hall) as (s1 & -> & Hfs).
  fold lbl_dst.
  assert (shutil_copy exported_label_path lbl_dst s1
          = (State (with_output (fs s1) (Some (<[lbl_dst := File (Text lines)]> t)))
                   (heap s1) (stdout s1), Returns tt)) as ->.
  { unfold shutil_copy, write_output. rewrite Hfs, Hl, Ht.
    unfold lbl_dst at 1. rewrite parent_snoc, Hdir, Hw. reflexivity. }
  unfold shutil_copy. cbn [fs]. rewrite file_data_with_output, Hfs, Hi.
  split; reflexivity.
Qed.

Lemma skipped_file_leaves_its_label_witness :
  let s := State (with_output (one_label_file ["0 0.5 0.5 0.2 0.2"] None)
                    (Some fresh_output)) [∅] [] in
  let r := PrepareDataset.copy_and_count_annotation (RawImage "a.jpg")
             (Label Train "a.txt") ["train"; "images"] ["train"; "labels"]
             CLASS_NAMES 0%nat s in
  r.2 = Returns false /\
  output_data_dir (fs r.1)
  = Some (<[["train"; "labels"; "a.txt"] := File (Text ["0 0.5 0.5 0.2 0.2"])]>
            fresh_output).
Proof.
  intros s.
  apply (skipped_file_leaves_its_label (RawImage "a.jpg") (Label Train "a.txt")
           ["train"; "images"] ["train"; "labels"] CLASS_NAMES 0%nat s
           ["0 0.5 0.5 0.2 0.2"] fresh_output).
  - reflexivity.
  - apply Forall_cons. split; [|apply Forall_nil; exact I].
    right. exists 0. reflexivity.
  - reflexivity.
  - vm_compute. reflexivity.
  - reflexivity.
  - reflexivity.
Defined.

(** ** What counting a label file does to the counters *)

(** Any property of the heap that survives [d[name] += 1] for the names
    of the class table survives the counting of a whole label file, by
    either script, however the file ends. *)
Section CountingInvariant.

Variables (P : list (gmap string nat) -> Prop)
          (names : list string) (d : loc).

Hypothesis P_counted :
  forall s name, name ∈ names -> P (heap s) -> P (heap (counted s d name)).

Lemma preparer_line_invariant p line s :
  P (heap s) ->
  P (heap (PrepareDataset.copy_and_count_annotation_line p names d line s).1).
Proof.
  intros HP. destruct (line_cases line) as [H|p0 H Hp Hi|class_id H Hc].
  - rewrite preparer_line_short by exact H. exact HP.
  - rewrite (preparer_line_not_int _ _ _ _ p0) by assumption. exact HP.
  - rewrite (preparer_line_int _ _ _ _ class_id) by assumption.
    destruct (in_bounds class_id names) eqn:Hb; [|exact HP].
    destruct (list_getitem_in_bounds names class_id Hb) as (name & Hn & Hg).
    rewrite (bind_Returns _ _ _ _ _ (Hg s)).
    apply P_counted; [|exact HP]. eapply list_elem_of_lookup_2, Hn.
Qed.

Lemma counter_line_invariant p line n s :
  P (heap s) ->
  P (heap (Utils.process_single_label_file_line p names d line n s).1).
Proof.
  intros HP. destruct (line_cases line) as [H|p0 H Hp Hi|class_id H Hc].
  - rewrite counter_line_short by exact H. exact HP.
  - rewrite (counter_line_not_int _ _ _ _ p0) by assumption. exact HP.
  - rewrite (counter_line_int _ _ _ _ class_id) by assumption.
    destruct (in_bounds class_id names) eqn:Hb; [|exact HP].
    destruct (list_getitem_in_bounds names class_id Hb) as (name & Hn & Hg).
    rewrite (bind_Returns _ _ _ _ _ (Hg s)).
    apply P_counted; [|exact HP]. eapply list_elem_of_lookup_2, Hn.
Qed.

Lemma preparer_lines_invariant p lines : forall s,
  P (heap s) ->
  P (heap (for_ lines tt
             (fun line _ =>
                PrepareDataset.copy_and_count_annotation_line p names d line)
             s).1).
Proof.
  induction lines as [|line lines IH]; intros s HP; [exact HP|].
  cbn [for_]. unfold bind.
  pose proof (preparer_line_invariant p line s HP) as H1.
  destruct (PrepareDataset.copy_and_count_annotation_line p names d line s)
    as [s1 [[]|e]]; [apply IH|]; exact H1.
Qed.

Lemma counter_lines_invariant p lines : forall n s,
  P (heap s) ->
  P (heap (for_catch lines n
             (Utils.process_single_label_file_line p names d) s).1).
Proof.
  induction lines as [|line lines IH]; intros n s HP; [exact HP|].
  cbn [for_catch].
  pose proof (counter_line_invariant p line n s HP) as H1.
  destruct (Utils.process_single_label_file_line p names d line n s)
    as [s1 [n'|e]]; [apply IH|]; exact H1.
Qed.

Lemma copy_and_count_annotation_invariant raw p ti tl s :
  P (heap s) ->
  P (heap (PrepareDataset.copy_and_count_annotation raw p ti tl names d s).1).
Proof.
  intros HP. rewrite copy_and_count_annotation_eq. cbv zeta.
  destruct (file_data (fs s) p) as [[lines| | |glines|]|]; try exact HP.
  pose proof (preparer_lines_invariant p lines s HP) as H1.
  destruct (for_ lines tt _ s) as [s1 [[]|e]]; [|exact H1].
  pose proof (shutil_copy_heap p (tl ++ [basename p])%list s1) as H2.
  destruct (shutil_copy p _ s1) as [s2 [[]|e]]; cbn [fst] in *;
    [|cbn; rewrite H2; exact H1].
  pose proof (shutil_copy_heap raw (ti ++ [basename raw])%list s2) as H3.
  destruct (shutil_copy raw _ s2) as [s3 [[]|e]]; cbn [fst] in *; cbn;
    rewrite H3, H2; exact H1.
Qed.

Lemma process_single_label_file_invariant p s :
  P (heap s) ->
  P (heap (Utils.process_single_label_file p names d s).1).
Proof.
  intros HP. rewrite process_single_label_file_eq.
  destruct (file_data (fs s) p) as [[lines| | |lines|]|]; try exact HP.
  all: pose proof (counter_lines_invariant p lines 0%nat s HP) as H1.
  all: destruct (for_catch lines 0%nat _ s) as [s1 [[n [e|]]|e]]; exact H1.
Qed.

End CountingInvariant.

(** The keys of a [defaultdict] all belong to the class table. *)
Definition keys_within (names : list string) (m : gmap string nat) : Prop :=
  forall k, is_Some (m !! k) -> k ∈ names.

Lemma dict_at_counted s d name :
  dict_at (heap (counted s d name)) d
  = (if decide (d < length (heap s))%nat
     then <[name := S (count_of (dict_at (heap s) d) name)]>
            (dict_at (heap s) d)
     else dict_at (heap s) d).
Proof.
  unfold counted, dict_at. cbn [heap]. case_decide as Hd.
  - rewrite list_lookup_insert_eq by exact Hd. reflexivity.
  - rewrite list_insert_ge by lia. reflexivity.
Qed.

(** Neither script ever counts under a name that is not in the class
    table: if the keys of the counter are class names before a label file
    is processed, they are class names after, whatever the file holds. *)
Theorem counting_never_invents_a_class
    (raw_img_path p : src_path) (target_img_dir target_lbl_dir : path)
    (names : list string) (d : loc) (s : state) :
  keys_within names (dict_at (heap s) d) ->
  keys_within names
    (dict_at (heap (PrepareDataset.copy_and_count_annotation raw_img_path p
                      target_img_dir target_lbl_dir names d s).1) d) /\
  keys_within names
    (dict_at (heap (Utils.process_single_label_file p names d s).1) d).
Proof.
  intros HK.
  assert (forall s0 name, name ∈ names ->
            keys_within names (dict_at (heap s0) d) ->
            keys_within names (dict_at (heap (counted s0 d name)) d)) as Hstep.
  { intros s0 name Hn H k. rewrite dict_at_counted. case_decide; [|apply H].
    destruct (decide (k = name)) as [->|Hne]; [intros _; exact Hn|].
    rewrite lookup_insert_ne by congruence. apply H. }
  split.
  - apply (copy_and_count_annotation_invariant
             (fun h => keys_within names (dict_at h d)) names d Hstep), HK.
  - apply (process_single_label_file_invariant
             (fun h => keys_within names (dict_at h d)) names d Hstep), HK.
Qed.

Lemma counting_never_invents_a_class_witness :
  let s := State (one_label_file ["0 0 0 1 1"; "9 0 0 1 1"; "x"] None) [∅] [] in
  keys_within CLASS_NAMES
    (dict_at (heap (Utils.process_single_label_file (Label Train "a.txt")
                      CLASS_NAMES 0%nat s).1) 0%nat).
Proof.
  intros s.
  apply (counting_never_invents_a_class (RawImage "a.jpg") (Label Train "a.txt")
           [] [] CLASS_NAMES 0%nat s).
  intros k [x Hx]. vm_compute in Hx. discriminate Hx.
Defined.

(** Counting a label file only ever raises counts, and only in the
    counter it was given: every count of that counter is at least what it
    was, and every other [defaultdict] of the heap is what it was. *)
Theorem counting_only_raises_counts
    (raw_img_path p : src_path) (target_img_dir target_lbl_dir : path)
    (names : list string) (d : loc) (s : state) :
  let after h :=
    (forall k, (count_of (dict_at (heap s) d) k <= count_of (dict_at h d) k)%nat)
    /\ (forall d', d' <> d -> dict_at h d' = dict_at (heap s) d')
    /\ length h = length (heap s) in
  after (heap (PrepareDataset.copy_and_count_annotation raw_img_path p
                 target_img_dir target_lbl_dir names d s).1) /\
  after (heap (Utils.process_single_label_file p names d s).1).
Proof.
  intros after.
  assert (forall s0 name, name ∈ names ->
            after (heap s0) -> after (heap (counted s0 d name))) as Hstep.
  { intros s0 name _ (H1 & H2 & H3). repeat split.
    - intros k. destruct (decide (k = name)) as [->|Hne].
      + destruct (decide (d < length (heap s0))%nat) as [Hd|Hd].
        * rewrite counted_same by exact Hd. specialize (H1 name). lia.
        * unfold counted. cbn [heap]. rewrite list_insert_ge by lia. apply H1.
      + rewrite counted_other_key by exact Hne. apply H1.
    - intros d' Hd'. rewrite counted_other_dict by exact Hd'. apply H2, Hd'.
    - unfold counted. cbn [heap]. rewrite length_insert. exact H3. }
  assert (after (heap s)) as H0 by (repeat split; auto).
  split.
  - apply (copy_and_count_annotation_invariant after names d Hstep), H0.
  - apply (process_single_label_file_invariant after names d Hstep), H0.
Qed.

(** ** The Annotation Counter's totals *)

(** [sum(m.values())] *)
Definition total (m : gmap string nat) : nat :=
  sum_list_with snd (map_to_list m).

Lemma total_insert_fresh (m : gmap string nat) k v :
  m !! k = None -> total (<[k := v]> m) = (v + total m)%nat.
Proof.
  intros H. unfold total. rewrite (map_to_list_insert m k v H). reflexivity.
Qed.

Lemma total_incr (m : gmap string nat) k :
  total (<[k := S (count_of m k)]> m) = S (total m).
Proof.
  unfold count_of. destruct (m !! k) as [v|] eqn:Hk; cbn [default].
  - rewrite <- (insert_delete_eq m).
    rewrite total_insert_fresh by apply lookup_delete_eq.
    rewrite <- (insert_delete_id m k v Hk) at 2.
    rewrite total_insert_fresh by apply lookup_delete_eq. reflexivity.
  - apply total_insert_fresh, Hk.
Qed.

Lemma total_counted s d name :
  (d < length (heap s))%nat ->
  total (dict_at (heap (counted s d name)) d) = S (total (dict_at (heap s) d)).
Proof.
  intros Hd. rewrite dict_at_counted, decide_True by exact Hd.
  apply total_incr.
Qed.

Section Totals.

Variables (names : list string) (d : loc).

Lemma counter_line_total p line n s :
  (d < length (heap s))%nat ->
  let r := Utils.process_single_label_file_line p names d line n s in
  length (heap r.1) = length (heap s) /\
  match r.2 with
  | Returns n' =>
      (total (dict_at (heap r.1) d) + n
       = total (dict_at (heap s) d) + n')%nat
  | Raises _ => heap r.1 = heap s
  end.
Proof.
  intros Hd. destruct (line_cases line) as [H|p0 H Hp Hi|class_id H Hc]; cbv zeta.
  - rewrite counter_line_short by exact H. split; reflexivity.
  - rewrite (counter_line_not_int _ _ _ _ p0) by assumption.
    split; reflexivity.
  - rewrite (counter_line_int _ _ _ _ class_id) by assumption.
    destruct (in_bounds class_id names) eqn:Hb; [|split; reflexivity].
    destruct (list_getitem_in_bounds names class_id Hb) as (name & _ & Hg).
    rewrite (bind_Returns _ _ _ _ _ (Hg s)).
    rewrite (bind_Returns _ _ _ _ _ (dict_incr_counted d name s)).
    cbn [fst snd ret]. split.
    + unfold counted. cbn [heap]. apply length_insert.
    + rewrite total_counted by exact Hd. lia.
Qed.

Lemma counter_lines_total p lines : forall n s,
  (d < length (heap s))%nat ->
  exists s' n' raised,
    for_catch lines n (Utils.process_single_label_file_line p names d) s
    = (s', Returns (n', raised)) /\
    length (heap s') = length (heap s) /\
    (total (dict_at (heap s') d) + n = total (dict_at (heap s) d) + n')%nat.
Proof.
  induction lines as [|line lines IH]; intros n s Hd.
  - exists s, n, None. repeat split.
  - cbn [for_catch].
    destruct (counter_line_total p line n s Hd) as [Hlen Hr].
    destruct (Utils.process_single_label_file_line p names d line n s)
      as [s1 [n1|e]]; cbn [fst snd] in *.
    + destruct (IH n1 s1) as (s' & n' & raised & -> & Hlen' & Ht); [lia|].
      exists s', n', raised. repeat split; [congruence|lia].
    + exists s1, n, (Some e). repeat split; [exact Hlen|]. rewrite Hr. lia.
Qed.

Lemma process_single_label_file_total (p : src_path) (s : state) :
  (d < length (heap s))%nat ->
  exists s' n,
    Utils.process_single_label_file p names d s = (s', Returns n) /\
    length (heap s') = length (heap s) /\
    total (dict_at (heap s') d) = (total (dict_at (heap s) d) + n)%nat.
Proof.
  intros Hd. rewrite process_single_label_file_eq.
  destruct (file_data (fs s) p) as [[lines| | |lines|]|];
    try (eexists _, 0%nat; repeat split; cbn; lia).
  all: destruct (counter_lines_total p lines 0%nat s Hd)
         as (s' & n' & raised & -> & Hlen & Ht).
  all: destruct raised as [e|]; eexists _, n';
    (repeat split; cbn; [exact Hlen|lia]).
Qed.

End Totals.

(** [process_single_label_file] always returns, and the number it
    returns is the number of objects it has added to the counter: the
    sum of the counter's values has grown by exactly that number, also
    when the file could not be opened or a line stopped the loop. *)
Theorem objects_in_file_is_what_was_counted
    (names : list string) (d : loc) (p : src_path) (s : state) :
  (d < length (heap s))%nat ->
  exists s' n,
    Utils.process_single_label_file p names d s = (s', Returns n) /\
    length (heap s') = length (heap s) /\
    total (dict_at (heap s') d) = (total (dict_at (heap s) d) + n)%nat.
Proof. apply process_single_label_file_total. Qed.

Lemma objects_in_file_is_what_was_counted_witness :
  let s := State (one_label_file ["0 0 0 1 1"; "1 0 0 1 1"; "x y z u v"; "2 0 0 1 1"]
                    None) [∅] [] in
  exists s' n,
    Utils.process_single_label_file (Label Train "a.txt") CLASS_NAMES 0%nat s
    = (s', Returns n) /\
    total (dict_at (heap s') 0%nat) = (total (dict_at (heap s) 0%nat) + n)%nat.
Proof.
  intros s.
  destruct (objects_in_file_is_what_was_counted CLASS_NAMES 0%nat
              (Label Train "a.txt") s) as (s' & n & E & _ & Ht).
  - cbn. lia.
  - exists s', n. split; [exact E|exact Ht].
Defined.




(** ** When the Annotation Counter ends normally *)

(** [always_returns m]: [m] never raises. *)
Definition always_returns {A} (m : M A) : Prop :=
  forall s, exists s' a, m s = (s', Returns a).

Lemma ar_ret {A} (a : A) : always_returns (ret a).
Proof. intros s. eexists _, _. reflexivity. Qed.

Lemma ar_bind {A B} (m : M A) (k : A -> M B) :
  always_returns m -> (forall a, always_returns (k a)) ->
  always_returns (bind m k).
Proof.
  intros Hm Hk s. destruct (Hm s) as (s' & a & E).
  rewrite (bind_Returns _ _ _ _ _ E). apply Hk.
Qed.

Lemma ar_for_elem {A B} (xs : list A) (body : A -> B -> M B) :
  (forall x acc, x ∈ xs -> always_returns (body x acc)) ->
  forall acc, always_returns (for_ xs acc body).
Proof.
  induction xs as [|x xs IH]; intros Hb acc; cbn [for_]; [apply ar_ret|].
  apply ar_bind; [apply Hb; left|].
  intros a. apply IH. intros y acc' Hy. apply Hb. right. exact Hy.
Qed.

Lemma ar_print m : always_returns (print m).
Proof. intros s. eexists _, _. reflexivity. Qed.

Lemma ar_defaultdict_int : always_returns defaultdict_int.
Proof. intros s. eexists _, _. reflexivity. Qed.

Lemma ar_dict_getitem d k : always_returns (dict_getitem d k).
Proof. intros s. eexists _, _. reflexivity. Qed.

Lemma ar_dict_setitem d k v : always_returns (dict_setitem d k v).
Proof. intros s. eexists _, _. reflexivity. Qed.

Lemma ar_list_index l x : x ∈ l -> always_returns (list_index l x).
Proof.
  intros Hx. unfold list_index.
  assert (is_Some (index_of l x)) as [i ->]; [|apply ar_ret].
  induction l as [|y l IH]; [inversion Hx|]. cbn [index_of].
  destruct (String.eqb y x) eqn:E; [eauto|].
  apply elem_of_cons in Hx as [->|Hx]; [rewrite String.eqb_refl in E; discriminate|].
  destruct (IH Hx) as [i ->]. cbn. eauto.
Qed.

Ltac ar_step :=
  lazymatch goal with
  | |- forall _, _ => intro
  | |- always_returns (bind _ _) => apply ar_bind
  | |- always_returns (for_ _ _ _) => apply ar_for_elem
  | |- always_returns (if ?b then _ else _) => destruct b
  | |- always_returns (ret _) => apply ar_ret
  | |- always_returns (print _) => apply ar_print
  | |- always_returns defaultdict_int => apply ar_defaultdict_int
  | |- always_returns (dict_getitem _ _) => apply ar_dict_getitem
  | |- always_returns (dict_setitem _ _ _) => apply ar_dict_setitem
  | |- always_returns (list_index _ _) => apply ar_list_index; assumption
  end.




(** ** What the Dataset Preparer writes *)

Definition output_dirs : list path :=
  [["train"]; ["train"; "images"]; ["train"; "labels"];
   ["val"]; ["val"; "images"]; ["val"; "labels"]].

(** What a write of [x] can have left at its destination: [x] itself,
    or an initial part of it when the write failed part-way. *)
Definition whole_or_part (x y : data) : Prop := y = x \/ y = Partial x.

(** The entries the two loops may leave in the output tree: the six
    directories, a label file of a split under its own name in that
    split's [labels], a raw image under its own name in a split's
    [images]; each file with the contents it has in the input or, where
    its copy failed part-way, an initial part of them. *)
Inductive copied (f : filesystem) : path -> node -> Prop :=
| copied_dir p : p ∈ output_dirs -> copied f p Dir
| copied_label sp name x y :
    file_data f (Label sp name) = Some x -> whole_or_part x y ->
    copied f [PrepareDataset.out_split sp; "labels"; name] (File y)
| copied_image sp name x y :
    file_data f (RawImage name) = Some x -> whole_or_part x y ->
    copied f [PrepareDataset.out_split sp; "images"; name] (File y).

Definition only_copies (f : filesystem) : Prop :=
  exists t, output_data_dir f = Some t /\
            forall p n, t !! p = Some n -> copied f p n.

Lemma file_data_same_inputs f f' p :
  with_output f None = with_output f' None -> file_data f p = file_data f' p.
Proof.
  intros H. rewrite <- (file_data_with_output f None), H.
  apply file_data_with_output.
Qed.

Lemma copied_same_inputs f f' p n :
  with_output f None = with_output f' None -> copied f p n -> copied f' p n.
Proof.
  intros H [q Hq|sp name x y Hx Hy|sp name x y Hx Hy].
  - apply copied_dir, Hq.
  - apply (copied_label _ _ _ x); [|exact Hy].
    rewrite <- (file_data_same_inputs f f') by exact H. exact Hx.
  - apply (copied_image _ _ _ x); [|exact Hy].
    rewrite <- (file_data_same_inputs f f') by exact H. exact Hx.
Qed.

(** The inputs are what they were, and an output tree of copies is still
    one. *)
Definition still_copies (s s' : state) : Prop :=
  same_inputs s s' /\ (only_copies (fs s) -> only_copies (fs s')).

Global Instance still_copies_order : StateOrder still_copies.
Proof.
  split; unfold still_copies.
  - intros s. split; [apply so_refl|auto].
  - intros s1 s2 s3 [H1 H1'] [H2 H2']. split; [|auto].
    eapply so_trans; eassumption.
  - intros s m. split; [apply so_print|auto].
  - intros s h. split; [apply (so_heap s h)|auto].
Qed.

Lemma still_copies_insert s dst x :
  copied (fs s) dst (File x) ->
  forall t, output_data_dir (fs s) = Some t ->
  still_copies s (State (with_output (fs s) (Some (<[dst := File x]> t)))
                        (heap s) (stdout s)).
Proof.
  intros Hc t Ht. split; [reflexivity|].
  intros (t0 & Ht0 & Hall). rewrite Ht in Ht0. injection Ht0 as <-.
  exists (<[dst := File x]> t). split; [reflexivity|].
  intros p n Hp. apply (copied_same_inputs (fs s)); [reflexivity|].
  destruct (decide (dst = p)) as [<-|Hne].
  - rewrite lookup_insert_eq in Hp. injection Hp as <-. exact Hc.
  - rewrite lookup_insert_ne in Hp by exact Hne. apply Hall, Hp.
Qed.

(** A copy that raises has changed nothing, or has left an initial part
    of the source at the destination. *)
Lemma shutil_copy_Raises src dst s s' e :
  shutil_copy src dst s = (s', Raises e) ->
  s' = s \/
  exists x t,
    file_data (fs s) src = Some x /\ output_data_dir (fs s) = Some t /\
    s' = State (with_output (fs s) (Some (<[dst := File (Partial x)]> t)))
               (heap s) (stdout s).
Proof.
  unfold shutil_copy, write_output.
  destruct (file_data (fs s) src) as [x|]; [|intros [= <- _]; left; reflexivity].
  destruct (output_data_dir (fs s)) as [t|];
    [|intros [= <- _]; left; reflexivity].
  destruct (_ && _); [discriminate|].
  destruct (_ && _); intros [= <- _]; [right; eauto|left; reflexivity].
Qed.

Lemma keeps_copy_of_label sp name :
  keeps still_copies
    (shutil_copy (Label sp name) [PrepareDataset.out_split sp; "labels"; name]).
Proof.
  intros s. destruct (shutil_copy _ _ s) as [s' [[]|e]] eqn:E.
  - apply shutil_copy_Returns in E as (x & t & Hx & Ht & ->).
    apply still_copies_insert; [|exact Ht].
    apply (copied_label _ _ _ x); [exact Hx|left; reflexivity].
  - apply shutil_copy_Raises in E as [->|(x & t & Hx & Ht & ->)];
      [apply so_refl|].
    apply still_copies_insert; [|exact Ht].
    apply (copied_label _ _ _ x); [exact Hx|right; reflexivity].
Qed.

Lemma keeps_copy_of_image sp name :
  keeps still_copies
    (shutil_copy (RawImage name) [PrepareDataset.out_split sp; "images"; name]).
Proof.
  intros s. destruct (shutil_copy _ _ s) as [s' [[]|e]] eqn:E.
  - apply shutil_copy_Returns in E as (x & t & Hx & Ht & ->).
    apply still_copies_insert; [|exact Ht].
    apply (copied_image _ _ _ x); [exact Hx|left; reflexivity].
  - apply shutil_copy_Raises in E as [->|(x & t & Hx & Ht & ->)];
      [apply so_refl|].
    apply still_copies_insert; [|exact Ht].
    apply (copied_image _ _ _ x); [exact Hx|right; reflexivity].
Qed.

(** The values of the dictionary of line 33 are paths in
    [RAW_IMAGES_DIR]. *)
Definition raw_image_paths (full : gmap string src_path) : Prop :=
  forall b q, full !! b = Some q -> exists f, q = RawImage f.

Lemma full_paths_of_raw_images names :
  raw_image_paths (PrepareDataset.full_paths_of names).
Proof.
  unfold PrepareDataset.full_paths_of.
  generalize (filter (fun f => PrepareDataset.is_image_name f = true) names).
  intros l.
  assert (raw_image_paths (∅ : gmap string src_path)) as H0.
  { intros b q H. rewrite lookup_empty in H. discriminate. }
  revert H0. generalize (∅ : gmap string src_path).
  induction l as [|f l IH]; intros m Hm; [exact Hm|].
  cbn [foldl]. apply IH. intros b q.
  destruct (decide (PyStr.splitext_root f = b)) as [<-|Hne].
  - rewrite lookup_insert_eq. intros [= <-]. eauto.
  - rewrite lookup_insert_ne by exact Hne. apply Hm.
Qed.

Lemma keeps_bind_ret R {A B} (x : A) (k : A -> M B) :
  keeps R (k x) -> keeps R (bind (ret x) k).
Proof. intros H s. exact (H s). Qed.

Lemma prepare_label_file_still_copies sp all_raw full d label_filename counters :
  raw_image_paths full ->
  keeps still_copies
    (PrepareDataset.prepare_label_file sp all_raw full d label_filename
       counters).
Proof.
  intros Hfull. unfold PrepareDataset.prepare_label_file.
  destruct counters as [ic sk].
  destruct (negb _); [apply keeps_ret; exact _|]. cbv zeta.
  destruct (bool_decide _); [repeat keeps_step|].
  unfold PrepareDataset.dict_lookup.
  destruct (full !! _) as [q|] eqn:Hq; [|intros s; apply so_refl].
  destruct (Hfull _ _ Hq) as [f ->].
  apply keeps_bind_ret.
  apply (keeps_bind still_copies); [| repeat keeps_step].
  unfold PrepareDataset.copy_and_count_annotation,
    PrepareDataset.copy_and_count_annotation_line.
  repeat first [apply keeps_copy_of_label | apply keeps_copy_of_image
               | keeps_step].
Qed.

Lemma prepare_split_still_copies sp all_raw full d counters :
  raw_image_paths full ->
  keeps still_copies (PrepareDataset.prepare_split sp all_raw full d counters).
Proof.
  intros Hfull. unfold PrepareDataset.prepare_split.
  repeat lazymatch goal with
         | |- keeps _ (PrepareDataset.prepare_label_file _ _ _ _ _ _) =>
             apply prepare_label_file_still_copies, Hfull
         | _ => keeps_step
         end.
Qed.

Lemma fresh_output_dirs p n :
  fresh_output !! p = Some n -> n = Dir /\ p ∈ output_dirs.
Proof.
  unfold fresh_output, output_3, output_2, output_1, output_dirs.
  repeat (rewrite lookup_insert; destruct (decide _) as [<-|?];
          [intros [= <-]; split; [reflexivity|set_solver]|]).
  rewrite lookup_empty. discriminate.
Qed.

Lemma only_copies_fresh f :
  only_copies (with_output f (Some fresh_output)).
Proof.
  exists fresh_output. split; [reflexivity|].
  intros p n H. apply fresh_output_dirs in H as [-> Hp].
  apply copied_dir, Hp.
Qed.

Lemma copied_not_data_yaml f n : ~ copied f ["data.yaml"] n.
Proof.
  intros H. inversion H as [p Hp| |]; subst.
  unfold output_dirs in Hp. set_solver.
Qed.

Lemma summary_loop_returns d s :
  exists s',
    for_ CLASS_NAMES tt
      (fun class_name _ =>
         do i <- list_index CLASS_NAMES class_name;
         do n <- dict_getitem d class_name;
         print (ClassTotal class_name i n)) s
    = (s', Returns tt) /\ fs s' = fs s.
Proof.
  match goal with
  | |- exists _, ?m s = _ /\ _ =>
      assert (always_returns m) as Har by (repeat ar_step);
      assert (keeps same_fs m) as Hk by (repeat keeps_step)
  end.
  specialize (Hk s). destruct (Har s) as (s' & [] & E). rewrite E in Hk.
  exists s'. split; [exact E|exact Hk].
Qed.

(** How lines 99-124 end, and what they leave of the file system. *)
Lemma summary_and_manifest_result t v sk d s :
  let r := PrepareDataset.summary_and_manifest t v sk d s in
  let yaml := File (Yaml (PrepareDataset.data_yaml_content (fs s))) in
  let part :=
    File (Partial (Yaml (PrepareDataset.data_yaml_content (fs s)))) in
  if (t + v =? 0)%nat then fs r.1 = fs s /\ r.2 = Returns tt
  else
    match output_data_dir (fs s) with
    | Some tree =>
        if write_fails (fs s) ["data.yaml"]
        then (if partial_write (fs s) ["data.yaml"]
              then fs r.1
                   = with_output (fs s)
                       (Some (<[["data.yaml"] := part]> tree))
              else fs r.1 = fs s)
             /\ r.2 = Raises (OSError "data.yaml")
        else fs r.1 = with_output (fs s) (Some (<[["data.yaml"] := yaml]> tree))
             /\ r.2 = Returns tt
    | None => fs r.1 = fs s /\ r.2 = Raises (OSError "data.yaml")
    end.
Proof.
  cbv zeta. unfold PrepareDataset.summary_and_manifest.
  rewrite (bind_Returns _ _ _ _ _ eq_refl).
  rewrite (bind_Returns _ _ _ _ _ eq_refl).
  rewrite (bind_Returns _ _ _ _ _ eq_refl).
  destruct (summary_loop_returns d
              (printed (printed (printed s PreparationSummary) (Prepared t v))
                 TotalPerClassHeader)) as (s1 & E1 & F1).
  rewrite (bind_Returns _ _ _ _ _ E1).
  rewrite (bind_Returns _ _ _ _ _ eq_refl).
  cbn [fs printed] in F1.
  destruct (t + v =? 0)%nat.
  - split; [exact F1|reflexivity].
  - rewrite (bind_Returns _ _ _ _ _ eq_refl). cbn [fs printed].
    unfold bind, write_output. cbn [fs printed]. rewrite F1.
    destruct (output_data_dir (fs s)) as [tree|];
      [|split; first [reflexivity | exact F1]].
    cbn [parent removelast is_dir andb].
    destruct (write_fails (fs s) ["data.yaml"]); cbn [negb];
      [destruct (partial_write (fs s) ["data.yaml"])|];
      split; first [reflexivity | exact F1].
Qed.


(** The state after the two loops of a run whose [RAW_IMAGES_DIR] exists:
    the inputs are untouched and the output tree holds copies only. *)
Lemma after_the_loops s raw :
  raw_images_dir (fs s) = Some raw ->
  exists s2 d t v sk,
    PrepareDataset.prepare_dataset s
    = PrepareDataset.summary_and_manifest t v sk d s2 /\
    same_inputs s s2 /\ only_copies (fs s2) /\ stdout_grows s s2 /\
    (t + v + sk = txt_files (fs s) Train + txt_files (fs s) Validation)%nat.
Proof.
  intros Hraw.
  destruct (prepare_dataset_eq s raw Hraw)
    as (s0 & s1 & s2 & d & t & sk1 & v & sk & F0 & G0 & E1 & E2 & Hsum & E).
  cbv zeta in E1, E2.
  pose proof (prepare_split_still_copies Train
                (PrepareDataset.basenames_of raw.*1)
                (PrepareDataset.full_paths_of raw.*1) d (0, 0)%nat
                (full_paths_of_raw_images raw.*1) s0) as [I1 C1].
  pose proof (prepare_split_still_copies Validation
                (PrepareDataset.basenames_of raw.*1)
                (PrepareDataset.full_paths_of raw.*1) d (0%nat, sk1)
                (full_paths_of_raw_images raw.*1) s1) as [I2 C2].
  pose proof (prepare_split_keeps stdout_grows Train
                (PrepareDataset.basenames_of raw.*1)
                (PrepareDataset.full_paths_of raw.*1) d (0, 0)%nat s0) as G1.
  pose proof (prepare_split_keeps stdout_grows Validation
                (PrepareDataset.basenames_of raw.*1)
                (PrepareDataset.full_paths_of raw.*1) d (0%nat, sk1) s1)
    as G2.
  rewrite E1 in I1, C1, G1. rewrite E2 in I2, C2, G2. cbn [fst] in *.
  exists s2, d, t, v, sk. split; [exact E|].
  assert (same_inputs s s0) as I0 by (unfold same_inputs; rewrite F0; reflexivity).
  split; [exact (so_trans _ _ _ I0 (so_trans _ _ _ I1 I2))|].
  split; [apply C2, C1; rewrite F0; apply only_copies_fresh|].
  split; [exact (so_trans _ _ _ G0 (so_trans _ _ _ G1 G2))|exact Hsum].
Qed.

Lemma data_yaml_content_same_inputs s s' :
  same_inputs s s' ->
  PrepareDataset.data_yaml_content (fs s')
  = PrepareDataset.data_yaml_content (fs s).
Proof.
  unfold same_inputs, with_output. intros [= _ _ _ _ _ Hcwd].
  unfold PrepareDataset.data_yaml_content. rewrite Hcwd. reflexivity.
Qed.



(** [data.yaml] is written exactly when an image was accepted: with the
    counters the summary prints, a run that accepts no image returns
    without a [data.yaml] in the output tree; a run that accepts one
    writes the manifest of the class table there and returns, or ends on
    the error of that write, and then [data.yaml] is missing or holds an
    initial part of the manifest, as the failure came before or after the
    file was opened. *)
Theorem manifest_is_written_iff_an_image_was_accepted
    (s : state) (raw : directory) :
  raw_images_dir (fs s) = Some raw ->
  let r := PrepareDataset.prepare_dataset s in
  let manifest := Yaml (PrepareDataset.data_yaml_content (fs s)) in
  exists t v sk c0 c1 c2 pre post tree,
    stdout r.1
    = (stdout s ++ pre ++ summary_block t v sk c0 c1 c2 ++ post)%list /\
    output_data_dir (fs r.1) = Some tree /\
    if (t + v =? 0)%nat then
      tree !! ["data.yaml"] = None /\ r.2 = Returns tt
    else if write_fails (fs s) ["data.yaml"] then
      tree !! ["data.yaml"]
      = (if partial_write (fs s) ["data.yaml"]
         then Some (File (Partial manifest)) else None)
      /\ r.2 = Raises (OSError "data.yaml")
    else
      tree !! ["data.yaml"] = Some (File manifest) /\ r.2 = Returns tt.
Proof.
  intros Hraw r manifest. subst r.
  destruct (after_the_loops s raw Hraw)
    as (s2 & d & t & v & sk & -> & Hin & (t2 & Ht2 & Hall) & [pre Hpre] & _).
  destruct (summary_and_manifest_stdout t v sk d s2)
    as (c0 & c1 & c2 & post & Hout).
  pose proof (summary_and_manifest_result t v sk d s2) as Hr.
  cbv zeta in Hr. rewrite Ht2 in Hr.
  rewrite (data_yaml_content_same_inputs s s2 Hin) in Hr. fold manifest in Hr.
  assert (t2 !! ["data.yaml"] = None) as Hno.
  { destruct (t2 !! ["data.yaml"]) as [m|] eqn:Hm; [|reflexivity].
    destruct (copied_not_data_yaml _ _ (Hall _ _ Hm)). }
  assert (write_fails (fs s2) ["data.yaml"] = write_fails (fs s) ["data.yaml"]
          /\ partial_write (fs s2) ["data.yaml"]
             = partial_write (fs s) ["data.yaml"])
    as [Hw Hpw].
  { unfold same_inputs, with_output in Hin. injection Hin as _ _ _ -> -> _.
    split; reflexivity. }
  rewrite Hw, Hpw in Hr.
  assert (stdout (PrepareDataset.summary_and_manifest t v sk d s2).1
          = (stdout s ++ pre ++ summary_block t v sk c0 c1 c2 ++ post)%list)
    as Hstd by (rewrite Hout, Hpre, <- !app_assoc; reflexivity).
  destruct (t + v =? 0)%nat eqn:Htv;
    [|destruct (write_fails (fs s) ["data.yaml"]) eqn:Hwf;
      [destruct (partial_write (fs s) ["data.yaml"]) eqn:Hpf|]];
    destruct Hr as [Hfs Hres]; rewrite Hfs, Hres.
  - exists t, v, sk, c0, c1, c2, pre, post, t2. rewrite Htv.
    repeat split; assumption.
  - eexists t, v, sk, c0, c1, c2, pre, post, _. rewrite Htv.
    split; [exact Hstd|]. split; [reflexivity|].
    split; [|reflexivity]. apply lookup_insert_eq.
  - exists t, v, sk, c0, c1, c2, pre, post, t2. rewrite Htv.
    repeat split; assumption.
  - eexists t, v, sk, c0, c1, c2, pre, post, _. rewrite Htv.
    split; [exact Hstd|]. split; [reflexivity|].
    split; [|reflexivity]. apply lookup_insert_eq.
Qed.

Lemma manifest_is_written_iff_an_image_was_accepted_witness :
  let s := State two_labels_one_image [] [] in
  let r := PrepareDataset.prepare_dataset s in
  let manifest := Yaml (PrepareDataset.data_yaml_content (fs s)) in
  exists t v sk c0 c1 c2 pre post tree,
    stdout r.1
    = (stdout s ++ pre ++ summary_block t v sk c0 c1 c2 ++ post)%list /\
    output_data_dir (fs r.1) = Some tree /\
    if (t + v =? 0)%nat then
      tree !! ["data.yaml"] = None /\ r.2 = Returns tt
    else if write_fails (fs s) ["data.yaml"] then
      tree !! ["data.yaml"]
      = (if partial_write (fs s) ["data.yaml"]
         then Some (File (Partial manifest)) else None)
      /\ r.2 = Raises (OSError "data.yaml")
    else
      tree !! ["data.yaml"] = Some (File manifest) /\ r.2 = Returns tt.
Proof.
  exact (manifest_is_written_iff_an_image_was_accepted
           (State two_labels_one_image [] [])
           [("a.jpg", Some (Image "jpeg"))] eq_refl).
Defined.

(** ** A run without label files *)




Definition images_without_labels : filesystem :=
  {| raw_images_dir := Some [("a.jpg", Some (Image "jpeg"))];
     labels_train_dir := Some [("README.md", Some (Text ["notes"]))];
     labels_validation_dir := None;
     output_data_dir := Some {[ ["data.yaml"] := Dir ]};
     write_fails := fun _ => false;
     partial_write := fun _ => false;
     cwd := [] |}.


(** ** A split without annotations, in the Annotation Counter *)

(** A label directory that is missing, or that holds no [.txt] entry,
    adds nothing: the scan returns the total it was given, leaves every
    counter as it was, and prints the warning (missing directory) or the
    scanning line and the no-file notice (no [.txt] entry). *)
Theorem split_without_annotation_files_counts_nothing
    (sp : split) (d : loc) (total_objects : nat) (s : state) :
  txt_files (fs s) sp = 0%nat ->
  Utils.count_split sp d total_objects s
  = (State (fs s) (heap s)
       (stdout s ++ match labels_dir (fs s) sp with
                    | Some _ => [Scanning sp; NoTxtFiles sp]
                    | None => [WarnLabelsDirNotCounted sp]
                    end),
     Returns total_objects).
Proof.
  unfold txt_files, Utils.count_split.
  destruct (labels_dir (fs s) sp) as [dir|] eqn:Hdir; intros H.
  - rewrite (bind_Returns _ _ s s true)
      by (unfold labels_dir_exists; rewrite Hdir; reflexivity).
    rewrite (bind_Returns _ _ s (printed s (Scanning sp)) tt) by reflexivity.
    rewrite (bind_Returns _ _ _ (printed s (Scanning sp)) dir.*1)
      by (unfold listdir_labels; cbn [fs printed]; rewrite Hdir; reflexivity).
    unfold txt_count in H. apply nil_length_inv in H. rewrite H.
    rewrite bool_decide_eq_true_2 by reflexivity.
    unfold when. rewrite (bind_Returns _ _ _ _ _ eq_refl).
    cbn [for_ ret printed fs heap stdout]. rewrite <- app_assoc. reflexivity.
  - rewrite (bind_Returns _ _ s s false)
      by (unfold labels_dir_exists; rewrite Hdir; reflexivity).
    rewrite (bind_Returns _ _ s (printed s (WarnLabelsDirNotCounted sp)) tt)
      by reflexivity.
    reflexivity.
Qed.

Lemma split_without_annotation_files_counts_nothing_witness :
  Utils.count_split Train 0%nat 7%nat (State images_without_labels [∅] [])
  = (State images_without_labels [∅] [Scanning Train; NoTxtFiles Train],
     Returns 7%nat).
Proof.
  apply (split_without_annotation_files_counts_nothing Train 0%nat 7%nat
           (State images_without_labels [∅] [])).
  reflexivity.
Defined.

(** ** A label file that cannot be opened *)

(** When [open] fails on the label file, both scripts print their error
    and leave the file system and every counter as they were: the Dataset
    Preparer returns [False] without copying anything, the Annotation
    Counter returns 0. *)
Theorem unreadable_label_file_changes_nothing
    (raw_img_path p : src_path) (target_img_dir target_lbl_dir : path)
    (names : list string) (d : loc) (s : state) :
  file_data (fs s) p = None ->
  PrepareDataset.copy_and_count_annotation raw_img_path p target_img_dir
    target_lbl_dir names d s
  = (printed s (ErrorProcessing (basename p) (OSError (basename p))),
     Returns false) /\
  Utils.process_single_label_file p names d s
  = (printed s (ErrorReading (basename p) (OSError (basename p))),
     Returns 0%nat).
Proof.
  intros H. rewrite copy_and_count_annotation_eq, process_single_label_file_eq.
  rewrite H. split; reflexivity.
Qed.

Lemma unreadable_label_file_changes_nothing_witness :
  let s := State (one_label_file [] None) [∅] [] in
  Utils.process_single_label_file (Label Validation "a.txt") CLASS_NAMES 0%nat s
  = (printed s (ErrorReading "a.txt" (OSError "a.txt")), Returns 0%nat).
Proof.
  intros s.
  apply (unreadable_label_file_changes_nothing (RawImage "a.jpg")
           (Label Validation "a.txt") [] [] CLASS_NAMES 0%nat s).
  reflexivity.
Defined.

(** ** The counters of the summary, split by split *)

Lemma prepare_label_file_monotone sp all_raw full d f ic sk s s' ic' sk' :
  PrepareDataset.prepare_label_file sp all_raw full d f (ic, sk) s
  = (s', Returns (ic', sk')) ->
  (ic <= ic')%nat /\ (sk <= sk')%nat.
Proof.
  unfold PrepareDataset.prepare_label_file.
  destruct (negb _); [intros [= _ <- <-]; lia|]. cbv zeta.
  destruct (bool_decide _); [intros [= _ <- <-]; lia|].
  unfold bind. destruct (PrepareDataset.dict_lookup _ _ s) as [s1 [q|e]];
    [|discriminate].
  destruct (PrepareDataset.copy_and_count_annotation _ _ _ _ _ _ s1)
    as [s2 [[]|e]]; [| |discriminate]; intros [= _ <- <-]; lia.
Qed.

Lemma prepare_split_monotone sp all_raw full d ic sk s s' ic' sk' :
  PrepareDataset.prepare_split sp all_raw full d (ic, sk) s
  = (s', Returns (ic', sk')) ->
  (ic <= ic')%nat /\ (sk <= sk')%nat.
Proof.
  unfold PrepareDataset.prepare_split. unfold bind at 1.
  destruct (labels_dir_exists sp s) as [s0 [[]|e]]; try discriminate;
    [|intros [= _ <- <-]; lia].
  unfold bind at 1. destruct (listdir_labels sp s0) as [s1 [names|e]];
    [|discriminate].
  revert ic sk s1. induction names as [|f names IH]; intros ic sk s1.
  - intros [= _ <- <-]. lia.
  - cbn [for_]. unfold bind at 1.
    destruct (PrepareDataset.prepare_label_file sp all_raw full d f (ic, sk) s1)
      as [s2 [[ic2 sk2]|e]] eqn:E; [|discriminate].
    apply prepare_label_file_monotone in E. intros H. apply IH in H. lia.
Qed.

(** The counters printed in the summary account for each split on its
    own: the prepared training images and the files skipped in the first
    loop are the [.txt] entries of [labels/train], the prepared
    validation images and the files skipped in the second loop are those
    of [labels/validation], and the skipped counter, which the two loops
    share, is the sum of the two. *)
Theorem each_split_is_accounted_for (s : state) (raw : directory) :
  raw_images_dir (fs s) = Some raw ->
  exists t v sk_t sk_v c0 c1 c2 pre post,
    stdout (PrepareDataset.prepare_dataset s).1
    = (stdout s ++ pre ++ summary_block t v (sk_t + sk_v) c0 c1 c2 ++ post)%list
    /\ (t + sk_t = txt_files (fs s) Train)%nat
    /\ (v + sk_v = txt_files (fs s) Validation)%nat.
Proof.
  intros Hraw.
  destruct (prepare_dataset_eq s raw Hraw)
    as (s0 & s1 & s2 & d & t & sk1 & v & sk & F0 & G0 & E1 & E2 & _ & ->).
  cbv zeta in E1, E2.
  destruct (prepare_split_counts Train raw.*1 d 0%nat 0%nat s0)
    as (s1' & t' & sk1' & E1' & H1).
  rewrite E1 in E1'. injection E1' as <- <- <-.
  destruct (prepare_split_counts Validation raw.*1 d 0%nat sk1 s1)
    as (s2' & v' & sk' & E2' & H2).
  rewrite E2 in E2'. injection E2' as <- <- <-.
  pose proof (prepare_split_keeps same_inputs Train
                (PrepareDataset.basenames_of raw.*1)
                (PrepareDataset.full_paths_of raw.*1) d (0, 0)%nat s0) as K1.
  pose proof (prepare_split_keeps stdout_grows Train
                (PrepareDataset.basenames_of raw.*1)
                (PrepareDataset.full_paths_of raw.*1) d (0, 0)%nat s0) as G1.
  pose proof (prepare_split_keeps stdout_grows Validation
                (PrepareDataset.basenames_of raw.*1)
                (PrepareDataset.full_paths_of raw.*1) d (0%nat, sk1) s1)
    as G2.
  rewrite E1 in K1, G1. rewrite E2 in G2. cbn [fst] in *.
  rewrite (txt_files_same_inputs s0 s1 Validation K1) in H2.
  assert (txt_files (fs s0) Train = txt_files (fs s) Train
          /\ txt_files (fs s0) Validation = txt_files (fs s) Validation)
    as [Et Ev] by (rewrite F0; split; reflexivity).
  destruct (so_trans _ _ _ G0 (so_trans _ _ _ G1 G2)) as [pre Hpre].
  destruct (summary_and_manifest_stdout t v sk d s2)
    as (c0 & c1 & c2 & post & Hout).
  pose proof (prepare_split_monotone _ _ _ _ _ _ _ _ _ _ E2) as [_ Hmono].
  exists t, v, sk1, (sk - sk1)%nat, c0, c1, c2, pre, post.
  replace (sk1 + (sk - sk1))%nat with sk by lia.
  split; [rewrite Hout, Hpre, <- !app_assoc; reflexivity|]. lia.
Qed.

Lemma each_split_is_accounted_for_witness :
  exists t v sk_t sk_v c0 c1 c2 pre post,
    stdout (PrepareDataset.prepare_dataset
              (State two_labels_one_image [] [])).1
    = ([] ++ pre ++ summary_block t v (sk_t + sk_v) c0 c1 c2 ++ post)%list
    /\ (t + sk_t = 2)%nat /\ (v + sk_v = 0)%nat.
Proof.
  exact (each_split_is_accounted_for (State two_labels_one_image [] [])
           [("a.jpg", Some (Image "jpeg"))] eq_refl).
Defined.

(** ** What a label file adds to each class *)

Lemma preparer_and_counter_count_alike_heap
    raw_img_path p target_img_dir target_lbl_dir names d s :
  (forall lines, file_data (fs s) p <> Some (Garbled lines)) ->
  heap (PrepareDataset.copy_and_count_annotation raw_img_path p
          target_img_dir target_lbl_dir names d s).1
  = heap (Utils.process_single_label_file p names d s).1.
Proof.
  intros Hread.
  rewrite copy_and_count_annotation_eq, process_single_label_file_eq.
  destruct (file_data (fs s) p) as [[lines| | |glines|]|]; try reflexivity;
    [|destruct (Hread glines eq_refl)].
  pose proof (line_loops_agree p names d lines 0%nat s s eq_refl) as Hl.
  destruct (for_ lines tt _ s) as [s1 [[]|e]];
    destruct (for_catch lines 0%nat _ s) as [s1' [[n [e'|]]|e']];
    simpl in *.
  all: repeat match goal with
         | |- context [shutil_copy ?a ?b ?c] =>
             let H := fresh in
             pose proof (shutil_copy_heap a b c) as H;
             destruct (shutil_copy a b c) as [? [[]|?]]; simpl in *
         end.
  all: congruence.
Qed.

(** The class a line is counted under, if it is counted: at least five
    fields and a first field that is an integer within the class
    table. *)
Definition counted_as (names : list string) (line : string) : option string :=
  if (5 <=? length (fields line))%nat then
    class_id_of line ≫= fun class_id =>
    if in_bounds class_id names then names !! Z.to_nat class_id else None
  else None.

(** A line that stops the loop: at least five fields and a first field
    that [int] refuses. *)
Definition stops_the_file (line : string) : bool :=
  (5 <=? length (fields line))%nat
  && bool_decide (class_id_of line = None).

(** The lines of a file up to the first one that stops the loop. *)
Fixpoint lines_reached (lines : list string) : list string :=
  match lines with
  | [] => []
  | line :: rest =>
      if stops_the_file line then [] else line :: lines_reached rest
  end.

Definition instances_of (names : list string) (k : string)
    (lines : list string) : nat :=
  length (filter (fun line => counted_as names line = Some k) lines).

Section PerClass.

Variables (p : src_path) (names : list string) (d : loc).

(** The effect of one line on the counts, for both scripts. *)
Lemma line_effect line n s :
  (d < length (heap s))%nat ->
  let r := PrepareDataset.copy_and_count_annotation_line p names d line s in
  let r' := Utils.process_single_label_file_line p names d line n s in
  heap r'.1 = heap r.1 /\
  length (heap r.1) = length (heap s) /\
  (if stops_the_file line
   then (exists e, r.2 = Raises e) /\ (exists e, r'.2 = Raises e)
        /\ heap r.1 = heap s
   else r.2 = Returns tt /\ (exists n', r'.2 = Returns n') /\
        forall k,
          count_of (dict_at (heap r.1) d) k
          = (count_of (dict_at (heap s) d) k
             + instances_of names k [line])%nat).
Proof.
  intros Hd. cbv zeta. unfold stops_the_file.
  assert (forall k, instances_of names k [line]
                    = if decide (counted_as names line = Some k)
                      then 1%nat else 0%nat) as Hone.
  { intros k. unfold instances_of. rewrite filter_cons, filter_nil.
    case_decide; reflexivity. }
  destruct (line_cases line) as [H|p0 H Hp Hi|class_id H Hc].
  - rewrite preparer_line_short, counter_line_short by exact H.
    apply Nat.leb_gt in H. rewrite H. cbn [andb fst snd printed heap].
    repeat split; eauto. intros k. rewrite Hone. unfold counted_as.
    rewrite H, decide_False by discriminate. lia.
  - rewrite (preparer_line_not_int _ _ _ _ p0),
      (counter_line_not_int _ _ _ _ p0) by assumption.
    assert (class_id_of line = None) as Hc
        by (unfold class_id_of; rewrite Hp; exact Hi).
    apply Nat.leb_le in H. rewrite H, Hc.
    rewrite bool_decide_eq_true_2 by reflexivity.
    cbn [andb fst snd]. repeat split; eauto.
  - rewrite (preparer_line_int _ _ _ _ class_id),
      (counter_line_int _ _ _ _ class_id) by assumption.
    apply Nat.leb_le in H. rewrite H, Hc.
    rewrite bool_decide_eq_false_2 by discriminate.
    cbn [andb].
    destruct (in_bounds class_id names) eqn:Hb.
    + destruct (list_getitem_in_bounds names class_id Hb) as (name & Hn & Hg).
      rewrite !(bind_Returns _ _ _ _ _ (Hg s)).
      rewrite (bind_Returns _ _ _ _ _ (dict_incr_counted d name s)).
      rewrite dict_incr_counted. cbn [fst snd ret].
      split; [reflexivity|].
      split; [unfold counted; cbn [heap]; apply length_insert|].
      repeat split; eauto. intros k. rewrite Hone. unfold counted_as.
      rewrite H, Hc. cbn [mbind option_bind]. rewrite Hb, Hn.
      destruct (decide (k = name)) as [->|Hne].
      * rewrite decide_True by reflexivity.
        rewrite counted_same by exact Hd. lia.
      * rewrite decide_False by congruence.
        rewrite counted_other_key by exact Hne. lia.
    + cbn [fst snd printed heap]. repeat split; eauto. intros k.
      rewrite Hone. unfold counted_as.
      rewrite H, Hc. cbn [mbind option_bind]. rewrite Hb.
      rewrite decide_False by discriminate. lia.
Qed.

Lemma instances_of_cons k line lines :
  instances_of names k (line :: lines)
  = (instances_of names k [line] + instances_of names k lines)%nat.
Proof.
  unfold instances_of. rewrite !filter_cons, filter_nil.
  case_decide; cbn; lia.
Qed.

Lemma preparer_lines_effect lines : forall s,
  (d < length (heap s))%nat ->
  let r := for_ lines tt
             (fun line _ =>
                PrepareDataset.copy_and_count_annotation_line p names d line)
             s in
  length (heap r.1) = length (heap s) /\
  forall k,
    count_of (dict_at (heap r.1) d) k
    = (count_of (dict_at (heap s) d) k
       + instances_of names k (lines_reached lines))%nat.
Proof.
  induction lines as [|line lines IH]; intros s Hd; cbv zeta.
  - split; [reflexivity|]. intros k. cbn. lia.
  - cbn [for_ lines_reached]. unfold bind.
    destruct (line_effect line 0%nat s Hd) as (_ & Hlen & Heff).
    destruct (PrepareDataset.copy_and_count_annotation_line p names d line s)
      as [s1 o1]. cbn [fst snd] in *.
    destruct (stops_the_file line).
    + destruct Heff as ([e ->] & _ & Hh). split; [exact Hlen|].
      intros k. cbn [fst]. rewrite Hh. cbn. lia.
    + destruct Heff as (-> & _ & Hk).
      destruct (IH s1) as [Hlen' Hk']; [lia|].
      split; [congruence|]. intros k.
      rewrite Hk', Hk, (instances_of_cons k line (lines_reached lines)). lia.
Qed.

Lemma counter_lines_effect lines : forall n s,
  (d < length (heap s))%nat ->
  let r := for_catch lines n
             (Utils.process_single_label_file_line p names d) s in
  forall k,
    count_of (dict_at (heap r.1) d) k
    = (count_of (dict_at (heap s) d) k
       + instances_of names k (lines_reached lines))%nat.
Proof.
  intros n s Hd. cbv zeta.
  rewrite <- (line_loops_agree p names d lines n s s eq_refl).
  apply preparer_lines_effect, Hd.
Qed.

End PerClass.

(** What a readable label file adds to the counter, class by class, in
    both scripts: for every class name, one for each line with at least
    five fields whose first field is an integer that indexes that class,
    taking the lines up to the first one whose first field is not an
    integer (if there is one, the rest of the file is not counted).
    Whether the copies then succeed makes no difference. *)
Theorem label_file_adds_its_valid_lines
    (raw_img_path p : src_path) (target_img_dir target_lbl_dir : path)
    (names : list string) (d : loc) (s : state) (lines : list string) :
  file_data (fs s) p = Some (Text lines) ->
  (d < length (heap s))%nat ->
  forall k,
    count_of
      (dict_at (heap (PrepareDataset.copy_and_count_annotation raw_img_path p
                        target_img_dir target_lbl_dir names d s).1) d) k
    = (count_of (dict_at (heap s) d) k
       + instances_of names k (lines_reached lines))%nat /\
    count_of
      (dict_at (heap (Utils.process_single_label_file p names d s).1) d) k
    = (count_of (dict_at (heap s) d) k
       + instances_of names k (lines_reached lines))%nat.
Proof.
  intros Hf Hd k.
  rewrite (preparer_and_counter_count_alike_heap raw_img_path p target_img_dir
             target_lbl_dir names d s)
    by (intros l; rewrite Hf; discriminate).
  assert (count_of
            (dict_at (heap (Utils.process_single_label_file p names d s).1) d) k
          = (count_of (dict_at (heap s) d) k
             + instances_of names k (lines_reached lines))%nat) as H;
    [|split; exact H].
  rewrite process_single_label_file_eq, Hf.
  pose proof (counter_lines_effect p names d lines 0%nat s Hd k) as Hk.
  cbv zeta in Hk.
  destruct (for_catch lines 0%nat _ s) as [s1 [[n [e|]]|e]]; exact Hk.
Qed.

Lemma label_file_adds_its_valid_lines_witness :
  let s := State (one_label_file
                    ["1 0 0 1 1"; "1 0"; "5 0 0 1 1"; "1 0.5 0.5 1 1 extra";
                     "x 0 0 1 1"; "1 0 0 1 1"] None) [∅] [] in
  count_of
    (dict_at (heap (Utils.process_single_label_file (Label Train "a.txt")
                      CLASS_NAMES 0%nat s).1) 0%nat) "bean"
  = 2%nat.
Proof.
  intros s.
  destruct (label_file_adds_its_valid_lines (RawImage "a.jpg")
              (Label Train "a.txt") [] [] CLASS_NAMES 0%nat s
              ["1 0 0 1 1"; "1 0"; "5 0 0 1 1"; "1 0.5 0.5 1 1 extra";
               "x 0 0 1 1"; "1 0 0 1 1"] eq_refl) with (k := "bean")
    as [_ H].
  - cbn. lia.
  - rewrite H. vm_compute. reflexivity.
Defined.

(** * frontend/api_client.py: the retrying client *)

(** The network is the environment: each call of [requests.post] or
    [requests.get] either yields a response or raises, and the outcome is
    named after the [except] clause of the source that catches it, the
    clauses being tried in source order ([Timeout] before
    [ConnectionError] before [RequestException]).  Streamlit messages,
    the pause between retries and the requests themselves are recorded as
    events.  Elapsed times ([time.time()]) are not modelled. *)
Module ApiClient.

Local Open Scope list_scope.

Section Client.

(** A decoded JSON value, and the test ["predictions" in result] on it:
    [None] where [in] raises [TypeError] (a number, [null]). *)
Variable J : Type.
Variable has_predictions : J -> option bool.

(** Whether the error of [response.json()] on a body that is not JSON is
    a [requests.exceptions.RequestException] (requests 2.27 and later) or
    a plain [ValueError] (before). *)
Variable json_error_is_request_exception : bool.

Inductive body :=
| Decodes (result : J)
| NotJson (error : string).

Record response := Response {
  status_code : Z;
  text : string;
  json : body
}.

Inductive outcome :=
| Responds (r : response)
| Timeout
| ConnectionError
| RequestException (error : string).

Inductive event :=
| Post (timeout : Z)
| Get (timeout : Z)
| Sleep (seconds : Z)
| InfoRetry (attempt : Z)
| WarnUnexpectedFormat
| WarnColdStart (attempt : Z)
| ErrorNotInitialized
| WarnGatewayTimeout (attempt : Z)
| ErrorGatewayTimeout
| ErrorStatus (status : Z) (text : string)
| WarnRequestTimeout (attempt : Z)
| ErrorRequestTimeout
| ErrorCannotConnect
| ErrorUnexpected (error : string).

Inductive raised := TypeError | ValueError (error : string).

(** How one pass through the body of the [for] loop ends. *)
Inductive step :=
| Continue
| Return (result : option J)
| Raise (e : raised).

(** The body of the loop of [predict_with_retry] (lines 119-173) for one
    attempt, given what the request of that attempt comes to. *)
Definition attempt_body (max_retries attempt : Z) (o : outcome)
  : list event * step :=
  let timeout := 60 + attempt * 30 in
  let before :=
    (if 0 <? attempt then [InfoRetry attempt; Sleep 2] else [])
    ++ [Post timeout] in
  match o with
  | Responds r =>
      if status_code r =? 200 then
        match json r with
        | Decodes result =>
            match has_predictions result with
            | Some true => (before, Return (Some result))
            | Some false => (before ++ [WarnUnexpectedFormat], Return None)
            | None => (before, Raise TypeError)
            end
        | NotJson e =>
            if json_error_is_request_exception
            then (before ++ [ErrorUnexpected e], Return None)
            else (before, Raise (ValueError e))
        end
      else if status_code r =? 502 then
        if attempt <? max_retries
        then (before ++ [WarnColdStart (attempt + 1)], Continue)
        else (before ++ [ErrorNotInitialized], Return None)
      else if status_code r =? 504 then
        if attempt <? max_retries
        then (before ++ [WarnGatewayTimeout (attempt + 1)], Continue)
        else (before ++ [ErrorGatewayTimeout], Return None)
      else (before ++ [ErrorStatus (status_code r) (text r)], Return None)
  | Timeout =>
      if attempt <? max_retries
      then (before ++ [WarnRequestTimeout (attempt + 1)], Continue)
      else (before ++ [ErrorRequestTimeout], Return None)
  | ConnectionError => (before ++ [ErrorCannotConnect], Return None)
  | RequestException e => (before ++ [ErrorUnexpected e], Return None)
  end.

(** [for attempt in attempts: ...] followed by the [return None] of line
    175; [server attempt] is what the request of that attempt comes
    to. *)
Fixpoint attempts_loop (server : Z -> outcome) (max_retries : Z)
    (attempts : list Z) : list event * (raised + option J) :=
  match attempts with
  | [] => ([], inr None)
  | attempt :: rest =>
      match attempt_body max_retries attempt (server attempt) with
      | (evs, Continue) =>
          let '(evs', r) := attempts_loop server max_retries rest in
          (evs ++ evs', r)
      | (evs, Return result) => (evs, inr result)
      | (evs, Raise e) => (evs, inl e)
      end
  end.

(** [range(max_retries + 1)] *)
Definition range (n : Z) : list Z := seqZ 0 n.

Definition predict_with_retry (server : Z -> outcome) (max_retries : Z)
  : list event * (raised + option J) :=
  attempts_loop server max_retries (range (max_retries + 1)).

(** [predict]: the default [max_retries = 2] *)
Definition predict (server : Z -> outcome) : list event * (raised + option J) :=
  predict_with_retry server 2.

End Client.

End ApiClient.

(** ** Properties of the retrying client *)

Section ClientProperties.

Local Open Scope list_scope.

Context {J : Type} (has_predictions : J -> option bool)
        (json_error_is_request_exception : bool).

Notation attempt_body :=
  (ApiClient.attempt_body J has_predictions json_error_is_request_exception).
Notation attempts_loop :=
  (ApiClient.attempts_loop J has_predictions json_error_is_request_exception).
Notation predict_with_retry :=
  (ApiClient.predict_with_retry J has_predictions
     json_error_is_request_exception).

(** The timeouts of the requests sent, and the pauses made, in order. *)
Definition posts (evs : list ApiClient.event) : list Z :=
  omap (fun e => match e with ApiClient.Post t => Some t | _ => None end) evs.

Definition pauses (evs : list ApiClient.event) : list Z :=
  omap (fun e => match e with ApiClient.Sleep t => Some t | _ => None end) evs.

Definition timeout_of (attempt : Z) : Z := 60 + attempt * 30.

Definition pause_before (attempt : Z) : list Z :=
  if 0 <? attempt then [2] else [].

(** The outcomes after which the loop tries again: a timeout, and the
    status codes 502 and 504. *)
Definition retryable (o : ApiClient.outcome J) : bool :=
  match o with
  | ApiClient.Responds _ r =>
      (ApiClient.status_code J r =? 502) || (ApiClient.status_code J r =? 504)
  | ApiClient.Timeout _ => true
  | _ => false
  end.

Lemma posts_app evs evs' : posts (evs ++ evs') = posts evs ++ posts evs'.
Proof. apply omap_app. Qed.

Lemma pauses_app evs evs' : pauses (evs ++ evs') = pauses evs ++ pauses evs'.
Proof. apply omap_app. Qed.

Lemma attempt_body_wire max_retries attempt o :
  posts (attempt_body max_retries attempt o).1 = [timeout_of attempt] /\
  pauses (attempt_body max_retries attempt o).1 = pause_before attempt.
Proof.
  unfold ApiClient.attempt_body, pause_before, timeout_of.
  destruct (0 <? attempt); repeat case_match; split; reflexivity.
Qed.

Lemma attempt_body_continues max_retries attempt o :
  (attempt_body max_retries attempt o).2 = ApiClient.Continue J <->
  retryable o = true /\ attempt < max_retries.
Proof.
  unfold ApiClient.attempt_body, retryable.
  destruct o as [r| | |e]; cbn [snd].
  - destruct (ApiClient.status_code J r =? 200) eqn:E200.
    + apply Z.eqb_eq in E200. rewrite E200. cbn.
      repeat case_match; cbn; split; try discriminate; intros [? _];
        discriminate.
    + destruct (ApiClient.status_code J r =? 502),
        (ApiClient.status_code J r =? 504),
        (attempt <? max_retries) eqn:E; cbn;
        rewrite ?Z.ltb_lt, ?Z.ltb_ge in E;
        split; try discriminate; try (intros [? ?]; discriminate || lia);
        intros _; split; (reflexivity || lia).
  - destruct (attempt <? max_retries) eqn:E; cbn;
      rewrite ?Z.ltb_lt, ?Z.ltb_ge in E; split; try discriminate;
      try (intros [? ?]; lia); intros _; split; (reflexivity || lia).
  - cbn. split; [discriminate|intros [? _]; discriminate].
  - cbn. split; [discriminate|intros [? _]; discriminate].
Qed.

Lemma take_seqZ (k : nat) (n : Z) :
  Z.of_nat k <= n -> take k (seqZ 0 n) = seqZ 0 (Z.of_nat k).
Proof.
  intros H. replace n with (Z.of_nat k + (n - Z.of_nat k)) by lia.
  rewrite seqZ_app by lia.
  rewrite take_app_length'; [reflexivity|]. rewrite length_seqZ. lia.
Qed.

Lemma pauses_of_seqZ (k : nat) :
  mjoin (pause_before <$> seqZ 0 (Z.of_nat k)) = replicate (k - 1) 2.
Proof.
  induction k as [|k IH]; [reflexivity|].
  rewrite seqZ_S, fmap_app, join_app, IH. cbn [fmap list_fmap mjoin list_join].
  rewrite app_nil_r. unfold pause_before. rewrite Z.add_0_l.
  destruct k as [|k]; [reflexivity|].
  replace (0 <? Z.of_nat (S k)) with true by (symmetry; apply Z.ltb_lt; lia).
  replace (S (S k) - 1)%nat with (S k) by lia.
  replace (S k - 1)%nat with k by lia.
  symmetry. apply replicate_S_end.
Qed.

(** What goes out, in order: the retry notices, the pauses and the
    requests, without the warnings and errors that follow a response. *)
Definition on_the_wire (evs : list ApiClient.event) : list ApiClient.event :=
  omap (fun e => match e with
                 | ApiClient.InfoRetry _ | ApiClient.Sleep _
                 | ApiClient.Post _ => Some e
                 | _ => None
                 end) evs.

(** How an attempt opens: from the second attempt on, the retry notice
    and a pause of 2 seconds, then the request with its timeout. *)
Definition opening (attempt : Z) : list ApiClient.event :=
  (if 0 <? attempt then [ApiClient.InfoRetry attempt; ApiClient.Sleep 2]
   else [])
  ++ [ApiClient.Post (60 + attempt * 30)].

Lemma on_the_wire_app evs evs' :
  on_the_wire (evs ++ evs') = on_the_wire evs ++ on_the_wire evs'.
Proof. apply omap_app. Qed.

Lemma attempt_body_opening max_retries attempt o :
  on_the_wire (attempt_body max_retries attempt o).1 = opening attempt.
Proof.
  unfold ApiClient.attempt_body, opening.
  destruct (0 <? attempt); repeat case_match; reflexivity.
Qed.

Lemma attempts_loop_opening server max_retries attempts :
  exists k,
    (k <= length attempts)%nat /\
    on_the_wire (attempts_loop server max_retries attempts).1
    = mjoin (opening <$> take k attempts).
Proof.
  induction attempts as [|a attempts (k & Hk & Hw)].
  - exists 0%nat. split; [cbn; lia|reflexivity].
  - cbn [ApiClient.attempts_loop].
    pose proof (attempt_body_opening max_retries a (server a)) as Ho.
    destruct (attempt_body max_retries a (server a)) as [evs [|result|e]];
      cbn [fst snd] in *.
    + destruct (attempts_loop server max_retries attempts) as [evs' r].
      cbn [fst] in *. exists (S k). split; [cbn; lia|].
      rewrite on_the_wire_app, Ho, Hw. reflexivity.
    + exists 1%nat. split; [cbn; lia|]. rewrite Ho. cbn.
      rewrite app_nil_r. reflexivity.
    + exists 1%nat. split; [cbn; lia|]. rewrite Ho. cbn.
      rewrite app_nil_r. reflexivity.
Qed.

(** [predict_with_retry] never sends more than [max_retries + 1]
    requests (none when [max_retries] is negative), and what goes out is,
    attempt by attempt and in this order: from the second attempt on the
    retry notice and a pause of 2 seconds, then the request, with the
    timeout 60, 90, 120, ... seconds for attempt 0, 1, 2, ...  So a pause
    comes before every request but the first, between the notice and the
    request, and nowhere else. *)
Theorem requests_are_bounded_and_spaced
    (server : Z -> ApiClient.outcome J) (max_retries : Z) :
  exists n : nat,
    Z.of_nat n <= Z.max 0 (max_retries + 1) /\
    on_the_wire (predict_with_retry server max_retries).1
    = mjoin ((fun attempt =>
                (if 0 <? attempt
                 then [ApiClient.InfoRetry attempt; ApiClient.Sleep 2]
                 else [])
                ++ [ApiClient.Post (60 + attempt * 30)])
             <$> seqZ 0 (Z.of_nat n)) /\
    posts (predict_with_retry server max_retries).1
    = timeout_of <$> seqZ 0 (Z.of_nat n) /\
    pauses (predict_with_retry server max_retries).1 = replicate (n - 1) 2.
Proof.
  unfold ApiClient.predict_with_retry, ApiClient.range.
  destruct (attempts_loop_opening server max_retries
              (seqZ 0 (max_retries + 1))) as (k & Hk & Hw).
  rewrite length_seqZ in Hk. exists k.
  assert (posts (attempts_loop server max_retries (seqZ 0 (max_retries + 1))).1
          = posts (on_the_wire
                     (attempts_loop server max_retries
                        (seqZ 0 (max_retries + 1))).1)
          /\ pauses (attempts_loop server max_retries
                       (seqZ 0 (max_retries + 1))).1
             = pauses (on_the_wire
                         (attempts_loop server max_retries
                            (seqZ 0 (max_retries + 1))).1)) as [Ep Es].
  { generalize (attempts_loop server max_retries (seqZ 0 (max_retries + 1))).1.
    intros evs. induction evs as [|e evs [IHp IHs]]; [split; reflexivity|].
    unfold posts, pauses, on_the_wire in *.
    destruct e; cbn [omap list_omap]; split;
      first [assumption | f_equal; assumption]. }
  assert (forall l : list Z,
            posts (mjoin (opening <$> l)) = timeout_of <$> l /\
            pauses (mjoin (opening <$> l)) = mjoin (pause_before <$> l))
    as Hopen.
  { induction l as [|a l [IHp IHs]]; [split; reflexivity|].
    rewrite !fmap_cons.
    change (mjoin (opening a :: (opening <$> l)))
      with (opening a ++ mjoin (opening <$> l)).
    change (mjoin (pause_before a :: (pause_before <$> l)))
      with (pause_before a ++ mjoin (pause_before <$> l)).
    rewrite posts_app, pauses_app, IHp, IHs.
    unfold opening, pause_before, timeout_of.
    destruct (0 <? a); split; reflexivity. }
  rewrite Ep, Es, Hw.
  destruct (Hopen (take k (seqZ 0 (max_retries + 1)))) as [-> ->].
  assert (Z.of_nat k <= max_retries + 1 \/ k = 0%nat) as [Hle| ->] by lia.
  - rewrite take_seqZ by exact Hle. rewrite pauses_of_seqZ.
    split; [lia|]. repeat split.
  - split; [lia|]. repeat split.
Qed.

End ClientProperties.

Section ClientOutcomes.

Local Open Scope list_scope.

Context {J : Type} (has_predictions : J -> option bool)
        (json_error_is_request_exception : bool).

Notation attempt_body :=
  (ApiClient.attempt_body J has_predictions json_error_is_request_exception).
Notation attempts_loop :=
  (ApiClient.attempts_loop J has_predictions json_error_is_request_exception).
Notation predict_with_retry :=
  (ApiClient.predict_with_retry J has_predictions
     json_error_is_request_exception).

(** What the call comes to on an outcome that is not retried. *)
Definition decision (o : ApiClient.outcome J)
  : ApiClient.raised + option J :=
  match o with
  | ApiClient.Responds _ r =>
      if ApiClient.status_code J r =? 200 then
        match ApiClient.json J r with
        | ApiClient.Decodes _ result =>
            match has_predictions result with
            | Some true => inr (Some result)
            | Some false => inr None
            | None => inl ApiClient.TypeError
            end
        | ApiClient.NotJson _ e =>
            if json_error_is_request_exception then inr None
            else inl (ApiClient.ValueError e)
        end
      else inr None
  | _ => inr None
  end.

Definition ends (st : ApiClient.step J) : ApiClient.raised + option J :=
  match st with
  | ApiClient.Continue _ => inr None
  | ApiClient.Return _ result => inr result
  | ApiClient.Raise _ e => inl e
  end.

Lemma attempt_body_decides max_retries attempt o :
  retryable o = false ->
  (attempt_body max_retries attempt o).2 <> ApiClient.Continue J /\
  ends (attempt_body max_retries attempt o).2 = decision o.
Proof.
  intros Hr. split.
  - intros H. apply attempt_body_continues in H as [H _]. congruence.
  - unfold ApiClient.attempt_body, decision. unfold retryable in Hr.
    destruct o as [r| | |e]; try discriminate; try reflexivity.
    apply orb_false_iff in Hr as [-> ->].
    destruct (ApiClient.status_code J r =? 200); [|reflexivity].
    repeat case_match; reflexivity.
Qed.

Lemma attempt_body_last max_retries attempt o :
  retryable o = true -> max_retries <= attempt ->
  (attempt_body max_retries attempt o).2 = ApiClient.Return J None.
Proof.
  intros Hr Hlast. unfold ApiClient.attempt_body. unfold retryable in Hr.
  assert (attempt <? max_retries = false) as -> by (apply Z.ltb_ge; lia).
  destruct o as [r| | |e]; try discriminate; [|reflexivity].
  destruct (ApiClient.status_code J r =? 200) eqn:E200.
  - apply Z.eqb_eq in E200. rewrite E200 in Hr. discriminate.
  - destruct (ApiClient.status_code J r =? 502); [reflexivity|].
    destruct (ApiClient.status_code J r =? 504); [reflexivity|discriminate].
Qed.

Lemma attempts_loop_skips server max_retries pre rest :
  Forall (fun a => retryable (server a) = true /\ a < max_retries) pre ->
  posts (attempts_loop server max_retries (pre ++ rest)).1
  = (timeout_of <$> pre)
    ++ posts (attempts_loop server max_retries rest).1 /\
  (attempts_loop server max_retries (pre ++ rest)).2
  = (attempts_loop server max_retries rest).2.
Proof.
  induction pre as [|a pre IH]; intros Hall; [split; reflexivity|].
  apply Forall_cons in Hall as [Ha Hall]. destruct (IH Hall) as [IHp IHr].
  cbn [app ApiClient.attempts_loop].
  apply (attempt_body_continues has_predictions json_error_is_request_exception)
    in Ha.
  destruct (attempt_body_wire has_predictions json_error_is_request_exception
              max_retries a (server a)) as [Bp _].
  destruct (attempt_body max_retries a (server a)) as [evs st].
  cbn [fst snd] in *. subst st.
  destruct (attempts_loop server max_retries (pre ++ rest)) as [evs' r].
  cbn [fst snd] in *. rewrite posts_app, Bp, IHp. split; [reflexivity|exact IHr].
Qed.

Lemma attempts_loop_stops server max_retries a rest :
  (attempt_body max_retries a (server a)).2 <> ApiClient.Continue J ->
  posts (attempts_loop server max_retries (a :: rest)).1 = [timeout_of a] /\
  (attempts_loop server max_retries (a :: rest)).2
  = ends (attempt_body max_retries a (server a)).2.
Proof.
  intros Hne. cbn [ApiClient.attempts_loop].
  destruct (attempt_body_wire has_predictions json_error_is_request_exception
              max_retries a (server a)) as [Bp _].
  destruct (attempt_body max_retries a (server a)) as [evs [|result|e]];
    cbn [fst snd] in *; [contradiction| |]; split; (exact Bp || reflexivity).
Qed.

(** The call is decided by the first outcome that is not a timeout, a 502
    or a 504: when the attempts before attempt [a] (at most
    [max_retries]) all met one of those and attempt [a] meets something
    else, exactly [a + 1] requests are sent and the call comes to what
    that outcome decides, a result only for a 200 whose JSON has the
    key [predictions]. *)
Theorem first_decisive_outcome_ends_the_call
    (server : Z -> ApiClient.outcome J) (max_retries a : Z) :
  0 <= a <= max_retries ->
  (forall a', 0 <= a' < a -> retryable (server a') = true) ->
  retryable (server a) = false ->
  posts (predict_with_retry server max_retries).1
  = timeout_of <$> seqZ 0 (a + 1) /\
  (predict_with_retry server max_retries).2 = decision (server a).
Proof.
  intros Ha Hbefore Hdec. unfold ApiClient.predict_with_retry, ApiClient.range.
  replace (max_retries + 1) with (a + (1 + (max_retries - a))) by lia.
  rewrite seqZ_app by lia. rewrite (seqZ_cons (0 + a)) by lia.
  destruct (attempts_loop_skips server max_retries (seqZ 0 a)
              ((0 + a) :: seqZ (Z.succ (0 + a)) (Z.pred (1 + (max_retries - a)))))
    as [Hp Hr].
  { apply Forall_seqZ. intros a' Ha'. split; [apply Hbefore|]; lia. }
  destruct (attempt_body_decides max_retries (0 + a) (server (0 + a)))
    as [Hne Hends]; [rewrite Z.add_0_l; exact Hdec|].
  destruct (attempts_loop_stops server max_retries (0 + a)
              (seqZ (Z.succ (0 + a)) (Z.pred (1 + (max_retries - a)))) Hne)
    as [Hp' Hr'].
  rewrite Hp, Hr, Hp', Hr', Hends. rewrite Z.add_0_l. split; [|reflexivity].
  rewrite (seqZ_app 0 a 1) by lia. rewrite fmap_app.
  rewrite (seqZ_cons (0 + a) 1) by lia.
  rewrite (seqZ_nil (Z.succ (0 + a)) (Z.pred 1)) by lia.
  rewrite Z.add_0_l. reflexivity.
Qed.

(** When every attempt meets a timeout, a 502 or a 504, the call sends
    exactly [max_retries + 1] requests and returns [None]. *)
Theorem retries_are_exhausted_after_max_retries
    (server : Z -> ApiClient.outcome J) (max_retries : Z) :
  0 <= max_retries ->
  (forall a, 0 <= a <= max_retries -> retryable (server a) = true) ->
  posts (predict_with_retry server max_retries).1
  = timeout_of <$> seqZ 0 (max_retries + 1) /\
  (predict_with_retry server max_retries).2 = inr None.
Proof.
  intros Hmr Hall. unfold ApiClient.predict_with_retry, ApiClient.range.
  rewrite (seqZ_app 0 max_retries 1) by lia.
  rewrite (seqZ_cons (0 + max_retries) 1) by lia.
  rewrite (seqZ_nil (Z.succ (0 + max_retries)) (Z.pred 1)) by lia.
  rewrite Z.add_0_l.
  destruct (attempts_loop_skips server max_retries (seqZ 0 max_retries)
              [max_retries]) as [Hp Hr].
  { apply Forall_seqZ. intros a' Ha'. split; [apply Hall|]; lia. }
  pose proof (attempt_body_last max_retries max_retries (server max_retries)
                (Hall max_retries ltac:(lia)) ltac:(lia)) as Hlast.
  destruct (attempts_loop_stops server max_retries max_retries [])
    as [Hp' Hr']; [rewrite Hlast; discriminate|].
  rewrite Hp, Hr, Hp', Hr', Hlast, fmap_app. split; reflexivity.
Qed.

Lemma attempt_body_returns_a_result max_retries attempt o result :
  (attempt_body max_retries attempt o).2 = ApiClient.Return J (Some result) ->
  has_predictions result = Some true /\
  exists r,
    o = ApiClient.Responds J r /\ ApiClient.status_code J r = 200 /\
    ApiClient.json J r = ApiClient.Decodes J result.
Proof.
  unfold ApiClient.attempt_body. cbv zeta.
  destruct o as [r| | |e].
  - destruct (ApiClient.status_code J r =? 200) eqn:E200.
    + destruct (ApiClient.json J r) as [res|err] eqn:Ej.
      * destruct (has_predictions res) as [[|]|] eqn:Eh; cbn [snd];
          try discriminate.
        intros [= ->]. split; [exact Eh|]. exists r.
        split; [reflexivity|]. split; [apply Z.eqb_eq, E200|exact Ej].
      * destruct json_error_is_request_exception; discriminate.
    + destruct (ApiClient.status_code J r =? 502);
        [destruct (attempt <? max_retries); discriminate|].
      destruct (ApiClient.status_code J r =? 504);
        [destruct (attempt <? max_retries); discriminate|discriminate].
  - destruct (attempt <? max_retries); discriminate.
  - discriminate.
  - discriminate.
Qed.

(** A result that [predict_with_retry] returns is always the decoded
    body of a 200 response of one of the attempts, and has the key
    [predictions]. *)
Theorem returned_result_has_predictions
    (server : Z -> ApiClient.outcome J) (max_retries : Z) (result : J) :
  (predict_with_retry server max_retries).2 = inr (Some result) ->
  has_predictions result = Some true /\
  exists a r,
    0 <= a <= max_retries /\ server a = ApiClient.Responds J r /\
    ApiClient.status_code J r = 200 /\
    ApiClient.json J r = ApiClient.Decodes J result.
Proof.
  unfold ApiClient.predict_with_retry, ApiClient.range.
  assert (forall attempts,
            (attempts_loop server max_retries attempts).2 = inr (Some result) ->
            has_predictions result = Some true /\
            exists a r,
              a ∈ attempts /\ server a = ApiClient.Responds J r /\
              ApiClient.status_code J r = 200 /\
              ApiClient.json J r = ApiClient.Decodes J result) as Hloop.
  { induction attempts as [|a attempts IH]; [discriminate|].
    cbn [ApiClient.attempts_loop].
    pose proof (attempt_body_returns_a_result max_retries a (server a) result)
      as Hbody.
    destruct (attempt_body max_retries a (server a)) as [evs [|res|e]].
    - destruct (attempts_loop server max_retries attempts) as [evs' r'].
      cbn [snd] in *. intros H. destruct (IH H) as (Hh & a' & r & Hin & Hrest).
      split; [exact Hh|]. exists a', r. split; [right; exact Hin|exact Hrest].
    - cbn [snd] in *. intros [= ->].
      destruct (Hbody eq_refl) as (Hh & r & Hs & Hrest).
      split; [exact Hh|]. exists a, r. split; [left|].
      split; [exact Hs|exact Hrest].
    - discriminate. }
  intros H. destruct (Hloop _ H) as (Hh & a & r & Hin & Hrest).
  split; [exact Hh|]. exists a, r. apply elem_of_seqZ in Hin.
  split; [lia|exact Hrest].
Qed.

End ClientOutcomes.

(** A server that times out once and then answers 200 with a body that
    has the key, and one that only ever answers 502; the decoded body is
    stood for by a number. *)
Definition slow_then_ready (attempt : Z) : ApiClient.outcome nat :=
  if attempt =? 0 then ApiClient.Timeout nat
  else ApiClient.Responds nat (ApiClient.Response nat 200 "" (ApiClient.Decodes nat 7%nat)).

Definition always_cold (attempt : Z) : ApiClient.outcome nat :=
  ApiClient.Responds nat (ApiClient.Response nat 502 "Bad Gateway"
                            (ApiClient.NotJson nat "")).

Lemma first_decisive_outcome_ends_the_call_witness :
  posts (ApiClient.predict_with_retry nat (fun _ => Some true) true
           slow_then_ready 2).1 = [60; 90] /\
  (ApiClient.predict_with_retry nat (fun _ => Some true) true
     slow_then_ready 2).2 = inr (Some 7%nat).
Proof.
  apply (first_decisive_outcome_ends_the_call (fun _ => Some true) true
           slow_then_ready 2 1).
  - lia.
  - intros a' Ha'. replace a' with 0 by lia. reflexivity.
  - reflexivity.
Defined.

Lemma retries_are_exhausted_after_max_retries_witness :
  posts (ApiClient.predict_with_retry nat (fun _ => Some true) true
           always_cold 2).1 = [60; 90; 120] /\
  (ApiClient.predict_with_retry nat (fun _ => Some true) true
     always_cold 2).2 = inr None.
Proof.
  apply (retries_are_exhausted_after_max_retries (fun _ => Some true) true
           always_cold 2).
  - lia.
  - intros a _. reflexivity.
Defined.

Lemma returned_result_has_predictions_witness :
  exists a r,
    0 <= a <= 2 /\ slow_then_ready a = ApiClient.Responds nat r /\
    ApiClient.status_code nat r = 200 /\
    ApiClient.json nat r = ApiClient.Decodes nat 7%nat.
Proof.
  apply (returned_result_has_predictions (fun _ => Some true) true
           slow_then_ready 2 7%nat).
  reflexivity.
Defined.

(** * src/rename-images.py: flattening the raw images *)

(** The script copies every image below [data/raw/<split>/<category>/]
    into the one directory [raw_images/], renamed after its category and
    split.  It only reads below [data/raw/] and only writes into
    [raw_images/], so the input tree is a parameter and the target
    directory is the state.  A split directory is its [os.listdir]
    listing, [None] when it does not exist; a category entry is a
    directory with its own listing, or something [os.path.isdir] rejects.
    The entries of [raw_images/] are taken to be regular files.
    [write_fails] is the environment's verdict on writing a name in
    [raw_images/], one verdict per name for the run; among its reasons is
    a read-only file of that name, as the copy of a read-only image is,
    since [shutil.copy] copies the mode bits.  [partial_write] tells how
    a failing write fails: before the file is created or truncated, so
    that nothing changes, or after, so that an initial part of the image
    is left under the new name.  A second run is not modelled: what the
    first run leaves, modes included, changes the verdicts. *)
Module RenameImages.

Inductive entry :=
| Category (files : directory)
| NotADirectory.

(** [raw_images/] before [os.makedirs(..., exist_ok=True)]: missing, a
    directory with its files, or a path that is not a directory. *)
Inductive target_dir :=
| Absent
| Present (files : gmap string data)
| Blocked.

Inductive line :=
| ProcessingCategory (category_name split_type : string)
| AllFlattened.

Section Script.

Variable raw : string -> option (list (string * entry)).
Variable write_fails : string -> bool.
Variable partial_write : string -> bool.

(** [filename.lower().endswith(('.png', '.jpg', '.jpeg', '.gif', '.bmp'))] *)
Definition is_image (filename : string) : bool :=
  let l := PyStr.lower filename in
  PyStr.endswith l ".png" || PyStr.endswith l ".jpg"
  || PyStr.endswith l ".jpeg" || PyStr.endswith l ".gif"
  || PyStr.endswith l ".bmp".

(** [f"{category_name}_{split_type}_{filename}"] *)
Definition new_filename (category_name split_type filename : string) : string :=
  category_name ++ "_" ++ split_type ++ "_" ++ filename.

(** Lines 25-34: the loop over the files of one category. *)
Fixpoint copy_files (category_name split_type : string) (files : directory)
    (t : gmap string data) : gmap string data * option exn :=
  match files with
  | [] => (t, None)
  | (filename, content) :: rest =>
      if is_image filename then
        let new := new_filename category_name split_type filename in
        match content with
        | Some d =>
            if write_fails new then
              (if partial_write new then <[new := Partial d]> t else t,
               Some (OSError new))
            else copy_files category_name split_type rest (<[new := d]> t)
        | None => (t, Some (OSError filename))
        end
      else copy_files category_name split_type rest t
  end.

(** Lines 18-34: the loop over the entries of one split directory. *)
Fixpoint copy_categories (split_type : string) (cats : list (string * entry))
    (t : gmap string data) (out : list line)
  : gmap string data * list line * option exn :=
  match cats with
  | [] => (t, out, None)
  | (category_name, Category files) :: rest =>
      let out := (out ++ [ProcessingCategory category_name split_type])%list in
      match copy_files category_name split_type files t with
      | (t, None) => copy_categories split_type rest t out
      | (t, Some e) => (t, out, Some e)
      end
  | (_, NotADirectory) :: rest => copy_categories split_type rest t out
  end.

(** Lines 14-34: the loop over the splits; [os.listdir] of a split
    directory that does not exist raises. *)
Fixpoint copy_splits (splits : list string) (t : gmap string data)
    (out : list line) : gmap string data * list line * option exn :=
  match splits with
  | [] => (t, out, None)
  | split_type :: rest =>
      match raw split_type with
      | None => (t, out, Some (FileNotFoundError split_type))
      | Some cats =>
          match copy_categories split_type cats t out with
          | (t, out, None) => copy_splits rest t out
          | r => r
          end
      end
  end.

Definition SPLITS : list string := ["train"; "test"; "validation"].

(** The script: what [raw_images/] is afterwards, what was printed, and
    the exception it ended on, if any. *)
Definition main (tgt : target_dir) : target_dir * list line * option exn :=
  match tgt with
  | Blocked => (Blocked, [], Some (FileExistsError "raw_images"))
  | _ =>
      let t := match tgt with Present t => t | _ => ∅ end in
      match copy_splits SPLITS t [] with
      | (t, out, None) => (Present t, (out ++ [AllFlattened])%list, None)
      | (t, out, Some e) => (Present t, out, Some e)
      end
  end.

End Script.

End RenameImages.

(** ** Properties of the flattening script *)

Fixpoint has_underscore (s : string) : bool :=
  match s with
  | EmptyString => false
  | String c r => Ascii.eqb c "_" || has_underscore r
  end.

Lemma append_underscore_inj (a a' x x' : string) :
  has_underscore a = false -> has_underscore a' = false ->
  (a ++ String "_" x)%string = (a' ++ String "_" x')%string ->
  a = a' /\ x = x'.
Proof.
  revert a'. induction a as [|c a IH]; intros [|c' a'] Ha Ha' H; cbn in *.
  - injection H as ->. split; reflexivity.
  - injection H as <- _. rewrite Ascii.eqb_refl in Ha'. discriminate.
  - injection H as -> _. rewrite Ascii.eqb_refl in Ha. discriminate.
  - injection H as -> H. apply orb_false_iff in Ha as [_ Ha].
    apply orb_false_iff in Ha' as [_ Ha'].
    destruct (IH a' Ha Ha' H) as [-> ->]. split; reflexivity.
Qed.

Lemma SPLITS_without_underscore (s : string) :
  s ∈ RenameImages.SPLITS -> has_underscore s = false.
Proof.
  unfold RenameImages.SPLITS. rewrite !elem_of_cons, elem_of_nil.
  intros [->|[->|[->|[]]]]; reflexivity.
Qed.

(** The new names tell category, split and file name apart as long as no
    category name has an underscore. *)
Lemma new_filename_inj (c c' s s' f f' : string) :
  has_underscore c = false -> has_underscore c' = false ->
  s ∈ RenameImages.SPLITS -> s' ∈ RenameImages.SPLITS ->
  RenameImages.new_filename c s f = RenameImages.new_filename c' s' f' ->
  c = c' /\ s = s' /\ f = f'.
Proof.
  intros Hc Hc' Hs Hs' H. unfold RenameImages.new_filename in H. cbn in H.
  apply append_underscore_inj in H as [-> H]; [|assumption..].
  apply append_underscore_inj in H as [-> ->];
    [|apply SPLITS_without_underscore; assumption..].
  repeat split.
Qed.

Lemma NoDup_fst_functional {A B} (l : list (A * B)) (k : A) (v v' : B) :
  NoDup l.*1 -> (k, v) ∈ l -> (k, v') ∈ l -> v = v'.
Proof.
  induction l as [|[k0 v0] l IH]; intros Hnd H H'.
  - apply elem_of_nil in H as [].
  - cbn in Hnd. apply NoDup_cons in Hnd as [Hk0 Hnd].
    apply elem_of_cons in H as [H|H], H' as [H'|H'].
    + congruence.
    + injection H as -> ->. exfalso. apply Hk0.
      apply (list_elem_of_fmap_2 fst _ _ H').
    + injection H' as -> ->. exfalso. apply Hk0.
      apply (list_elem_of_fmap_2 fst _ _ H).
    + exact (IH Hnd H H').
Qed.

Section Flattening.

Context (raw : string -> option (list (string * RenameImages.entry)))
        (write_fails partial_write : string -> bool).

Notation copy_files := (RenameImages.copy_files write_fails partial_write).
Notation copy_categories :=
  (RenameImages.copy_categories write_fails partial_write).
Notation copy_splits :=
  (RenameImages.copy_splits raw write_fails partial_write).
Notation main := (RenameImages.main raw write_fails partial_write).
Notation new_filename := RenameImages.new_filename.
Notation is_image := RenameImages.is_image.

(** An entry of a category directory below one of the three splits whose
    name the script takes for an image. *)
Definition image_of (split_type category_name filename : string)
    (content : option data) : Prop :=
  split_type ∈ RenameImages.SPLITS /\
  exists cats files,
    raw split_type = Some cats /\
    (category_name, RenameImages.Category files) ∈ cats /\
    (filename, content) ∈ files /\
    is_image filename = true.

(** A readable image of the input, under the name the script gives it. *)
Definition flattened (n : string) (d : data) : Prop :=
  exists s c f, image_of s c f (Some d) /\ n = new_filename c s f.

(** *** What a run writes *)

Section Only.

(** [Q] holds of the files of the target before the loop and of every
    copy the loop can make; [F] of the images it can copy. *)
Variable Q F : string -> data -> Prop.

(** Every file is as [Q] says, but for what a copy that failed part-way
    has left under the name the exception carries. *)
Definition all_but_the_failed_copy (t : gmap string data) (e : option exn)
  : Prop :=
  forall n d,
    t !! n = Some d ->
    Q n d \/ exists d0, d = Partial d0 /\ F n d0 /\ e = Some (OSError n).

Lemma all_but_none t :
  all_but_the_failed_copy t None -> forall n d, t !! n = Some d -> Q n d.
Proof.
  intros H n d Hn. destruct (H n d Hn) as [HQ|(d0 & _ & _ & He)];
    [exact HQ|discriminate].
Qed.

Lemma copy_files_only c s files t t' e :
  copy_files c s files t = (t', e) ->
  (forall f d, (f, Some d) ∈ files -> is_image f = true ->
               Q (new_filename c s f) d /\ F (new_filename c s f) d) ->
  (forall n d, t !! n = Some d -> Q n d) ->
  all_but_the_failed_copy t' e.
Proof.
  revert t. induction files as [|[f o] files IH]; intros t Hrun Hfiles Ht.
  - injection Hrun as <- <-. intros n d Hn. left. exact (Ht n d Hn).
  - cbn [RenameImages.copy_files] in Hrun.
    assert (forall f0 d0, (f0, Some d0) ∈ files -> is_image f0 = true ->
                          Q (new_filename c s f0) d0 /\
                          F (new_filename c s f0) d0) as Hrest
      by (intros f0 d0 Hin; apply Hfiles; right; exact Hin).
    destruct (is_image f) eqn:Ei; [|exact (IH t Hrun Hrest Ht)].
    destruct o as [d0|];
      [|injection Hrun as <- <-; intros n d Hn; left; exact (Ht n d Hn)].
    destruct (Hfiles f d0) as [Hwhole Himg]; [left|exact Ei|].
    destruct (write_fails (new_filename c s f)).
    + destruct (partial_write (new_filename c s f));
        injection Hrun as <- <-; intros n d Hn.
      * destruct (decide (new_filename c s f = n)) as [<-|Hne].
        -- rewrite lookup_insert_eq in Hn. injection Hn as <-. right.
           exists d0. repeat split. exact Himg.
        -- rewrite lookup_insert_ne in Hn by exact Hne. left. exact (Ht n d Hn).
      * left. exact (Ht n d Hn).
    + apply (IH _ Hrun Hrest). intros n d Hn.
      destruct (decide (new_filename c s f = n)) as [<-|Hne].
      * rewrite lookup_insert_eq in Hn. injection Hn as <-. exact Hwhole.
      * rewrite lookup_insert_ne in Hn by exact Hne. exact (Ht n d Hn).
Qed.

Lemma copy_categories_only s cats t out t' out' e :
  copy_categories s cats t out = (t', out', e) ->
  (forall c files f d,
     (c, RenameImages.Category files) ∈ cats -> (f, Some d) ∈ files ->
     is_image f = true ->
     Q (new_filename c s f) d /\ F (new_filename c s f) d) ->
  (forall n d, t !! n = Some d -> Q n d) ->
  all_but_the_failed_copy t' e.
Proof.
  revert t out.
  induction cats as [|[c [files|]] cats IH]; intros t out Hrun Hcats Ht.
  - injection Hrun as <- _ <-. intros n d Hn. left. exact (Ht n d Hn).
  - cbn [RenameImages.copy_categories] in Hrun.
    destruct (copy_files c s files t) as [t1 [e1|]] eqn:E1.
    + injection Hrun as <- _ <-.
      apply (copy_files_only _ _ _ _ _ _ E1); [|exact Ht].
      intros f d. apply Hcats. left.
    + apply (IH _ _ Hrun).
      * intros c0 files0 f d Hin. apply Hcats. right. exact Hin.
      * apply all_but_none, (copy_files_only _ _ _ _ _ _ E1); [|exact Ht].
        intros f d. apply Hcats. left.
  - cbn [RenameImages.copy_categories] in Hrun. apply (IH _ _ Hrun); [|exact Ht].
    intros c0 files0 f d Hin. apply Hcats. right. exact Hin.
Qed.

Lemma copy_splits_only splits t out t' out' e :
  copy_splits splits t out = (t', out', e) ->
  (forall s cats c files f d,
     s ∈ splits -> raw s = Some cats ->
     (c, RenameImages.Category files) ∈ cats -> (f, Some d) ∈ files ->
     is_image f = true ->
     Q (new_filename c s f) d /\ F (new_filename c s f) d) ->
  (forall n d, t !! n = Some d -> Q n d) ->
  all_but_the_failed_copy t' e.
Proof.
  revert t out. induction splits as [|s splits IH]; intros t out Hrun Hs Ht.
  - injection Hrun as <- _ <-. intros n d Hn. left. exact (Ht n d Hn).
  - cbn [RenameImages.copy_splits] in Hrun.
    destruct (raw s) as [cats|] eqn:Eraw.
    2:{ injection Hrun as <- _ <-. intros n d Hn. left. exact (Ht n d Hn). }
    destruct (copy_categories s cats t out) as [[t1 out1] e1] eqn:E1.
    assert (all_but_the_failed_copy t1 e1) as Ht1.
    { apply (copy_categories_only _ _ _ _ _ _ _ E1); [|exact Ht].
      intros c files f d. apply (Hs s cats); [left|exact Eraw]. }
    destruct e1 as [e1|]; [injection Hrun as <- _ <-; exact Ht1|].
    apply (IH _ _ Hrun); [|exact (all_but_none _ Ht1)].
    intros s0 cats0 c files f d Hin. apply Hs. right. exact Hin.
Qed.

End Only.

(** Whatever the input tree holds and however the run ends, a file in
    [raw_images/] afterwards is a file that was there before, unchanged,
    or the copy of a readable image of a category directory, with the
    contents of that image and named after its category and split, or
    what the one copy that failed part-way has left: an initial part of
    such an image under its new name, which is then the name the
    exception carries.  The script writes nothing else, and never a file
    whose name it does not take for an image. *)
Theorem raw_images_holds_old_files_and_copies
    (tgt : RenameImages.target_dir) (t' : gmap string data)
    (out : list RenameImages.line) (e : option exn) (n : string) (d : data) :
  main tgt = (RenameImages.Present t', out, e) ->
  t' !! n = Some d ->
  (exists t, tgt = RenameImages.Present t /\ t !! n = Some d)
  \/ flattened n d
  \/ (exists d0, d = Partial d0 /\ flattened n d0 /\ e = Some (OSError n)).
Proof.
  intros Hmain Hn.
  assert (forall t0,
            match copy_splits RenameImages.SPLITS t0 [] with
            | (t, out, None) =>
                (RenameImages.Present t, (out ++ [RenameImages.AllFlattened])%list,
                 None)
            | (t, out, Some e) => (RenameImages.Present t, out, Some e)
            end = (RenameImages.Present t', out, e) ->
            t0 !! n = Some d \/ flattened n d
            \/ (exists d0, d = Partial d0 /\ flattened n d0
                           /\ e = Some (OSError n))) as Hkey.
  { intros t0 H.
    destruct (copy_splits RenameImages.SPLITS t0 []) as [[t1 out1] e1] eqn:E1.
    assert (t1 = t' /\ e1 = e) as [-> ->]
      by (destruct e1; injection H as <- _ <-; split; reflexivity).
    destruct (copy_splits_only
                (fun n d => t0 !! n = Some d \/ flattened n d) flattened
                _ _ _ _ _ _ E1) with (n := n) (d := d) as [[H0|Hf]|Hp];
      [| |exact Hn|left; exact H0|right; left; exact Hf|right; right; exact Hp].
    - intros s cats c files f d0 Hs Hraw Hc Hf Hi.
      assert (flattened (new_filename c s f) d0) as Hfl.
      { exists s, c, f. split; [|reflexivity]. split; [exact Hs|].
        exists cats, files. repeat split; assumption. }
      split; [right; exact Hfl|exact Hfl].
    - intros n0 d0 H0. left. exact H0. }
  unfold RenameImages.main in Hmain. destruct tgt as [|t|]; [| |discriminate].
  - destruct (Hkey ∅ Hmain) as [H0|Hf]; [|right; exact Hf].
    rewrite lookup_empty in H0. discriminate.
  - destruct (Hkey t Hmain) as [H0|Hf]; [|right; exact Hf].
    left. exists t. split; [reflexivity|exact H0].
Qed.

(** *** What a run that meets no failing copy achieves *)

Section Covered.

Variable F : string -> data -> Prop.

Definition holds (n : string) (t : gmap string data) : Prop :=
  exists d, t !! n = Some d /\ F n d.

Lemma holds_insert n k d t : holds n t -> F k d -> holds n (<[k := d]> t).
Proof.
  intros (d0 & Hn & HF) Hk. destruct (decide (k = n)) as [->|Hne].
  - exists d. rewrite lookup_insert_eq. split; [reflexivity|exact Hk].
  - exists d0. rewrite lookup_insert_ne by exact Hne. split; assumption.
Qed.

Definition copies_well (c s : string) (files : directory) : Prop :=
  forall f o, (f, o) ∈ files -> is_image f = true ->
    exists d, o = Some d /\ write_fails (new_filename c s f) = false /\
              F (new_filename c s f) d.

Lemma copy_files_ok c s files t :
  copies_well c s files ->
  exists t',
    copy_files c s files t = (t', None) /\
    (forall n, holds n t -> holds n t') /\
    (forall f o, (f, o) ∈ files -> is_image f = true ->
                 holds (new_filename c s f) t').
Proof.
  revert t. induction files as [|[f o] files IH]; intros t H.
  - exists t. split; [reflexivity|]. split; [auto|].
    intros f o Hin. apply elem_of_nil in Hin as [].
  - assert (copies_well c s files) as Hrest
      by (intros f0 o0 Hin; apply H; right; exact Hin).
    cbn [RenameImages.copy_files]. destruct (is_image f) eqn:Ei.
    + destruct (H f o) as (d & -> & Hw & HF); [left|exact Ei|]. rewrite Hw.
      destruct (IH (<[new_filename c s f := d]> t) Hrest)
        as (t' & Ht' & Hpres & Hest).
      exists t'. split; [exact Ht'|]. split.
      * intros n Hn. apply Hpres, holds_insert; assumption.
      * intros f' o' Hin Hi'. apply elem_of_cons in Hin as [Heq|Hin].
        -- injection Heq as -> ->. apply Hpres. exists d.
           rewrite lookup_insert_eq. split; [reflexivity|exact HF].
        -- exact (Hest f' o' Hin Hi').
    + destruct (IH t Hrest) as (t' & Ht' & Hpres & Hest).
      exists t'. split; [exact Ht'|]. split; [exact Hpres|].
      intros f' o' Hin Hi'. apply elem_of_cons in Hin as [Heq|Hin].
      * injection Heq as -> ->. congruence.
      * exact (Hest f' o' Hin Hi').
Qed.

Lemma copy_categories_ok s cats t out :
  (forall c files, (c, RenameImages.Category files) ∈ cats ->
                   copies_well c s files) ->
  exists t' out',
    copy_categories s cats t out = (t', out', None) /\
    (forall n, holds n t -> holds n t') /\
    (forall c files f o,
       (c, RenameImages.Category files) ∈ cats -> (f, o) ∈ files ->
       is_image f = true -> holds (new_filename c s f) t').
Proof.
  revert t out. induction cats as [|[c [files|]] cats IH]; intros t out H.
  - exists t, out. split; [reflexivity|]. split; [auto|].
    intros c files f o Hin. apply elem_of_nil in Hin as [].
  - cbn [RenameImages.copy_categories].
    destruct (copy_files_ok c s files t) as (t1 & -> & Hpres1 & Hest1);
      [apply H; left|].
    destruct (IH t1 (out ++ [RenameImages.ProcessingCategory c s])%list)
      as (t' & out' & Hrun & Hpres & Hest);
      [intros c0 files0 Hin; apply H; right; exact Hin|].
    exists t', out'. split; [exact Hrun|]. split; [auto|].
    intros c0 files0 f o Hin Hf Hi. apply elem_of_cons in Hin as [Heq|Hin].
    + injection Heq as -> ->. apply Hpres, (Hest1 f o Hf Hi).
    + exact (Hest c0 files0 f o Hin Hf Hi).
  - cbn [RenameImages.copy_categories].
    destruct (IH t out) as (t' & out' & Hrun & Hpres & Hest);
      [intros c0 files0 Hin; apply H; right; exact Hin|].
    exists t', out'. split; [exact Hrun|]. split; [exact Hpres|].
    intros c0 files0 f o Hin Hf Hi. apply elem_of_cons in Hin as [Heq|Hin];
      [discriminate|]. exact (Hest c0 files0 f o Hin Hf Hi).
Qed.

Lemma copy_splits_ok splits t out :
  (forall s, s ∈ splits ->
     exists cats, raw s = Some cats /\
       forall c files, (c, RenameImages.Category files) ∈ cats ->
                       copies_well c s files) ->
  exists t' out',
    copy_splits splits t out = (t', out', None) /\
    (forall n, holds n t -> holds n t') /\
    (forall s cats c files f o,
       s ∈ splits -> raw s = Some cats ->
       (c, RenameImages.Category files) ∈ cats -> (f, o) ∈ files ->
       is_image f = true -> holds (new_filename c s f) t').
Proof.
  revert t out. induction splits as [|s splits IH]; intros t out H.
  - exists t, out. split; [reflexivity|]. split; [auto|].
    intros s cats c files f o Hin. apply elem_of_nil in Hin as [].
  - cbn [RenameImages.copy_splits].
    destruct (H s) as (cats & Eraw & Hcats); [left|]. rewrite Eraw.
    destruct (copy_categories_ok s cats t out Hcats)
      as (t1 & out1 & -> & Hpres1 & Hest1).
    destruct (IH t1 out1) as (t' & out' & Hrun & Hpres & Hest);
      [intros s0 Hin; apply H; right; exact Hin|].
    exists t', out'. split; [exact Hrun|]. split; [auto|].
    intros s0 cats0 c files f o Hin Hraw Hc Hf Hi.
    apply elem_of_cons in Hin as [->|Hin].
    + rewrite Eraw in Hraw. injection Hraw as <-.
      apply Hpres, (Hest1 c files f o Hc Hf Hi).
    + exact (Hest s0 cats0 c files f o Hin Hraw Hc Hf Hi).
Qed.

End Covered.

Lemma copy_categories_lines s cats t out t' out' e :
  copy_categories s cats t out = (t', out', e) ->
  RenameImages.AllFlattened ∉ out -> RenameImages.AllFlattened ∉ out'.
Proof.
  revert t out. induction cats as [|[c [files|]] cats IH]; intros t out Hrun Hout.
  - injection Hrun as _ <- _. exact Hout.
  - cbn [RenameImages.copy_categories] in Hrun.
    assert (RenameImages.AllFlattened
              ∉ (out ++ [RenameImages.ProcessingCategory c s])%list) as Hout1.
    { apply not_elem_of_app. split; [exact Hout|].
      intros Hin. apply list_elem_of_singleton in Hin. discriminate. }
    destruct (copy_files c s files t) as [t1 [e1|]].
    + injection Hrun as _ <- _. exact Hout1.
    + exact (IH _ _ Hrun Hout1).
  - exact (IH _ _ Hrun Hout).
Qed.

Lemma copy_splits_lines splits t out t' out' e :
  copy_splits splits t out = (t', out', e) ->
  RenameImages.AllFlattened ∉ out -> RenameImages.AllFlattened ∉ out'.
Proof.
  revert t out. induction splits as [|s splits IH]; intros t out Hrun Hout.
  - injection Hrun as _ <- _. exact Hout.
  - cbn [RenameImages.copy_splits] in Hrun.
    destruct (raw s) as [cats|]; [|injection Hrun as _ <- _; exact Hout].
    destruct (copy_categories s cats t out) as [[t1 out1] e1] eqn:E1.
    pose proof (copy_categories_lines _ _ _ _ _ _ _ E1 Hout) as Hout1.
    destruct e1 as [e1|]; [injection Hrun as _ <- _; exact Hout1|].
    exact (IH _ _ Hrun Hout1).
Qed.

Lemma copy_splits_app pre post t out :
  copy_splits (pre ++ post) t out
  = match copy_splits pre t out with
    | (t', out', None) => copy_splits post t' out'
    | r => r
    end.
Proof.
  revert t out. induction pre as [|s pre IH]; intros t out; [reflexivity|].
  cbn [app RenameImages.copy_splits]. destruct (raw s) as [cats|]; [|reflexivity].
  destruct (copy_categories s cats t out) as [[t1 out1] [e1|]];
    [reflexivity|apply IH].
Qed.

(** Every image entry can be read and its copy written. *)
Definition all_images_copy : Prop :=
  forall s c f o,
    image_of s c f o ->
    is_Some o /\ write_fails (new_filename c s f) = false.

Lemma all_images_copy_well s cats c files :
  all_images_copy ->
  s ∈ RenameImages.SPLITS -> raw s = Some cats ->
  (c, RenameImages.Category files) ∈ cats ->
  copies_well flattened c s files.
Proof.
  intros Hall Hs Hraw Hc f o Hf Hi.
  assert (image_of s c f o) as Himg.
  { split; [exact Hs|]. exists cats, files. repeat split; assumption. }
  destruct (Hall s c f o Himg) as [[d ->] Hw].
  exists d. split; [reflexivity|]. split; [exact Hw|].
  exists s, c, f. split; [exact Himg|reflexivity].
Qed.

(** The names within each directory are distinct, as a listing's are, and
    no category name has an underscore. *)
Definition names_tell_apart : Prop :=
  forall s cats,
    s ∈ RenameImages.SPLITS -> raw s = Some cats ->
    NoDup cats.*1 /\
    forall c files,
      (c, RenameImages.Category files) ∈ cats ->
      has_underscore c = false /\ NoDup files.*1.

Lemma flattened_functional n d d' :
  names_tell_apart -> flattened n d -> flattened n d' -> d = d'.
Proof.
  intros Hnames (s & c & f & (Hs & cats & files & Hraw & Hc & Hf & _) & ->)
         (s' & c' & f' & (Hs' & cats' & files' & Hraw' & Hc' & Hf' & _) & Heq).
  destruct (Hnames s cats Hs Hraw) as [Hnd Hcats].
  destruct (Hnames s' cats' Hs' Hraw') as [_ Hcats'].
  destruct (Hcats c files Hc) as [Hu Hndf].
  destruct (Hcats' c' files' Hc') as [Hu' _].
  apply new_filename_inj in Heq as (-> & -> & ->); try assumption.
  rewrite Hraw in Hraw'. injection Hraw' as <-.
  pose proof (NoDup_fst_functional _ _ _ _ Hnd Hc Hc') as Hfiles.
  injection Hfiles as <-.
  pose proof (NoDup_fst_functional _ _ _ _ Hndf Hf Hf') as Hd.
  injection Hd as <-. reflexivity.
Qed.

(** When the three split directories exist, every image entry can be
    copied, names within a directory are distinct and no category name
    has an underscore, the script returns normally, its last line is the
    closing message, and every image of the input is in [raw_images/]
    under its new name with its own contents: no copy has overwritten
    another. *)
Theorem every_image_gets_its_own_file (tgt : RenameImages.target_dir) :
  tgt <> RenameImages.Blocked ->
  (forall s, s ∈ RenameImages.SPLITS -> is_Some (raw s)) ->
  all_images_copy ->
  names_tell_apart ->
  exists t' out,
    main tgt
    = (RenameImages.Present t', (out ++ [RenameImages.AllFlattened])%list, None)
    /\ forall n d, flattened n d -> t' !! n = Some d.
Proof.
  intros Htgt Hsplits Hall Hnames.
  assert (forall t0, exists t' out,
            copy_splits RenameImages.SPLITS t0 [] = (t', out, None) /\
            forall n d, flattened n d -> t' !! n = Some d) as Hkey.
  { intros t0.
    destruct (copy_splits_ok flattened RenameImages.SPLITS t0 [])
      as (t' & out & Hrun & _ & Hest).
    { intros s Hs. destruct (Hsplits s Hs) as [cats Hraw].
      exists cats. split; [exact Hraw|]. intros c files.
      apply all_images_copy_well; assumption. }
    exists t', out. split; [exact Hrun|].
    intros n d Hfl. pose proof Hfl as Hfl0.
    destruct Hfl as (s & c & f & (Hs & cats & files & Hraw & Hc & Hf & Hi) & ->).
    destruct (Hest s cats c files f (Some d) Hs Hraw Hc Hf Hi)
      as (d' & Hlook & Hfl').
    rewrite Hlook. f_equal.
    exact (flattened_functional _ _ _ Hnames Hfl' Hfl0). }
  unfold RenameImages.main. destruct tgt as [|t|]; [| |contradiction].
  - destruct (Hkey ∅) as (t' & out & -> & Hcov). exists t', out.
    split; [reflexivity|exact Hcov].
  - destruct (Hkey t) as (t' & out & -> & Hcov). exists t', out.
    split; [reflexivity|exact Hcov].
Qed.

(** With the layout the script's own comment names, a [train] and a
    [test] folder and no [validation] folder, the run ends on the
    [FileNotFoundError] of [os.listdir] and never prints the closing
    message, but only after every image of the two folders has been
    copied: each new name is in [raw_images/], holding an image of that
    name. *)
Theorem missing_validation_folder_ends_the_run (tgt : RenameImages.target_dir) :
  tgt <> RenameImages.Blocked ->
  is_Some (raw "train") -> is_Some (raw "test") -> raw "validation" = None ->
  all_images_copy ->
  exists t' out,
    main tgt
    = (RenameImages.Present t', out, Some (FileNotFoundError "validation")) /\
    RenameImages.AllFlattened ∉ out /\
    forall n d, flattened n d -> exists d', t' !! n = Some d' /\ flattened n d'.
Proof.
  intros Htgt Htrain Htest Hval Hall.
  assert (forall t0, exists t' out,
            copy_splits RenameImages.SPLITS t0 []
            = (t', out, Some (FileNotFoundError "validation")) /\
            RenameImages.AllFlattened ∉ out /\
            forall n d, flattened n d -> holds flattened n t') as Hkey.
  { intros t0.
    destruct (copy_splits_ok flattened ["train"; "test"] t0 [])
      as (t' & out & Hrun & _ & Hest).
    { intros s Hs.
      assert (s ∈ RenameImages.SPLITS) as Hs'.
      { unfold RenameImages.SPLITS. rewrite !elem_of_cons in *. tauto. }
      assert (is_Some (raw s)) as [cats Hraw].
      { rewrite !elem_of_cons, elem_of_nil in Hs.
        destruct Hs as [->|[->|[]]]; assumption. }
      exists cats. split; [exact Hraw|]. intros c files.
      apply all_images_copy_well; assumption. }
    exists t', out. split; [|split].
    - change RenameImages.SPLITS with (["train"; "test"] ++ ["validation"])%list.
      rewrite copy_splits_app, Hrun. cbn [RenameImages.copy_splits].
      rewrite Hval. reflexivity.
    - apply (copy_splits_lines _ _ _ _ _ _ Hrun), not_elem_of_nil.
    - intros n d (s & c & f & (Hs & cats & files & Hraw & Hc & Hf & Hi) & ->).
      apply (Hest s cats c files f (Some d)); try assumption.
      unfold RenameImages.SPLITS in Hs.
      rewrite !elem_of_cons, elem_of_nil in Hs. rewrite !elem_of_cons.
      destruct Hs as [->|[->|[->|[]]]]; [tauto|tauto|congruence]. }
  unfold RenameImages.main. destruct tgt as [|t|]; [| |contradiction].
  - destruct (Hkey ∅) as (t' & out & -> & Hout & Hcov). exists t', out.
    split; [reflexivity|]. split; assumption.
  - destruct (Hkey t) as (t' & out & -> & Hout & Hcov). exists t', out.
    split; [reflexivity|]. split; assumption.
Qed.

End Flattening.

(** A tree with one category of one image beside a text file, an entry
    that is not a directory, and two empty splits; and the same tree
    without its [validation] folder. *)
Definition one_category (split_type : string)
  : option (list (string * RenameImages.entry)) :=
  if String.eqb split_type "train" then
    Some [("carrot",
           RenameImages.Category
             [("a.JPG", Some (Image "x")); ("notes.txt", Some (Text []))]);
          ("README", RenameImages.NotADirectory)]
  else if String.eqb split_type "test" then Some []
  else if String.eqb split_type "validation" then Some []
  else None.

Definition without_validation (split_type : string)
  : option (list (string * RenameImages.entry)) :=
  if String.eqb split_type "validation" then None
  else one_category split_type.

Lemma one_category_images (s c f : string) (o : option data) :
  image_of one_category s c f o \/ image_of without_validation s c f o ->
  s = "train" /\ c = "carrot" /\ f = "a.JPG" /\ o = Some (Image "x").
Proof.
  assert (forall cats files,
            Some [("carrot",
                   RenameImages.Category
                     [("a.JPG", Some (Image "x")); ("notes.txt", Some (Text []))]);
                  ("README", RenameImages.NotADirectory)] = Some cats ->
            (c, RenameImages.Category files) ∈ cats -> (f, o) ∈ files ->
            RenameImages.is_image f = true ->
            c = "carrot" /\ f = "a.JPG" /\ o = Some (Image "x")) as Htrain.
  { intros cats files [= <-] Hc Hf Hi.
    rewrite !elem_of_cons, elem_of_nil in Hc.
    destruct Hc as [[= -> ->]|[[=]|[]]].
    rewrite !elem_of_cons, elem_of_nil in Hf.
    destruct Hf as [[= -> ->]|[[= -> ->]|[]]]; [repeat split|discriminate]. }
  assert (forall cats files,
            Some [] = Some cats ->
            (c, RenameImages.Category files) ∈ cats -> False) as Hempty.
  { intros cats files [= <-] Hc. apply elem_of_nil in Hc as []. }
  intros [(Hs & cats & files & Hraw & Hc & Hf & Hi)
         |(Hs & cats & files & Hraw & Hc & Hf & Hi)];
    unfold RenameImages.SPLITS in Hs; rewrite !elem_of_cons, elem_of_nil in Hs;
    destruct Hs as [->|[->|[->|[]]]]; cbn in Hraw;
    try discriminate; try (destruct (Hempty _ _ Hraw Hc));
    split; try reflexivity; exact (Htrain _ _ Hraw Hc Hf Hi).
Qed.

Lemma raw_images_holds_old_files_and_copies_witness :
  (exists t, RenameImages.Absent = RenameImages.Present t /\
             t !! "carrot_train_a.JPG" = Some (Partial (Image "x")))
  \/ flattened one_category "carrot_train_a.JPG" (Partial (Image "x"))
  \/ (exists d0,
        Partial (Image "x") = Partial d0 /\
        flattened one_category "carrot_train_a.JPG" d0 /\
        Some (OSError "carrot_train_a.JPG")
        = Some (OSError "carrot_train_a.JPG")).
Proof.
  apply (raw_images_holds_old_files_and_copies one_category (fun _ => true)
           (fun _ => true) RenameImages.Absent
           (<["carrot_train_a.JPG" := Partial (Image "x")]> ∅)
           [RenameImages.ProcessingCategory "carrot" "train"]
           (Some (OSError "carrot_train_a.JPG"))).
  - reflexivity.
  - reflexivity.
Defined.

Lemma every_image_gets_its_own_file_witness :
  exists t' out,
    RenameImages.main one_category (fun _ => false) (fun _ => false) RenameImages.Absent
    = (RenameImages.Present t', (out ++ [RenameImages.AllFlattened])%list, None)
    /\ forall n d, flattened one_category n d -> t' !! n = Some d.
Proof.
  apply (every_image_gets_its_own_file one_category (fun _ => false) (fun _ => false)).
  - discriminate.
  - intros s Hs. unfold RenameImages.SPLITS in Hs.
    rewrite !elem_of_cons, elem_of_nil in Hs.
    destruct Hs as [->|[->|[->|[]]]]; eexists; reflexivity.
  - intros s c f o Himg.
    destruct (one_category_images s c f o (or_introl Himg)) as (_ & _ & _ & ->).
    split; [eexists|]; reflexivity.
  - intros s cats Hs Hraw. unfold RenameImages.SPLITS in Hs.
    rewrite !elem_of_cons, elem_of_nil in Hs.
    destruct Hs as [->|[->|[->|[]]]]; injection Hraw as <-;
      (split; [apply (bool_decide_unpack _); reflexivity|]);
      intros c files Hc.
    + rewrite !elem_of_cons, elem_of_nil in Hc.
      destruct Hc as [[= -> ->]|[[=]|[]]].
      split; [reflexivity|apply (bool_decide_unpack _); reflexivity].
    + apply elem_of_nil in Hc as [].
    + apply elem_of_nil in Hc as [].
Defined.

Lemma missing_validation_folder_ends_the_run_witness :
  exists t' out,
    RenameImages.main without_validation (fun _ => false)
      (fun _ => false) RenameImages.Absent
    = (RenameImages.Present t', out, Some (FileNotFoundError "validation")) /\
    RenameImages.AllFlattened ∉ out /\
    forall n d, flattened without_validation n d ->
                exists d', t' !! n = Some d' /\ flattened without_validation n d'.
Proof.
  apply (missing_validation_folder_ends_the_run without_validation
           (fun _ => false) (fun _ => false)).
  - discriminate.
  - eexists; reflexivity.
  - eexists; reflexivity.
  - reflexivity.
  - intros s c f o Himg.
    destruct (one_category_images s c f o (or_intror Himg)) as (_ & _ & _ & ->).
    split; [eexists|]; reflexivity.
Defined.

(** * The detection service and the page that shows its answers *)

(** [num] stands for the finite floating-point numbers; the operations
    the code applies to them ([int], [round], the arithmetic of the label
    position, the formatting of a confidence) are parameters, as are the
    image decoder, the model and the font metrics.  What is modelled in
    full is what the code does with class ids, class names, counts and
    status codes. *)

Module PyList.

(** [l[i]] with Python's negative indices; [None] is [IndexError]. *)
Definition getitem {A} (l : list A) (i : Z) : option A :=
  let j := if i <? 0 then Z.of_nat (length l) + i else i in
  if j <? 0 then None else l !! Z.to_nat j.

End PyList.

Module Yolo.

Section Results.

Variable num : Type.

(** One detection of a [Results] object: its row of [xyxy], [conf] and
    [cls]. *)
Record box := Box {
  xyxy : num * num * num * num;
  conf : num;
  cls : num
}.

(** A [Results] object; [boxes] may be [None]. *)
Record result := Result { boxes : option (list box) }.

End Results.

Arguments Box {num}.
Arguments xyxy {num}.
Arguments conf {num}.
Arguments cls {num}.
Arguments Result {num}.
Arguments boxes {num}.

End Yolo.

(** ** api/prediction_api.py *)

Module PredictionApi.

Definition CLASS_NAMES : list string := ["carrot"; "bean"; "radish"].

Fixpoint has_slash (p : string) : bool :=
  match p with
  | EmptyString => false
  | String c r => Ascii.eqb c "/" || has_slash r
  end.

(** The part of [p] after its last [/]. *)
Fixpoint basename (p : string) : string :=
  match p with
  | EmptyString => EmptyString
  | String c r =>
      if has_slash r then basename r
      else if Ascii.eqb c "/" then r else p
  end.

(** [os.path.splitext(p)[1]]: from the last dot of the base name on,
    empty when there is no dot or only dots precede it. *)
Definition splitext_ext (p : string) : string :=
  let name := basename p in
  match PyStr.rfind_dot name with
  | None => ""
  | Some i =>
      if PyStr.all_dots (substring 0 i name) then ""
      else substring i (String.length name - i) name
  end.

(** The [UploadFile]: its name and content type as sent, and what
    [await file.read()] returns, [None] when it raises. *)
Record upload := Upload {
  filename : option string;
  content_type : option string;
  read : option string
}.

Definition allowed_extensions : list string :=
  [".jpg"; ".jpeg"; ".png"; ".bmp"; ".tiff"; ".webp"].

Definition validate_image (file : upload) : bool :=
  let file_extension :=
    match filename file with
    | Some (String c r) => splitext_ext (PyStr.lower (String c r))
    | _ => ""
    end in
  if bool_decide (file_extension ∈ allowed_extensions) then
    match content_type file with
    | Some (String c r) => PyStr.startswith (String c r) "image/"
    | _ => false
    end
  else false.

Section Service.

Variable num : Type.
Variable int_of : num -> Z.                    (* [int(x)] *)
Variable image : Type.
Variable process_image : string -> option image.  (* [None]: [ValueError] *)
Variable model : image -> option (list (Yolo.result num)).
                                               (* [None]: the call raises *)

Record prediction := Prediction {
  class_name : string;
  confidence : num;
  bounding_box : num * num * num * num
}.

(** The content of the [JSONResponse]. *)
Record response := Response {
  predictions : list prediction;
  total_detections : nat;
  vegetable_counts : gmap string nat
}.

Inductive http :=
| Ok (content : response)
| HTTPException (status_code : Z) (detail : string).

(** Lines 84-97 for one detection; [None] is the [IndexError] of
    [CLASS_NAMES[int(cls_id)]]. *)
Definition format_box (b : Yolo.box num) : option prediction :=
  match PyList.getitem CLASS_NAMES (int_of (Yolo.cls b)) with
  | Some name => Some (Prediction name (Yolo.conf b) (Yolo.xyxy b))
  | None => None
  end.

Fixpoint format_boxes (bs : list (Yolo.box num)) (detections : list prediction)
  : option (list prediction) :=
  match bs with
  | [] => Some detections
  | b :: rest =>
      match format_box b with
      | Some p => format_boxes rest (detections ++ [p])%list
      | None => None
      end
  end.

Fixpoint format_results (results : list (Yolo.result num))
    (detections : list prediction) : option (list prediction) :=
  match results with
  | [] => Some detections
  | r :: rest =>
      match Yolo.boxes r with
      | Some bs =>
          match format_boxes bs detections with
          | Some detections => format_results rest detections
          | None => None
          end
      | None => format_results rest detections
      end
  end.

Definition format_predictions (results : list (Yolo.result num))
  : option (list prediction) :=
  format_results results [].

(** [{class_name: 0 for class_name in CLASS_NAMES}] *)
Definition zero_counts : gmap string nat :=
  list_to_map ((fun c => (c, 0%nat)) <$> CLASS_NAMES).

(** [for pred in predictions: vegetable_counts[pred["class_name"]] += 1];
    [None] is the [KeyError] of a name that is not a key. *)
Fixpoint count_predictions (preds : list prediction) (counts : gmap string nat)
  : option (gmap string nat) :=
  match preds with
  | [] => Some counts
  | pred :: rest =>
      match counts !! class_name pred with
      | Some n => count_predictions rest (<[class_name pred := S n]> counts)
      | None => None
      end
  end.

(** The handler of [POST /predict] (lines 110-174).  An [HTTPException]
    raised inside is passed on; any other exception becomes the 500 of
    the last [except] clause. *)
Definition predict (file : upload) : http :=
  if negb (validate_image file) then
    HTTPException 400
      "Uploaded file is not a valid image. Please upload a JPG, PNG, or similar image file."
  else
    match read file with
    | None => HTTPException 400 "Failed to read uploaded file."
    | Some file_bytes =>
        match process_image file_bytes with
        | None => HTTPException 400 "Uploaded file is not a valid image format."
        | Some image =>
            match model image with
            | None => HTTPException 500 "Model inference failed. Please try again."
            | Some results =>
                match format_predictions results with
                | None =>
                    HTTPException 500
                      "An unexpected error occurred during prediction."
                | Some predictions =>
                    match count_predictions predictions zero_counts with
                    | None =>
                        HTTPException 500
                          "An unexpected error occurred during prediction."
                    | Some vegetable_counts =>
                        Ok (Response predictions (length predictions)
                              vegetable_counts)
                    end
                end
            end
        end
    end.

End Service.

Arguments Prediction {num}.
Arguments class_name {num}.
Arguments confidence {num}.
Arguments bounding_box {num}.
Arguments Response {num}.
Arguments predictions {num}.
Arguments total_detections {num}.
Arguments vegetable_counts {num}.
Arguments Ok {num}.
Arguments HTTPException {num}.

End PredictionApi.

(** ** src/api.py *)

Module SrcApi.

Definition CLASS_NAMES_API : list string := ["carrot"; "bean"; "radish"].

Section Service.

Variable num : Type.
Variable int_of : num -> Z.          (* [int(x)] *)
Variable round2 : num -> num.        (* [round(x, 2)] *)
Variable round0 : num -> Z.          (* [round(x)] *)
Variable image : Type.
Variable open_image : string -> string + image.
  (* [Image.open(...).convert("RGB")]; [inl] is the text of the exception *)
Variable model : option (image -> option (list (Yolo.result num))).
  (* [None] when loading failed; a call answers [None] when it raises *)

Record detection := Detection {
  class : string;
  confidence : num;
  box : Z * Z * Z * Z
}.

Record response := Response {
  detections : list detection;
  counts : gmap string nat;
  total_items : nat
}.

(** How the handler ends: with its dictionary, with an [HTTPException],
    or with an exception it does not catch. *)
Inductive http :=
| Ok (content : response)
| HTTPException (status_code : Z) (detail : string)
| Uncaught.

(** Lines 60-76 for one box; [None] is the [IndexError] of a negative
    class id below [-len(CLASS_NAMES_API)]. *)
Definition process_box (b : Yolo.box num)
    (acc : list detection * gmap string nat)
  : option (list detection * gmap string nat) :=
  let class_id := int_of (Yolo.cls b) in
  let confidence := round2 (Yolo.conf b) in
  let '(x1, y1, x2, y2) := Yolo.xyxy b in
  match (if class_id <? Z.of_nat (length CLASS_NAMES_API)
         then PyList.getitem CLASS_NAMES_API class_id
         else Some "unknown") with
  | Some class_name =>
      Some ((acc.1 ++ [Detection class_name confidence
                         (round0 x1, round0 y1, round0 x2, round0 y2)])%list,
            <[class_name := S (count_of acc.2 class_name)]> acc.2)
  | None => None
  end.

Fixpoint process_boxes (bs : list (Yolo.box num))
    (acc : list detection * gmap string nat)
  : option (list detection * gmap string nat) :=
  match bs with
  | [] => Some acc
  | b :: rest =>
      match process_box b acc with
      | Some acc => process_boxes rest acc
      | None => None
      end
  end.

(** [for r in results: for box in r.boxes: ...]; iterating over a
    [boxes] that is [None] raises. *)
Fixpoint process_results (results : list (Yolo.result num))
    (acc : list detection * gmap string nat)
  : option (list detection * gmap string nat) :=
  match results with
  | [] => Some acc
  | r :: rest =>
      match Yolo.boxes r with
      | Some bs =>
          match process_boxes bs acc with
          | Some acc => process_results rest acc
          | None => None
          end
      | None => None
      end
  end.

(** [sum(counts.values())] *)
Definition sum_values (counts : gmap string nat) : nat :=
  sum_list_with snd (map_to_list counts).

(** The handler of [POST /predict] (lines 29-82); [file_read] is what
    [await file.read()] comes to, [inl] with the text of the exception
    when it raises. *)
Definition predict_items (file_read : string + string) : http :=
  match model with
  | None => HTTPException 503 "Model not loaded. Service unavailable."
  | Some predict =>
      match file_read with
      | inl e => HTTPException 400 ("Could not process image: " ++ e)
      | inr image_bytes =>
          match open_image image_bytes with
          | inl e => HTTPException 400 ("Could not process image: " ++ e)
          | inr image =>
              match predict image with
              | None => Uncaught
              | Some results =>
                  match process_results results ([], ∅) with
                  | None => Uncaught
                  | Some (detections, counts) =>
                      Ok (Response detections counts (sum_values counts))
                  end
              end
          end
      end
  end.

End Service.

Arguments Detection {num}.
Arguments class {num}.
Arguments Response {num}.
Arguments detections {num}.
Arguments counts {num}.
Arguments total_items {num}.
Arguments Ok {num}.
Arguments HTTPException {num}.
Arguments Uncaught {num}.

End SrcApi.

(** ** frontend/drawing.py *)

Module Drawing.

Section Draw.

Variable num : Type.
Variable minus_25 plus_5 : num -> num.   (* [y - 25], [y + 5] *)
Variable positive : num -> bool.         (* [y > 0] *)
Variable format_2f : num -> string.      (* [f"{x:.2f}"] *)
Variable textbbox : num -> num -> string -> num * num * num * num.
                                         (* [draw.textbbox((x, y), label, font)] *)

Inductive draw_cmd :=
| Outline (xyxy : num * num * num * num)   (* [rectangle(..., outline="red", width=3)] *)
| Filled (xyxy : num * num * num * num)    (* [rectangle(text_bbox, fill="red")] *)
| Text (x y : num) (label : string).       (* [text((x, y), label, fill="white")] *)

(** [visibility_toggles.get(class_name, True)] *)
Definition visible (visibility_toggles : gmap string bool) (name : string)
  : bool :=
  default true (visibility_toggles !! name).

(** Lines 26-45 for one detection. *)
Definition draw_detection (visibility_toggles : gmap string bool)
    (det : PredictionApi.prediction num)
    (acc : list draw_cmd * gmap string nat)
  : list draw_cmd * gmap string nat :=
  let class_name := PredictionApi.class_name det in
  let detected_counts := <[class_name := S (count_of acc.2 class_name)]> acc.2 in
  if visible visibility_toggles class_name then
    let '(x1, y1, x2, y2) := PredictionApi.bounding_box det in
    let label :=
      (class_name ++ " (" ++ format_2f (PredictionApi.confidence det) ++ ")")%string in
    let text_x := x1 in
    let text_y := if positive (minus_25 y1) then minus_25 y1 else plus_5 y1 in
    ((acc.1 ++ [Outline (x1, y1, x2, y2);
                Filled (textbbox text_x text_y label);
                Text text_x text_y label])%list,
     detected_counts)
  else (acc.1, detected_counts).

(** [draw_predictions_on_image]: the drawing commands issued on the copy
    of the image, and [detected_counts].  [detections] is [None] or the
    decoded answer of the service. *)
Definition draw_predictions_on_image
    (detections : option (PredictionApi.response num))
    (visibility_toggles : gmap string bool)
  : list draw_cmd * gmap string nat :=
  match detections with
  | Some d =>
      foldl (fun acc det => draw_detection visibility_toggles det acc)
            ([], ∅) (PredictionApi.predictions d)
  | None => ([], ∅)
  end.

End Draw.

Arguments Outline {num}.
Arguments Filled {num}.
Arguments Text {num}.

End Drawing.

(** ** Properties of the detection service *)

Lemma getitem_elem_of {A} (l : list A) (i : Z) (x : A) :
  PyList.getitem l i = Some x -> x ∈ l.
Proof.
  unfold PyList.getitem.
  destruct ((if i <? 0 then Z.of_nat (length l) + i else i) <? 0);
    [discriminate|]. apply list_elem_of_lookup_2.
Qed.

Lemma getitem_is_Some {A} (l : list A) (i : Z) :
  is_Some (PyList.getitem l i)
  <-> - Z.of_nat (length l) <= i < Z.of_nat (length l).
Proof.
  unfold PyList.getitem.
  destruct (i <? 0) eqn:Ei; [apply Z.ltb_lt in Ei|apply Z.ltb_ge in Ei].
  - destruct (Z.of_nat (length l) + i <? 0) eqn:Ej;
      [apply Z.ltb_lt in Ej|apply Z.ltb_ge in Ej].
    + split; [intros [x Hx]; discriminate|lia].
    + rewrite lookup_lt_is_Some. split; lia.
  - replace (i <? 0) with false by (symmetry; apply Z.ltb_ge; lia).
    rewrite lookup_lt_is_Some. split; lia.
Qed.

(** How many elements of a list carry a name. *)
Definition occurrences {A} (name_of : A -> string) (c : string) (l : list A)
  : nat :=
  length (filter (fun x => name_of x = c) l).

Lemma occurrences_cons {A} (name_of : A -> string) c x (l : list A) :
  occurrences name_of c (x :: l)
  = ((if decide (name_of x = c) then 1 else 0) + occurrences name_of c l)%nat.
Proof.
  unfold occurrences. rewrite filter_cons.
  destruct (decide (name_of x = c)); reflexivity.
Qed.

Lemma occurrences_app {A} (name_of : A -> string) c (l l' : list A) :
  occurrences name_of c (l ++ l')
  = (occurrences name_of c l + occurrences name_of c l')%nat.
Proof. unfold occurrences. rewrite filter_app, length_app. reflexivity. Qed.

Lemma zero_map_lookup (names : list string) (c : string) :
  (list_to_map ((fun c => (c, 0%nat)) <$> names) : gmap string nat) !! c
  = if decide (c ∈ names) then Some 0%nat else None.
Proof.
  induction names as [|n names IH]; cbn.
  - rewrite lookup_empty. destruct (decide (c ∈ [])) as [H|_]; [|reflexivity].
    apply elem_of_nil in H as [].
  - destruct (decide (n = c)) as [->|Hne].
    + rewrite lookup_insert_eq, decide_True by left. reflexivity.
    + rewrite lookup_insert_ne, IH by exact Hne.
      destruct (decide (c ∈ names)) as [Hin|Hin].
      * rewrite decide_True by (right; exact Hin). reflexivity.
      * rewrite decide_False; [reflexivity|].
        intros H. apply elem_of_cons in H as [->|H]; contradiction.
Qed.

Section ServiceProperties.

Context {num image : Type} (int_of : num -> Z)
        (process_image : string -> option image)
        (model : image -> option (list (Yolo.result num))).

Notation format_box := (PredictionApi.format_box num int_of).
Notation format_boxes := (PredictionApi.format_boxes num int_of).
Notation format_results := (PredictionApi.format_results num int_of).
Notation format_predictions := (PredictionApi.format_predictions num int_of).
Notation count_predictions := (PredictionApi.count_predictions num).
Notation predict :=
  (PredictionApi.predict num int_of image process_image model).
Notation CLASS_NAMES := PredictionApi.CLASS_NAMES.
Notation class_name := PredictionApi.class_name.

(** The class ids the service can name: Python's negative indices
    included. *)
Definition in_range (b : Yolo.box num) : Prop :=
  -3 <= int_of (Yolo.cls b) < 3.

Definition all_in_range (results : list (Yolo.result num)) : Prop :=
  Forall (fun r => forall bs, Yolo.boxes r = Some bs -> Forall in_range bs)
         results.

Lemma format_box_is_Some b : is_Some (format_box b) <-> in_range b.
Proof.
  unfold PredictionApi.format_box, in_range.
  rewrite <- (getitem_is_Some CLASS_NAMES (int_of (Yolo.cls b))).
  destruct (PyList.getitem CLASS_NAMES (int_of (Yolo.cls b)));
    split; intros [x Hx]; try discriminate; eexists; reflexivity.
Qed.

Lemma format_box_name b p :
  format_box b = Some p -> class_name p ∈ CLASS_NAMES.
Proof.
  unfold PredictionApi.format_box.
  destruct (PyList.getitem CLASS_NAMES (int_of (Yolo.cls b))) as [name|] eqn:E;
    [|discriminate].
  intros [= <-]. exact (getitem_elem_of _ _ _ E).
Qed.

Definition named (d : list (PredictionApi.prediction num)) : Prop :=
  Forall (fun p => class_name p ∈ CLASS_NAMES) d.

Lemma format_boxes_spec bs d :
  (exists d', format_boxes bs d = Some d' /\ Forall in_range bs /\
              (named d -> named d')) \/
  (format_boxes bs d = None /\ ~ Forall in_range bs).
Proof.
  revert d. induction bs as [|b bs IH]; intros d.
  - left. exists d. split; [reflexivity|]. split; [constructor|auto].
  - cbn [PredictionApi.format_boxes].
    destruct (format_box b) as [p|] eqn:Eb.
    + assert (in_range b) as Hb by (apply format_box_is_Some; eauto).
      destruct (IH (d ++ [p])%list) as [(d' & -> & Hbs & Hd')|[-> Hbad]].
      * left. exists d'. split; [reflexivity|].
        split; [constructor; assumption|]. intros Hd. apply Hd'.
        apply Forall_app. split; [exact Hd|].
        apply Forall_singleton, (format_box_name b p Eb).
      * right. split; [reflexivity|]. intros H.
        apply Forall_cons in H as [_ H]. exact (Hbad H).
    + right. split; [reflexivity|]. intros H.
      apply Forall_cons in H as [Hb _].
      apply format_box_is_Some in Hb as [p Hp]. congruence.
Qed.

Lemma format_results_spec results d :
  (exists d', format_results results d = Some d' /\ all_in_range results /\
              (named d -> named d')) \/
  (format_results results d = None /\ ~ all_in_range results).
Proof.
  revert d. induction results as [|r results IH]; intros d.
  - left. exists d. split; [reflexivity|]. split; [constructor|auto].
  - cbn [PredictionApi.format_results]. unfold all_in_range in *.
    destruct (Yolo.boxes r) as [bs|] eqn:Er.
    + destruct (format_boxes_spec bs d) as [(d1 & -> & Hbs & Hd1)|[-> Hbad]].
      * destruct (IH d1) as [(d' & -> & Hrest & Hd')|[-> Hbad]].
        -- left. exists d'. split; [reflexivity|]. split; [|auto].
           constructor; [|exact Hrest].
           intros bs' Hbs'. rewrite Er in Hbs'. injection Hbs' as <-.
           exact Hbs.
        -- right. split; [reflexivity|]. intros H.
           apply Forall_cons in H as [_ H]. exact (Hbad H).
      * right. split; [reflexivity|]. intros H.
        apply Forall_cons in H as [Hr _]. exact (Hbad (Hr bs Er)).
    + destruct (IH d) as [(d' & -> & Hrest & Hd')|[-> Hbad]].
      * left. exists d'. split; [reflexivity|]. split; [|exact Hd'].
        constructor; [|exact Hrest]. intros bs' Hbs'. rewrite Er in Hbs'.
        discriminate.
      * right. split; [reflexivity|]. intros H.
        apply Forall_cons in H as [_ H]. exact (Hbad H).
Qed.

Lemma count_predictions_spec preds counts :
  Forall (fun p => is_Some (counts !! class_name p)) preds ->
  exists counts',
    count_predictions preds counts = Some counts' /\
    total counts' = (total counts + length preds)%nat /\
    forall c, counts' !! c
              = (fun n => (n + occurrences class_name c preds)%nat)
                  <$> counts !! c.
Proof.
  revert counts. induction preds as [|p preds IH]; intros counts H.
  - exists counts. split; [reflexivity|]. split; [cbn; lia|].
    intros c. destruct (counts !! c); cbn; [f_equal; lia|reflexivity].
  - apply Forall_cons in H as [[n Hn] H].
    cbn [PredictionApi.count_predictions]. rewrite Hn.
    destruct (IH (<[class_name p := S n]> counts))
      as (counts' & -> & Htotal & Hlook).
    { eapply Forall_impl; [exact H|]. intros q Hq. cbn in Hq.
      apply lookup_insert_is_Some'. right. exact Hq. }
    exists counts'. split; [reflexivity|]. split.
    + rewrite Htotal.
      replace (S n) with (S (count_of counts (class_name p)))
        by (unfold count_of; rewrite Hn; reflexivity).
      rewrite total_incr. cbn [length]. lia.
    + intros c. rewrite Hlook, occurrences_cons.
      destruct (decide (class_name p = c)) as [<-|Hne].
      * rewrite lookup_insert_eq, Hn. cbn. f_equal. lia.
      * rewrite lookup_insert_ne by exact Hne.
        destruct (counts !! c); reflexivity.
Qed.

Lemma total_zero_counts : total PredictionApi.zero_counts = 0%nat.
Proof.
  unfold PredictionApi.zero_counts. cbn.
  rewrite !total_insert_fresh; [reflexivity|..].
  - apply lookup_empty.
  - rewrite lookup_insert_ne by discriminate. apply lookup_empty.
  - rewrite !lookup_insert_ne by discriminate. apply lookup_empty.
Qed.

(** What the service puts into an answer. *)
Lemma predict_Ok file b :
  predict file = PredictionApi.Ok b ->
  named (PredictionApi.predictions b) /\
  PredictionApi.total_detections b = length (PredictionApi.predictions b) /\
  total (PredictionApi.vegetable_counts b) = length (PredictionApi.predictions b) /\
  forall c,
    PredictionApi.vegetable_counts b !! c
    = if decide (c ∈ CLASS_NAMES)
      then Some (occurrences class_name c (PredictionApi.predictions b))
      else None.
Proof.
  unfold PredictionApi.predict.
  destruct (negb (PredictionApi.validate_image file)); [discriminate|].
  destruct (PredictionApi.read file) as [bytes|]; [|discriminate].
  destruct (process_image bytes) as [img|]; [|discriminate].
  destruct (model img) as [results|]; [|discriminate].
  destruct (format_predictions results) as [preds|] eqn:Ef; [|discriminate].
  assert (named preds) as Hnamed.
  { unfold PredictionApi.format_predictions in Ef.
    destruct (format_results_spec results [])
      as [(d' & Hd' & _ & Hn)|[Hnone _]]; [|congruence].
    rewrite Hd' in Ef. injection Ef as <-. apply Hn. constructor. }
  destruct (count_predictions_spec preds PredictionApi.zero_counts)
    as (counts' & -> & Htotal & Hlook).
  { eapply Forall_impl; [exact Hnamed|]. intros p Hp. cbn in Hp.
    unfold PredictionApi.zero_counts. rewrite zero_map_lookup.
    rewrite decide_True by exact Hp. eexists; reflexivity. }
  intros [= <-]. cbn. split; [exact Hnamed|]. split; [reflexivity|].
  split; [rewrite Htotal, total_zero_counts; reflexivity|].
  intros c. rewrite Hlook. unfold PredictionApi.zero_counts.
  rewrite zero_map_lookup. destruct (decide (c ∈ CLASS_NAMES)); reflexivity.
Qed.

(** In every answer of [POST /predict], [total_detections] is the number
    of predictions and the sum of [vegetable_counts]; the keys of
    [vegetable_counts] are exactly the three class names, each with the
    number of predictions of that class (zero included); and every
    prediction carries one of the three names. *)
Theorem service_counts_add_up
    (file : PredictionApi.upload) (b : PredictionApi.response num) :
  predict file = PredictionApi.Ok b ->
  PredictionApi.total_detections b = length (PredictionApi.predictions b) /\
  total (PredictionApi.vegetable_counts b) = PredictionApi.total_detections b /\
  (forall c,
     PredictionApi.vegetable_counts b !! c
     = if decide (c ∈ CLASS_NAMES)
       then Some (occurrences class_name c (PredictionApi.predictions b))
       else None) /\
  (forall p, p ∈ PredictionApi.predictions b -> class_name p ∈ CLASS_NAMES).
Proof.
  intros H. destruct (predict_Ok file b H) as (Hnamed & Hlen & Htotal & Hlook).
  split; [exact Hlen|]. split; [congruence|]. split; [exact Hlook|].
  intros p Hp. unfold named in Hnamed. rewrite Forall_forall in Hnamed.
  exact (Hnamed p Hp).
Qed.

(** The status code of the answer: 200 for a [JSONResponse], else that of
    the [HTTPException]. *)
Definition status (h : PredictionApi.http num) : Z :=
  match h with
  | PredictionApi.Ok _ => 200
  | PredictionApi.HTTPException c _ => c
  end.

(** The image the handler gets out of an upload: the upload passes
    [validate_image], can be read, and [process_image] decodes it. *)
Definition decoded (file : PredictionApi.upload) : option image :=
  if PredictionApi.validate_image file
  then PredictionApi.read file ≫= process_image
  else None.

Lemma predict_cases file :
  match decoded file with
  | None => status (predict file) = 400
  | Some img =>
      match model img with
      | None => status (predict file) = 500
      | Some results =>
          (all_in_range results /\ status (predict file) = 200) \/
          (~ all_in_range results /\ status (predict file) = 500)
      end
  end.
Proof.
  unfold decoded, PredictionApi.predict.
  destruct (PredictionApi.validate_image file); [|reflexivity]. cbn [negb].
  destruct (PredictionApi.read file) as [bytes|]; [|reflexivity].
  cbn [mbind option_bind].
  destruct (process_image bytes) as [img|]; [|reflexivity].
  destruct (model img) as [results|]; [|reflexivity].
  unfold PredictionApi.format_predictions.
  destruct (format_results_spec results [])
    as [(preds & -> & Hr & Hn)|[-> Hbad]]; [|right; split; [exact Hbad|reflexivity]].
  left. split; [exact Hr|].
  destruct (count_predictions_spec preds PredictionApi.zero_counts)
    as (counts' & -> & _); [|reflexivity].
  eapply Forall_impl; [apply Hn; constructor|]. intros p Hp. cbn in Hp.
  unfold PredictionApi.zero_counts. rewrite zero_map_lookup.
  rewrite decide_True by exact Hp. eexists; reflexivity.
Qed.

(** The status code tells where a request failed.  [POST /predict]
    answers 400 exactly when the upload is refused, cannot be read or
    cannot be decoded; 200 exactly when the model then returns results
    whose class ids all lie in -3..2 (a negative id names a class from
    the end of the list); and 500 exactly when the model raises or some
    class id lies outside that range.  Counting never raises. *)
Theorem service_status_tells_where_it_failed (file : PredictionApi.upload) :
  (status (predict file) = 400 <-> decoded file = None) /\
  (status (predict file) = 200 <->
   exists img results,
     decoded file = Some img /\ model img = Some results /\
     all_in_range results) /\
  (status (predict file) = 500 <->
   exists img,
     decoded file = Some img /\
     (model img = None \/
      exists results, model img = Some results /\ ~ all_in_range results)).
Proof.
  pose proof (predict_cases file) as H.
  destruct (decoded file) as [img|]; [destruct (model img) as [results|] eqn:Em|].
  - destruct H as [[Hr ->]|[Hr ->]].
    + split; [split; discriminate|]. split.
      * split; [intros _; exists img, results; auto|reflexivity].
      * split; [discriminate|]. intros (img' & [= <-] & [Hm|(r' & Hm & Hbad)]).
        -- congruence.
        -- rewrite Em in Hm. injection Hm as <-. contradiction.
    + split; [split; discriminate|]. split.
      * split; [discriminate|]. intros (img' & r' & [= <-] & Hm & Hok).
        rewrite Em in Hm. injection Hm as <-. contradiction.
      * split; [|reflexivity]. intros _. exists img. split; [reflexivity|].
        right. exists results. split; [exact Em|exact Hr].
  - rewrite H. split; [split; discriminate|]. split.
    + split; [discriminate|]. intros (img' & r' & [= <-] & Hm & _). congruence.
    + split; [|reflexivity]. intros _. exists img. split; [reflexivity|].
      left. exact Em.
  - rewrite H. split; [split; reflexivity|]. split.
    + split; [discriminate|]. intros (img' & r' & [=] & _).
    + split; [discriminate|]. intros (img' & [=] & _).
Qed.

End ServiceProperties.

Lemma count_of_insert (m : gmap string nat) (k c : string) (v : nat) :
  count_of (<[k := v]> m) c = if decide (k = c) then v else count_of m c.
Proof.
  unfold count_of. destruct (decide (k = c)) as [->|Hne].
  - rewrite lookup_insert_eq. reflexivity.
  - rewrite lookup_insert_ne by exact Hne. reflexivity.
Qed.

(** ** Properties of the page's drawing routine *)

Section PageProperties.

Context {num : Type} (minus_25 plus_5 : num -> num) (positive : num -> bool)
        (format_2f : num -> string)
        (textbbox : num -> num -> string -> num * num * num * num).

Notation draw_detection :=
  (Drawing.draw_detection num minus_25 plus_5 positive format_2f textbbox).
Notation draw_predictions_on_image :=
  (Drawing.draw_predictions_on_image num minus_25 plus_5 positive format_2f
     textbbox).
Notation class_name := PredictionApi.class_name.

(** The predictions the routine loops over. *)
Definition shown (detections : option (PredictionApi.response num))
  : list (PredictionApi.prediction num) :=
  match detections with
  | Some d => PredictionApi.predictions d
  | None => []
  end.

(** The predictions of the classes that are not toggled off. *)
Definition visible_ones (toggles : gmap string bool)
    (preds : list (PredictionApi.prediction num))
  : list (PredictionApi.prediction num) :=
  filter (fun p => Drawing.visible toggles (class_name p) = true) preds.

(** [detected_counts] as the loop builds it, without the drawing. *)
Definition tally (preds : list (PredictionApi.prediction num))
    (m : gmap string nat) : gmap string nat :=
  foldl (fun m det => <[class_name det := S (count_of m (class_name det))]> m)
        m preds.

Lemma draw_loop_spec toggles preds acc :
  let r := foldl (fun acc det => draw_detection toggles det acc) acc preds in
  r.2 = tally preds acc.2 /\
  length r.1
  = (length acc.1 + 3 * length (visible_ones toggles preds))%nat.
Proof.
  revert acc. induction preds as [|p preds IH]; intros acc; cbn zeta.
  - cbn. split; [reflexivity|lia].
  - cbn [foldl tally]. destruct (IH (draw_detection toggles p acc)) as [-> ->].
    unfold visible_ones. rewrite filter_cons. unfold Drawing.draw_detection.
    destruct (Drawing.visible toggles (class_name p)).
    + destruct (PredictionApi.bounding_box p) as [[[x1 y1] x2] y2].
      cbn [fst snd]. rewrite decide_True by reflexivity.
      rewrite length_app. cbn [length]. split; [reflexivity|lia].
    + cbn [fst snd]. rewrite decide_False by discriminate.
      split; [reflexivity|lia].
Qed.

Lemma tally_count preds m c :
  count_of (tally preds m) c
  = (count_of m c + occurrences class_name c preds)%nat.
Proof.
  revert m. induction preds as [|p preds IH]; intros m.
  - cbn. lia.
  - change (tally (p :: preds) m)
      with (tally preds (<[class_name p := S (count_of m (class_name p))]> m)).
    rewrite IH, count_of_insert.
    rewrite occurrences_cons.
    destruct (decide (class_name p = c)) as [->|]; lia.
Qed.

Lemma draw_counts detections toggles c :
  count_of (draw_predictions_on_image detections toggles).2 c
  = occurrences class_name c (shown detections).
Proof.
  unfold Drawing.draw_predictions_on_image, shown.
  destruct detections as [d|]; [|reflexivity].
  destruct (draw_loop_spec toggles (PredictionApi.predictions d) ([], ∅))
    as [-> _].
  rewrite tally_count. reflexivity.
Qed.

(** [detected_counts] does not depend on the visibility toggles: for
    every class it is the number of predictions of that class, hidden or
    not, so it is empty only when there is no prediction at all.  What
    the toggles decide is the drawing: three drawing calls (box, label
    background, label) for each prediction of a visible class and none
    for the others. *)
Theorem page_counts_ignore_toggles
    (detections : option (PredictionApi.response num))
    (toggles : gmap string bool) :
  (forall toggles',
     (draw_predictions_on_image detections toggles').2
     = (draw_predictions_on_image detections toggles).2) /\
  (forall c,
     count_of (draw_predictions_on_image detections toggles).2 c
     = occurrences class_name c (shown detections)) /\
  ((draw_predictions_on_image detections toggles).2 = ∅
   <-> shown detections = []) /\
  length (draw_predictions_on_image detections toggles).1
  = (3 * length (visible_ones toggles (shown detections)))%nat.
Proof.
  split; [|split; [|split]].
  - intros toggles'. unfold Drawing.draw_predictions_on_image.
    destruct detections as [d|]; [|reflexivity].
    destruct (draw_loop_spec toggles (PredictionApi.predictions d) ([], ∅))
      as [-> _].
    destruct (draw_loop_spec toggles' (PredictionApi.predictions d) ([], ∅))
      as [-> _].
    reflexivity.
  - apply draw_counts.
  - split.
    + intros Hempty. destruct (shown detections) as [|p preds] eqn:Es;
        [reflexivity|].
      pose proof (draw_counts detections toggles (class_name p)) as Hc.
      rewrite Hempty, Es, occurrences_cons in Hc.
      rewrite decide_True in Hc by reflexivity.
      unfold count_of in Hc. rewrite lookup_empty in Hc. cbn in Hc. lia.
    + unfold Drawing.draw_predictions_on_image, shown.
      destruct detections as [d|]; [|reflexivity]. intros ->. reflexivity.
  - unfold Drawing.draw_predictions_on_image, shown.
    destruct detections as [d|]; [|reflexivity].
    destruct (draw_loop_spec toggles (PredictionApi.predictions d) ([], ∅))
      as [_ ->].
    cbn [fst length]. lia.
Qed.

(** *** The page and the service count alike *)

Lemma occurrences_of_other_name
    (preds : list (PredictionApi.prediction num)) (c : string) :
  named preds -> c ∉ PredictionApi.CLASS_NAMES ->
  occurrences class_name c preds = 0%nat.
Proof.
  intros Hnamed Hc. unfold occurrences.
  induction Hnamed as [|p preds Hp _ IH]; [reflexivity|].
  rewrite filter_cons. destruct (decide (class_name p = c)) as [<-|_];
    [contradiction|exact IH].
Qed.

Section PageAndService.

Context {image : Type} (int_of : num -> Z)
        (process_image : string -> option image)
        (model : image -> option (list (Yolo.result num))).

(** For every answer of [POST /predict], the counts the page derives
    from the predictions are the service's own [vegetable_counts]: the
    same number for each of the three class names, and nothing under any
    other name. *)
Theorem page_counts_match_service
    (file : PredictionApi.upload) (b : PredictionApi.response num)
    (toggles : gmap string bool) (c : string) :
  PredictionApi.predict num int_of image process_image model file
  = PredictionApi.Ok b ->
  count_of (draw_predictions_on_image (Some b) toggles).2 c
  = count_of (PredictionApi.vegetable_counts b) c.
Proof.
  intros H.
  destruct (predict_Ok int_of process_image model file b H)
    as (Hnamed & _ & _ & Hlook).
  rewrite draw_counts. unfold count_of at 1. rewrite Hlook. cbn [shown].
  destruct (decide (c ∈ PredictionApi.CLASS_NAMES)) as [Hc|Hc];
    [reflexivity|]. cbn [default].
  exact (occurrences_of_other_name _ c Hnamed Hc).
Qed.

End PageAndService.

End PageProperties.

(** ** Properties of the service of src/api.py *)

Section SrcApiProperties.

Context {num image : Type} (int_of : num -> Z) (round2 : num -> num)
        (round0 : num -> Z) (open_image : string -> string + image)
        (model : option (image -> option (list (Yolo.result num)))).

Notation process_box := (SrcApi.process_box num int_of round2 round0).
Notation process_boxes := (SrcApi.process_boxes num int_of round2 round0).
Notation process_results := (SrcApi.process_results num int_of round2 round0).
Notation predict_items :=
  (SrcApi.predict_items num int_of round2 round0 image open_image model).

(** What the loops keep true of [detections] and [counts]. *)
Definition tallied (acc : list (SrcApi.detection num) * gmap string nat)
  : Prop :=
  total acc.2 = length acc.1 /\
  (forall c, count_of acc.2 c = occurrences SrcApi.class c acc.1) /\
  Forall (fun d => SrcApi.class d ∈ SrcApi.CLASS_NAMES_API
                   \/ SrcApi.class d = "unknown") acc.1.

Lemma process_box_tallied b acc acc' :
  process_box b acc = Some acc' -> tallied acc -> tallied acc'.
Proof.
  unfold SrcApi.process_box.
  destruct (Yolo.xyxy b) as [[[x1 y1] x2] y2].
  destruct (if int_of (Yolo.cls b) <? Z.of_nat (length SrcApi.CLASS_NAMES_API)
            then PyList.getitem SrcApi.CLASS_NAMES_API (int_of (Yolo.cls b))
            else Some "unknown") as [name|] eqn:E; [|discriminate].
  intros [= <-] (Ht & Hc & Hn). unfold tallied. cbn [fst snd].
  split; [|split].
  - rewrite total_incr, length_app, Ht. cbn [length]. lia.
  - intros c. rewrite count_of_insert, occurrences_app, occurrences_cons.
    cbn [SrcApi.class]. unfold occurrences at 2. cbn [filter list_filter length].
    destruct (decide (name = c)) as [->|]; rewrite Hc; lia.
  - apply Forall_app. split; [exact Hn|]. apply Forall_singleton.
    cbn [SrcApi.class].
    destruct (int_of (Yolo.cls b) <? Z.of_nat (length SrcApi.CLASS_NAMES_API)).
    + left. exact (getitem_elem_of _ _ _ E).
    + right. congruence.
Qed.

Lemma process_boxes_tallied bs acc acc' :
  process_boxes bs acc = Some acc' -> tallied acc -> tallied acc'.
Proof.
  revert acc. induction bs as [|b bs IH]; intros acc.
  - intros [= <-] H. exact H.
  - cbn [SrcApi.process_boxes].
    destruct (process_box b acc) as [acc1|] eqn:E1; [|discriminate].
    intros H Hacc. exact (IH _ H (process_box_tallied _ _ _ E1 Hacc)).
Qed.

Lemma process_results_tallied results acc acc' :
  process_results results acc = Some acc' -> tallied acc -> tallied acc'.
Proof.
  revert acc. induction results as [|r results IH]; intros acc.
  - intros [= <-] H. exact H.
  - cbn [SrcApi.process_results].
    destruct (Yolo.boxes r) as [bs|]; [|discriminate].
    destruct (process_boxes bs acc) as [acc1|] eqn:E1; [|discriminate].
    intros H Hacc. exact (IH _ H (process_boxes_tallied _ _ _ E1 Hacc)).
Qed.

(** In every answer of the service of src/api.py, [total_items] is the
    number of detections, [counts] holds for every name the number of
    detections of that name, and a detection is named after one of the
    three classes or ["unknown"]. *)
Theorem src_api_counts_add_up
    (file_read : string + string) (b : SrcApi.response num) :
  predict_items file_read = SrcApi.Ok b ->
  SrcApi.total_items b = length (SrcApi.detections b) /\
  (forall c,
     count_of (SrcApi.counts b) c
     = occurrences SrcApi.class c (SrcApi.detections b)) /\
  (forall d, d ∈ SrcApi.detections b ->
             SrcApi.class d ∈ SrcApi.CLASS_NAMES_API
             \/ SrcApi.class d = "unknown").
Proof.
  unfold SrcApi.predict_items.
  destruct model as [predict|]; [|discriminate].
  destruct file_read as [e|image_bytes]; [discriminate|].
  destruct (open_image image_bytes) as [e|img]; [discriminate|].
  destruct (predict img) as [results|]; [|discriminate].
  destruct (process_results results ([], ∅)) as [[dets cnts]|] eqn:E;
    [|discriminate].
  intros [= <-]. cbn.
  destruct (process_results_tallied _ _ _ E) as (Ht & Hc & Hn).
  { split; [reflexivity|]. split; [intros c; reflexivity|constructor]. }
  cbn [fst snd] in *. split; [exact Ht|]. split; [exact Hc|].
  intros d Hd. rewrite Forall_forall in Hn. exact (Hn d Hd).
Qed.

End SrcApiProperties.

(** ** The client and the two services *)

Section ClientAndServices.

Context {num : Type}.

(** A decoded answer of [POST /predict]: of api/prediction_api.py or of
    src/api.py. *)
Definition answer : Type :=
  PredictionApi.response num + SrcApi.response num.

(** The keys of the dictionary each service returns. *)
Definition top_level_keys (a : answer) : list string :=
  match a with
  | inl _ => ["predictions"; "total_detections"; "vegetable_counts"]
  | inr _ => ["detections"; "counts"; "total_items"]
  end.

(** ["predictions" in result] *)
Definition key_test (a : answer) : option bool :=
  Some (bool_decide ("predictions" ∈ top_level_keys a)).

(** The client works with one of the two services only.  When the first
    request is answered with status 200, [predict_with_retry] returns
    the answer if it comes from api/prediction_api.py; an answer of
    src/api.py, which has no key [predictions], is given up with the
    warning about an unexpected format and the call returns [None].  In
    both cases one request is sent. *)
Theorem client_accepts_only_prediction_api
    (json_error_is_request_exception : bool)
    (server : Z -> ApiClient.outcome answer) (max_retries : Z)
    (text : string) (a : answer) :
  0 <= max_retries ->
  server 0
  = ApiClient.Responds answer
      (ApiClient.Response answer 200 text (ApiClient.Decodes answer a)) ->
  ApiClient.predict_with_retry answer key_test json_error_is_request_exception
    server max_retries
  = match a with
    | inl _ => ([ApiClient.Post 60], inr (Some a))
    | inr _ => ([ApiClient.Post 60; ApiClient.WarnUnexpectedFormat], inr None)
    end.
Proof.
  intros Hmr Hserver. unfold ApiClient.predict_with_retry, ApiClient.range.
  rewrite seqZ_cons by lia. cbn [ApiClient.attempts_loop].
  rewrite Hserver. destruct a; reflexivity.
Qed.

End ClientAndServices.

(** A model that finds one carrot, an upload it is run on, and the answer
    of the service; numbers are stood for by integers. *)
Definition one_carrot_model (img : unit) : option (list (Yolo.result Z)) :=
  Some [Yolo.Result (Some [Yolo.Box (10, 20, 30, 40) 1 0]); Yolo.Result None].

Definition jpeg_upload : PredictionApi.upload :=
  PredictionApi.Upload (Some "veg.JPG") (Some "image/jpeg") (Some "bytes").

Definition one_carrot_answer : PredictionApi.response Z :=
  PredictionApi.Response
    [PredictionApi.Prediction "carrot" 1 (10, 20, 30, 40)] 1
    (<["carrot" := 1%nat]> PredictionApi.zero_counts).

Lemma service_counts_add_up_witness :
  PredictionApi.total_detections one_carrot_answer
  = length (PredictionApi.predictions one_carrot_answer) /\
  total (PredictionApi.vegetable_counts one_carrot_answer)
  = PredictionApi.total_detections one_carrot_answer /\
  (forall c,
     PredictionApi.vegetable_counts one_carrot_answer !! c
     = if decide (c ∈ PredictionApi.CLASS_NAMES)
       then Some (occurrences PredictionApi.class_name c
                    (PredictionApi.predictions one_carrot_answer))
       else None) /\
  (forall p, p ∈ PredictionApi.predictions one_carrot_answer ->
             PredictionApi.class_name p ∈ PredictionApi.CLASS_NAMES).
Proof.
  apply (service_counts_add_up (fun x => x) (fun _ => Some tt) one_carrot_model
           jpeg_upload one_carrot_answer).
  reflexivity.
Defined.

Lemma page_counts_match_service_witness :
  count_of
    (Drawing.draw_predictions_on_image Z (fun y => y - 25) (fun y => y + 5)
       (fun y => 0 <? y) (fun _ => "1.00") (fun x y _ => (x, y, x, y))
       (Some one_carrot_answer) {["carrot" := false]}).2 "carrot"
  = count_of (PredictionApi.vegetable_counts one_carrot_answer) "carrot".
Proof.
  apply (page_counts_match_service (fun y => y - 25) (fun y => y + 5)
           (fun y => 0 <? y) (fun _ => "1.00") (fun x y _ => (x, y, x, y))
           (fun x => x) (fun _ => Some tt) one_carrot_model jpeg_upload).
  reflexivity.
Defined.

(** A model that reports class id 5, and the answer of the service of
    src/api.py. *)
Definition class_five_model (img : unit) : option (list (Yolo.result Z)) :=
  Some [Yolo.Result (Some [Yolo.Box (10, 20, 30, 40) 1 5])].

Definition one_unknown_answer : SrcApi.response Z :=
  SrcApi.Response [SrcApi.Detection "unknown" 1 (10, 20, 30, 40)]
    (<["unknown" := 1%nat]> ∅) 1.

Lemma src_api_counts_add_up_witness :
  SrcApi.total_items one_unknown_answer
  = length (SrcApi.detections one_unknown_answer) /\
  (forall c,
     count_of (SrcApi.counts one_unknown_answer) c
     = occurrences SrcApi.class c (SrcApi.detections one_unknown_answer)) /\
  (forall d, d ∈ SrcApi.detections one_unknown_answer ->
             SrcApi.class d ∈ SrcApi.CLASS_NAMES_API
             \/ SrcApi.class d = "unknown").
Proof.
  apply (src_api_counts_add_up (fun x => x) (fun x => x) (fun x => x)
           (fun _ => inr tt) (Some class_five_model) (inr "bytes")
           one_unknown_answer).
  reflexivity.
Defined.

Lemma client_accepts_only_prediction_api_witness :
  ApiClient.predict_with_retry answer key_test true
    (fun _ => ApiClient.Responds answer
                (ApiClient.Response answer 200 ""
                   (ApiClient.Decodes answer (inr one_unknown_answer)))) 2
  = ([ApiClient.Post 60; ApiClient.WarnUnexpectedFormat], inr None).
Proof.
  apply (client_accepts_only_prediction_api true
           (fun _ => ApiClient.Responds answer
                       (ApiClient.Response answer 200 ""
                          (ApiClient.Decodes answer (inr one_unknown_answer))))
           2 "" (inr one_unknown_answer)).
  - lia.
  - reflexivity.
Defined.
